(** * MyBTC-wallet: fee model, UTXO selection, transaction assembly, key
    custody, signing requests and the wallet database

    A shallow embedding of
      - btc_wallet_app/utils/fee_estimator.py
      - btc_wallet_app/wallet/tx_builder.py
      - btc_wallet_app/wallet/key_manager.py
      - btc_wallet_app/wallet/tx_signer.py
      - btc_wallet_app/storage/database.py
    Python integers are unbounded, so they are [Z]; [str] is [string];
    [bytes] is [list byte]; a raised exception is the [Err] case of
    [result], carrying the exception class and what its message reports. *)

From Stdlib Require Import ZArith String List Bool Lia Permutation Sorted.
From Stdlib.Strings Require Import Byte.
Import ListNotations.
Open Scope string_scope.
Open Scope list_scope.
Open Scope Z_scope.

(* ================================================================== *)
(** ** Exceptions and results *)

Module Py.

(** The exception classes raised by, or propagated through, the modelled
    functions. [JSONDecodeError] also stands for the [UnicodeDecodeError]
    of [bytes.decode]: both arise at line 114 of key_manager.py. The
    libraries raise classes of their own; bitcoinlib's [TransactionError]
    and [EncodingError] and Python's [AttributeError] are named, any other
    class is [OtherError] with its name. *)
Inductive exc_class : Type :=
  | ValueError
  | FileNotFoundError
  | ScriptError
  | InvalidToken
  | JSONDecodeError
  | KeyError
  | TransactionError
  | EncodingError
  | AttributeError
  | OtherError (class_name : string).

(** The message of an exception: which [raise] statement built it and the
    values its f-string interpolates. *)
Inductive message : Type :=
  (* select_utxos_for_amount *)
  | NoUtxosProvided
  | UtxoMissingKeys (index : nat)
  | InsufficientFunds (need available : Z) (num_selected : nat) (final_fee : Z)
  (* create_raw_transaction *)
  | NetworkNotRecognized (network_name : string)
  | NoUtxosToSpend
  | SpendUtxoMissingKeys
  | InvalidAddress (network_name : string)
  | InsufficientFundsPreliminary (total_input target fee required : Z)
  | NegativeChange (change : Z)
  | BalanceDeficit (total_input total_out fee : Z)
  (* key_manager *)
  | WalletFileNotFound (filepath : string)
  | FailedToDecrypt (inner : message)
  (* a dictionary subscript on an absent key *)
  | MissingKey (key : string)
  (* raised inside a library, message not built by this program *)
  | LibraryMessage.

Record exception : Type := Raise { exc_type : exc_class; exc_msg : message }.

Inductive result (A : Type) : Type :=
  | Ok (a : A)
  | Err (e : exception).
Arguments Ok {A} a.
Arguments Err {A} e.

Definition bind {A B} (r : result A) (k : A -> result B) : result B :=
  match r with
  | Ok a => k a
  | Err e => Err e
  end.

Definition is_ok {A} (r : result A) : bool :=
  match r with Ok _ => true | Err _ => false end.

(** [s in l] for a list of strings. *)
Definition str_in (s : string) (l : list string) : bool :=
  existsb (String.eqb s) l.

End Py.
Import Py.

Notation "x <- r ;; k" := (Py.bind r (fun x => k))
  (at level 61, r at next level, right associativity).

(* ================================================================== *)
(** ** decimal.Decimal, as far as tx_builder.py uses it *)

Module Decimal.

(** A finite [Decimal]: the number [coefficient * 10 ^ exponent]. The
    arithmetic below is that of the default context as long as the result
    stays inside its exponent range: the [Overflow] that the context traps
    when the adjusted exponent of a result exceeds [Emax] is not part of
    [mul] and [div]; statements that depend on it bound the exponent. *)
Record t : Type := Dec { coefficient : Z; exponent : Z }.

(** Precision and largest exponent of the default context. *)
Definition prec : Z := 28.
Definition Emax : Z := 999999.

Fixpoint digits_fuel (fuel : nat) (n : Z) : Z :=
  match fuel with
  | O => 0
  | S fuel' => if n =? 0 then 0 else 1 + digits_fuel fuel' (n / 10)
  end.

(** Number of decimal digits of a non-negative integer (0 for 0). *)
Definition num_digits (n : Z) : Z :=
  digits_fuel (S (Z.to_nat (Z.log2 n))) n.

(** Drop [shift] low digits of [c >= 0], rounding half to even
    (ROUND_HALF_EVEN, the rounding of the default context). *)
Definition round_half_even (c shift : Z) : Z :=
  let p := 10 ^ shift in
  let q := c / p in
  let r := c mod p in
  if (2 * r >? p) || ((2 * r =? p) && Z.odd q) then q + 1 else q.

(** [d.adjusted()]: the exponent of the most significant digit; a zero
    coefficient counts as one digit. *)
Definition adjusted (d : t) : Z :=
  exponent d + Z.max 1 (num_digits (Z.abs (coefficient d))) - 1.

(** Rounding of an exact result to the context's 28 significant digits. *)
Definition context_round (d : t) : t :=
  let n := num_digits (Z.abs (coefficient d)) in
  if n <=? prec then d
  else
    let shift := n - prec in
    Dec (Z.sgn (coefficient d) * round_half_even (Z.abs (coefficient d)) shift)
        (exponent d + shift).

(** [a * b] *)
Definition mul (a b : t) : t :=
  context_round (Dec (coefficient a * coefficient b) (exponent a + exponent b)).

(** [int(d)]: truncation toward zero. *)
Definition to_int (d : t) : Z :=
  if 0 <=? exponent d then coefficient d * 10 ^ exponent d
  else Z.quot (coefficient d) (10 ^ (- exponent d)).

(** [Decimal(n)] for an integer [n]. *)
Definition of_int (n : Z) : t := Dec n 0.

(** The loop of [__truediv__] on an exact quotient: at most [k] trailing
    zeros of the coefficient are traded for exponent, [k] being the
    distance to the ideal exponent. *)
Fixpoint strip_zeros (k : nat) (coeff exp : Z) : Z * Z :=
  match k with
  | O => (coeff, exp)
  | S k' =>
      if coeff mod 10 =? 0 then strip_zeros k' (coeff / 10) (exp + 1)
      else (coeff, exp)
  end.

(** [a / b]; [None] is the [DivisionByZero] (or [DivisionUndefined]) that
    a zero divisor raises. The quotient is computed to [prec + 1] digits
    beyond the operands' lengths; an inexact one gets a sticky digit, an
    exact one moves toward the ideal exponent; then the context rounds. *)
Definition div (a b : t) : option t :=
  if coefficient b =? 0 then None
  else if coefficient a =? 0
  then Some (context_round (Dec 0 (exponent a - exponent b)))
  else
    let sign := Z.sgn (coefficient a) * Z.sgn (coefficient b) in
    let op1 := Z.abs (coefficient a) in
    let op2 := Z.abs (coefficient b) in
    let shift := num_digits op2 - num_digits op1 + prec + 1 in
    let exp := exponent a - exponent b - shift in
    let '(coeff, remainder) :=
      if 0 <=? shift
      then ((op1 * 10 ^ shift) / op2, (op1 * 10 ^ shift) mod op2)
      else (op1 / (op2 * 10 ^ (- shift)), op1 mod (op2 * 10 ^ (- shift))) in
    let '(coeff, exp) :=
      if remainder =? 0
      then
        let ideal_exp := exponent a - exponent b in
        strip_zeros (Z.to_nat (ideal_exp - exp)) coeff exp
      else ((if coeff mod 5 =? 0 then coeff + 1 else coeff), exp) in
    Some (context_round (Dec (sign * coeff) exp)).

End Decimal.

(* ================================================================== *)
(** ** config.py *)

Module config.
Definition DEFAULT_FEE_SATS_PER_BYTE : Z := 10.
Definition NETWORK : string := "mainnet".
End config.

(* ================================================================== *)
(** ** utils/fee_estimator.py *)

Module fee_estimator.

(** The two warnings printed for unknown types go to standard output and
    do not change the value returned. *)
Definition estimate_transaction_size_bytes
    (num_inputs num_outputs : Z) (input_type output_type : string) : Z :=
  let input_vbytes :=
    if String.eqb input_type "p2wpkh" then 68
    else if String.eqb input_type "p2pkh" then 148
    else 100 in
  let output_vbytes :=
    if String.eqb output_type "p2pkh" then 34
    else if String.eqb output_type "p2wpkh" then 31
    else if String.eqb output_type "p2sh" then 32
    else 34 in
  let overhead_vbytes := 10 in
  let overhead_vbytes :=
    if num_inputs >? 252 then overhead_vbytes + 2 else overhead_vbytes in
  let overhead_vbytes :=
    if num_outputs >? 252 then overhead_vbytes + 2 else overhead_vbytes in
  (num_inputs * input_vbytes) + (num_outputs * output_vbytes) + overhead_vbytes.

(** The dictionary returned by [estimate_fee_details]. *)
Record fee_details : Type := FeeDetails {
  estimated_size_vbytes : Z;
  fee_rate_sats_per_vbyte : Z;
  total_fee_sats : Z
}.

Definition estimate_fee_details
    (num_inputs num_outputs : Z) (input_type output_type : string)
    (custom_fee_rate_sats_per_vbyte : option Z) : fee_details :=
  let estimated_size_vbytes :=
    estimate_transaction_size_bytes num_inputs num_outputs input_type output_type in
  let fee_rate_to_use :=
    match custom_fee_rate_sats_per_vbyte with
    | Some r => r
    | None => config.DEFAULT_FEE_SATS_PER_BYTE
    end in
  let total_fee_sats := estimated_size_vbytes * fee_rate_to_use in
  FeeDetails estimated_size_vbytes fee_rate_to_use total_fee_sats.

End fee_estimator.

(* ================================================================== *)
(** ** bitcoinlib, as far as tx_builder.py relies on it

    The transaction codec is an external library. Its [Transaction] object
    is modelled by the data the wallet puts into it; what the wallet cannot
    decide itself is a field of [Codec]: whether [Address] accepts an
    address for a network, whether one of the calls [Transaction(...)],
    [tx.add_input(...)], [tx.add_output(...)] and [tx.hex()] raises, and
    with which exception class, and which hex string serialises a
    transaction. An exception raised inside the library carries
    [LibraryMessage]. *)

Module bitcoinlib.

Module Input.
Record t : Type := Make { prev_txid : string; output_n : Z; value : Z }.
End Input.

Module Output.
Record t : Type := Make { value : Z; address : string }.
End Output.

Record Transaction : Type := Tx {
  network : string;
  witness_type : option string;
  inputs : list Input.t;
  outputs : list Output.t
}.

(** [Transaction(network=..., witness_type=...)], when the library
    constructs it. *)
Definition new_transaction (network : string) (witness_type : option string)
  : Transaction := Tx network witness_type [] [].

(** [tx.add_input(prev_txid=..., output_n=..., value=...)], when the
    library accepts it. *)
Definition add_input (tx : Transaction) (prev_txid : string) (output_n value : Z)
  : Transaction :=
  Tx (network tx) (witness_type tx)
     (inputs tx ++ [Input.Make prev_txid output_n value]) (outputs tx).

(** [tx.add_output(value=..., address=...)], when the library accepts it. *)
Definition add_output (tx : Transaction) (value : Z) (address : string)
  : Transaction :=
  Tx (network tx) (witness_type tx)
     (inputs tx) (outputs tx ++ [Output.Make value address]).

Record Codec : Type := {
  (** [Address(a, network=n)] returns without raising *)
  address_valid : string -> string -> bool;
  (** the class that [Transaction(network=n, witness_type=w)] raises, if
      it raises *)
  transaction_raises : string -> option string -> option exc_class;
  (** the class that [tx.add_input(prev_txid=t, output_n=n, value=v)]
      raises, if it raises *)
  add_input_raises : string -> Z -> Z -> option exc_class;
  (** the class that [tx.add_output(value=v, address=a)] raises, if it
      raises *)
  add_output_raises : Z -> string -> option exc_class;
  (** the class that [tx.hex()] raises, if it raises *)
  hex_raises : Transaction -> option exc_class;
  (** [tx.hex()], when it returns *)
  hex : Transaction -> string
}.

(** [tx.add_output(value=v, address=a)] raises [ScriptError]. *)
Definition output_script_error (codec : Codec) (v : Z) (a : string) : bool :=
  match add_output_raises codec v a with
  | Some ScriptError => true
  | _ => false
  end.

End bitcoinlib.

(* ================================================================== *)
(** ** wallet/tx_builder.py *)

Module tx_builder.
Import bitcoinlib.

Definition SATOSHIS_PER_BTC : Decimal.t := Decimal.of_int 100000000.

Definition btc_to_satoshi (btc_amount : Decimal.t) : Z :=
  Decimal.to_int (Decimal.mul btc_amount SATOSHIS_PER_BTC).

(** [Decimal(satoshi_amount) / SATOSHIS_PER_BTC]; [None] would be the
    exception of a division by zero. *)
Definition satoshi_to_btc (satoshi_amount : Z) : option Decimal.t :=
  Decimal.div (Decimal.of_int satoshi_amount) SATOSHIS_PER_BTC.

(** [output_type] is a parameter of the source function that its body
    never reads. *)
Definition estimate_transaction_size
    (num_inputs num_outputs : Z) (input_type output_type : string) : Z :=
  let input_size :=
    if String.eqb input_type "p2wpkh" then 68
    else if String.eqb input_type "p2pkh" then 148
    else 100 in
  let output_size := 34 in
  let overhead := 10 in
  (num_inputs * input_size) + (num_outputs * output_size) + overhead.

(** A UTXO dictionary. A key that is absent from the dictionary is [None].
    ['address'] and ['confirmations'] are carried along by [u.copy()]. *)
Record utxo : Type := Utxo {
  txid : option string;
  vout : option Z;
  amount : option Decimal.t;
  scriptPubKey : option string;
  satoshi_amount : option Z;
  address : option string;
  confirmations : option Z
}.

Definition present {A} (field : option A) : bool :=
  match field with Some _ => true | None => false end.

(** [k in u] *)
Definition has_key (u : utxo) (k : string) : bool :=
  if String.eqb k "txid" then present (txid u)
  else if String.eqb k "vout" then present (vout u)
  else if String.eqb k "amount" then present (amount u)
  else if String.eqb k "scriptPubKey" then present (scriptPubKey u)
  else if String.eqb k "satoshi_amount" then present (satoshi_amount u)
  else if String.eqb k "address" then present (address u)
  else if String.eqb k "confirmations" then present (confirmations u)
  else false.

(** [u[k]]: a missing key raises [KeyError]. *)
Definition getitem {A} (field : option A) (k : string) : result A :=
  match field with
  | Some a => Ok a
  | None => Err (Raise KeyError (MissingKey k))
  end.

(** [u_copy = u.copy(); u_copy['satoshi_amount'] = s] *)
Definition copy_with_satoshi_amount (u : utxo) (s : Z) : utxo :=
  Utxo (txid u) (vout u) (amount u) (scriptPubKey u) (Some s)
       (address u) (confirmations u).

(** Lines 86-92: validate each UTXO and annotate a copy with its satoshis;
    [i] is the index of the head of [utxos] in the caller's list. *)
Fixpoint validate_and_convert (i : nat) (utxos : list utxo) : result (list utxo) :=
  match utxos with
  | [] => Ok []
  | u :: rest =>
      if negb (forallb (has_key u) ["txid"; "vout"; "amount"; "scriptPubKey"])
      then Err (Raise ValueError (UtxoMissingKeys i))
      else
        a <- getitem (amount u) "amount" ;;
        let u_copy := copy_with_satoshi_amount u (btc_to_satoshi a) in
        rest' <- validate_and_convert (S i) rest ;;
        Ok (u_copy :: rest')
  end.

(** [list.sort(key=..., reverse=True)] computes the key of every element
    first, then sorts stably on the keys, largest first: elements with
    equal keys keep their original order. *)
Fixpoint decorate (l : list utxo) : result (list (Z * utxo)) :=
  match l with
  | [] => Ok []
  | u :: rest =>
      k <- getitem (satoshi_amount u) "satoshi_amount" ;;
      rest' <- decorate rest ;;
      Ok ((k, u) :: rest')
  end.

Fixpoint insert_desc (x : Z * utxo) (l : list (Z * utxo)) : list (Z * utxo) :=
  match l with
  | [] => [x]
  | y :: l' => if fst x >=? fst y then x :: y :: l' else y :: insert_desc x l'
  end.

Fixpoint stable_sort_desc (l : list (Z * utxo)) : list (Z * utxo) :=
  match l with
  | [] => []
  | x :: l' => insert_desc x (stable_sort_desc l')
  end.

Definition sort_by_satoshi_amount_desc (l : list utxo) : result (list utxo) :=
  keyed <- decorate l ;;
  Ok (map snd (stable_sort_desc keyed)).

Section Selection.

Variables (target_amount_sats fee_rate_sats_per_byte : Z).
Variables (input_address_type output_address_type : string).

(** Lines 102-114: the selection loop over the sorted UTXOs that remain,
    with the loop's three variables as accumulators. The result is their
    value when the loop is left, by [break] or by exhaustion. *)
Fixpoint selection_loop (remaining selected_utxos_list : list utxo)
    (total_selected_sats estimated_fee_sats : Z)
  : result (list utxo * Z * Z) :=
  match remaining with
  | [] => Ok (selected_utxos_list, total_selected_sats, estimated_fee_sats)
  | utxo :: remaining' =>
      let selected_utxos_list := selected_utxos_list ++ [utxo] in
      s <- getitem (satoshi_amount utxo) "satoshi_amount" ;;
      let total_selected_sats := total_selected_sats + s in
      let num_inputs := Z.of_nat (length selected_utxos_list) in
      let num_outputs := 2 in
      let current_tx_size :=
        estimate_transaction_size num_inputs num_outputs
          input_address_type output_address_type in
      let estimated_fee_sats := current_tx_size * fee_rate_sats_per_byte in
      if total_selected_sats >=? target_amount_sats + estimated_fee_sats
      then Ok (selected_utxos_list, total_selected_sats, estimated_fee_sats)
      else selection_loop remaining' selected_utxos_list
             total_selected_sats estimated_fee_sats
  end.

Definition select_utxos_for_amount (utxos : list utxo)
  : result (list utxo * Z * Z) :=
  match utxos with
  | [] => Err (Raise ValueError NoUtxosProvided)
  | _ :: _ =>
      utxos_with_sats <- validate_and_convert 0 utxos ;;
      utxos_with_sats <- sort_by_satoshi_amount_desc utxos_with_sats ;;
      st <- selection_loop utxos_with_sats [] 0 0 ;;
      let '(selected_utxos_list, total_selected_sats, estimated_fee_sats) := st in
      let num_outputs_final :=
        if total_selected_sats >? target_amount_sats + estimated_fee_sats then 2
        else if total_selected_sats =? target_amount_sats + estimated_fee_sats then 1
        else 1 in
      let final_tx_size :=
        estimate_transaction_size (Z.of_nat (length selected_utxos_list))
          num_outputs_final input_address_type output_address_type in
      let final_estimated_fee_sats := final_tx_size * fee_rate_sats_per_byte in
      if total_selected_sats <? target_amount_sats + final_estimated_fee_sats
      then Err (Raise ValueError
                  (InsufficientFunds (target_amount_sats + final_estimated_fee_sats)
                     total_selected_sats (length selected_utxos_list)
                     final_estimated_fee_sats))
      else Ok (selected_utxos_list, total_selected_sats, final_estimated_fee_sats)
  end.

End Selection.

Section Assembly.

Variable codec : Codec.

(** Lines 198-205: add one input per UTXO and accumulate the input total.
    An exception of [tx.add_input] ends the loop and the call. *)
Fixpoint add_inputs (utxos_to_spend : list utxo) (tx : Transaction)
    (total_input_sats : Z) : result (Transaction * Z) :=
  match utxos_to_spend with
  | [] => Ok (tx, total_input_sats)
  | utxo_data :: rest =>
      t <- getitem (txid utxo_data) "txid" ;;
      n <- getitem (vout utxo_data) "vout" ;;
      v <- getitem (satoshi_amount utxo_data) "satoshi_amount" ;;
      match add_input_raises codec t n v with
      | Some c => Err (Raise c LibraryMessage)
      | None =>
          let tx := add_input tx t n v in
          s <- getitem (satoshi_amount utxo_data) "satoshi_amount" ;;
          add_inputs rest tx (total_input_sats + s)
      end
  end.

(** [sum(o.value for o in tx.outputs)] *)
Definition sum_output_values (os : list Output.t) : Z :=
  fold_right (fun o acc => Output.value o + acc) 0 os.

(** Lines 158-164: the network name when the argument is [None]. *)
Definition network_from_config : string :=
  let network_name_cfg := config.NETWORK in
  if String.eqb network_name_cfg "testnet" then "testnet"
  else if String.eqb network_name_cfg "mainnet" then "bitcoin"
  else if String.eqb network_name_cfg "regtest" then "regtest"
  else "testnet".

(** Lines 188-193: the witness type passed to [Transaction]. *)
Definition witness_type_param (input_address_type : string) : option string :=
  if String.eqb input_address_type "p2wpkh" then Some "segwit"
  else if String.eqb input_address_type "p2sh-p2wpkh" then Some "segwit_p2sh"
  else None.

(** Lines 158-265 of [create_raw_transaction]: everything up to the
    [return], giving the transaction object [tx] and the fee. Of the
    library's exceptions only a [ScriptError] on the change output is
    caught (lines 238-246); the others end the call. *)
Definition build_transaction
    (recipient_address : string) (amount_btc : Decimal.t)
    (fee_rate_sats_per_byte : Z) (utxos_to_spend : list utxo)
    (change_address : string) (network_name : option string)
    (input_address_type : string) : result (Transaction * Z) :=
  let network_name :=
    match network_name with
    | None => network_from_config
    | Some n => n
    end in
  if negb (str_in network_name ["bitcoin"; "testnet"; "regtest"])
  then Err (Raise ValueError (NetworkNotRecognized network_name))
  else if match utxos_to_spend with [] => true | _ => false end
  then Err (Raise ValueError NoUtxosToSpend)
  else if negb (forallb (fun u =>
                  forallb (has_key u)
                    ["txid"; "vout"; "satoshi_amount"; "scriptPubKey"])
                  utxos_to_spend)
  then Err (Raise ValueError SpendUtxoMissingKeys)
  else if negb (address_valid codec recipient_address network_name
                && address_valid codec change_address network_name)
  then Err (Raise ValueError (InvalidAddress network_name))
  else
    let witness_type_param := witness_type_param input_address_type in
    match transaction_raises codec network_name witness_type_param with
    | Some c => Err (Raise c LibraryMessage)
    | None =>
    let tx := new_transaction network_name witness_type_param in
    st <- add_inputs utxos_to_spend tx 0 ;;
    let '(tx, total_input_sats) := st in
    let target_sats := btc_to_satoshi amount_btc in
    let potential_change_sats := total_input_sats - target_sats in
    let _temp_est_size :=
      estimate_transaction_size (Z.of_nat (List.length utxos_to_spend))
        (if potential_change_sats >? 0 then 2 else 1)
        input_address_type "p2pkh" in
    let calculated_fee_sats := _temp_est_size * fee_rate_sats_per_byte in
    if total_input_sats <? target_sats + calculated_fee_sats
    then Err (Raise ValueError
                (InsufficientFundsPreliminary total_input_sats target_sats
                   calculated_fee_sats (target_sats + calculated_fee_sats)))
    else
      match add_output_raises codec target_sats recipient_address with
      | Some c => Err (Raise c LibraryMessage)
      | None =>
      let tx := add_output tx target_sats recipient_address in
      let change_sats := total_input_sats - target_sats - calculated_fee_sats in
      st <-
        (if change_sats >? 0 then
           let MIN_CHANGE_SATS := 546 in
           if change_sats >=? MIN_CHANGE_SATS then
             match add_output_raises codec change_sats change_address with
             | None =>
                 Ok (add_output tx change_sats change_address, calculated_fee_sats)
             | Some ScriptError => Ok (tx, calculated_fee_sats + change_sats)
             | Some c => Err (Raise c LibraryMessage)
             end
           else Ok (tx, calculated_fee_sats + change_sats)
         else if change_sats <? 0 then
           Err (Raise ValueError (NegativeChange change_sats))
         else Ok (tx, calculated_fee_sats)) ;;
      let '(tx, calculated_fee_sats) := st in
      let total_out_sats := sum_output_values (outputs tx) in
      if negb (total_input_sats =? total_out_sats + calculated_fee_sats)
         && (total_input_sats <? total_out_sats + calculated_fee_sats)
      then Err (Raise ValueError
                  (BalanceDeficit total_input_sats total_out_sats
                     calculated_fee_sats))
      else Ok (tx, calculated_fee_sats)
      end
    end.

(** [return tx.hex(), calculated_fee_sats] *)
Definition create_raw_transaction
    (recipient_address : string) (amount_btc : Decimal.t)
    (fee_rate_sats_per_byte : Z) (utxos_to_spend : list utxo)
    (change_address : string) (network_name : option string)
    (input_address_type : string) : result (string * Z) :=
  st <- build_transaction recipient_address amount_btc fee_rate_sats_per_byte
          utxos_to_spend change_address network_name input_address_type ;;
  let '(tx, calculated_fee_sats) := st in
  match hex_raises codec tx with
  | Some c => Err (Raise c LibraryMessage)
  | None => Ok (hex codec tx, calculated_fee_sats)
  end.

End Assembly.

End tx_builder.

(* ================================================================== *)
(** ** wallet/key_manager.py

    PBKDF2, Fernet, base64 and json are external libraries: they are the
    fields of [Primitives]. The two sources of randomness, [os.urandom(16)]
    for the salt and the IV and clock that [Fernet.encrypt] draws, are
    explicit inputs of the functions that use them. *)

Module key_manager.

Definition bytes : Type := list byte.

(** What one call of [Fernet.encrypt] draws from its environment. *)
Record fernet_env : Type := FernetEnv { iv : bytes; current_time : Z }.

Record Primitives (KeyData : Type) : Type := {
  (** [password.encode()] *)
  str_encode : string -> bytes;
  (** [PBKDF2HMAC(SHA256, length, salt, iterations).derive(pw)] *)
  pbkdf2_hmac_sha256 : Z -> bytes -> Z -> bytes -> bytes;
  (** [base64.urlsafe_b64encode] *)
  urlsafe_b64encode : bytes -> bytes;
  (** [Fernet(key).encrypt(data)] *)
  fernet_encrypt : bytes -> fernet_env -> bytes -> bytes;
  (** [Fernet(key).decrypt(token)]; [None] is [InvalidToken] *)
  fernet_decrypt : bytes -> bytes -> option bytes;
  (** [json.dumps(data).encode('utf-8')] *)
  json_dumps : KeyData -> bytes;
  (** [json.loads(payload.decode('utf-8'))]; [None] when either raises *)
  json_loads : bytes -> option KeyData
}.
Arguments str_encode {KeyData} _ _.
Arguments pbkdf2_hmac_sha256 {KeyData} _ _ _ _ _.
Arguments urlsafe_b64encode {KeyData} _ _.
Arguments fernet_encrypt {KeyData} _ _ _ _.
Arguments fernet_decrypt {KeyData} _ _ _.
Arguments json_dumps {KeyData} _ _.
Arguments json_loads {KeyData} _ _.

(** The files of the wallet's directory. A path names a file through
    [realpath]: two paths name the same file exactly when they resolve
    alike, as a relative and an absolute path of one file do. [content]
    gives, for a resolved path, what [open(path, 'rb').read()] returns, and
    [None] when [os.path.exists(path)] is false. The files are regular
    files that the process may read and write: a path at which [open]
    itself raises is not a state of this model. *)
Record filesystem : Type := Filesystem {
  realpath : string -> string;
  content : string -> option bytes
}.

Section KeyCustody.

Context {KeyData : Type} (P : Primitives KeyData).

Definition _derive_encryption_key (password : string) (salt : bytes) : bytes :=
  urlsafe_b64encode P
    (pbkdf2_hmac_sha256 P 32 salt 100000 (str_encode P password)).

(** [salt] is the value of [os.urandom(16)]. *)
Definition encrypt_key_data (salt : bytes) (env : fernet_env)
    (data : KeyData) (password : string) : bytes :=
  let key := _derive_encryption_key password salt in
  let serialized_data := json_dumps P data in
  let encrypted_payload := fernet_encrypt P key env serialized_data in
  salt ++ encrypted_payload.

Definition decrypt_key_data (encrypted_data_with_salt : bytes)
    (password : string) : result KeyData :=
  let salt := firstn 16 encrypted_data_with_salt in
  let encrypted_payload := skipn 16 encrypted_data_with_salt in
  let key := _derive_encryption_key password salt in
  match fernet_decrypt P key encrypted_payload with
  | None => Err (Raise InvalidToken LibraryMessage)
  | Some decrypted_payload =>
      match json_loads P decrypted_payload with
      | None => Err (Raise JSONDecodeError LibraryMessage)
      | Some data => Ok data
      end
  end.

Definition save_encrypted_key (fs : filesystem) (salt : bytes) (env : fernet_env)
    (key_data : KeyData) (password : string) (filepath : string) : filesystem :=
  let encrypted_data := encrypt_key_data salt env key_data password in
  Filesystem (realpath fs)
    (fun file =>
       if String.eqb file (realpath fs filepath) then Some encrypted_data
       else content fs file).

Definition load_encrypted_key (fs : filesystem) (filepath : string)
    (password : string) : result KeyData :=
  match content fs (realpath fs filepath) with
  | None => Err (Raise FileNotFoundError (WalletFileNotFound filepath))
  | Some encrypted_data_with_salt =>
      match decrypt_key_data encrypted_data_with_salt password with
      | Ok key_data => Ok key_data
      | Err e => Err (Raise ValueError (FailedToDecrypt (exc_msg e)))
      end
  end.

End KeyCustody.

(** The dictionary that [generate_wif_key] and [import_wif_key] return. *)
Record key_info : Type := KeyInfo {
  wif : string;
  address : string;
  private_key_hex : string;
  public_key_hex : string;
  network : string;
  address_type : string
}.

(** How the two functions fail. *)
Inductive key_error : Type :=
  (** [ValueError("Unsupported address type: ...")] *)
  | UnsupportedAddressType (address_type : string)
  (** [ValueError("Invalid WIF key or network name: ...")] *)
  | InvalidWifOrNetwork
  (** whatever [Key(network=...)] raises; [generate_wif_key] lets it pass *)
  | KeyConstructionError.

(** [bitcoinlib.keys.Key], as far as key_manager.py uses it. The random
    private key that [Key(network=...)] draws is the explicit [entropy]. *)
Record KeyLibrary (Key entropy : Type) : Type := {
  (** [Key(network=network_name)]; [None] when it raises *)
  new_key : string -> entropy -> option Key;
  (** [Key(wif_key, network=network_name)]; [None] when it raises *)
  key_from_wif : string -> string -> option Key;
  key_private_hex : Key -> string;
  key_public_hex : Key -> string;
  (** [key.wif()] *)
  key_wif : Key -> string;
  (** [str(key.address(script_type=...))] *)
  key_address : Key -> string -> string
}.
Arguments new_key {Key entropy} _ _ _.
Arguments key_from_wif {Key entropy} _ _ _.
Arguments key_private_hex {Key entropy} _ _.
Arguments key_public_hex {Key entropy} _ _.
Arguments key_wif {Key entropy} _ _.
Arguments key_address {Key entropy} _ _ _.

Section KeyGeneration.

Context {Key entropy : Type} (L : KeyLibrary Key entropy).

Definition generate_wif_key (seed : entropy) (network_name : string)
    (address_type : string) : key_error + key_info :=
  match new_key L network_name seed with
  | None => inl KeyConstructionError
  | Some key =>
      let private_key_hex := key_private_hex L key in
      let public_key_hex := key_public_hex L key in
      let wif := key_wif L key in
      if String.eqb address_type "p2pkh" then
        inr (KeyInfo wif (key_address L key "p2pkh") private_key_hex
               public_key_hex network_name address_type)
      else if String.eqb address_type "p2wpkh" then
        inr (KeyInfo wif (key_address L key "p2wpkh") private_key_hex
               public_key_hex network_name address_type)
      else inl (UnsupportedAddressType address_type)
  end.

Definition import_wif_key (wif_key : string) (network_name : string)
    (address_type : string) : key_error + key_info :=
  match key_from_wif L wif_key network_name with
  | None => inl InvalidWifOrNetwork
  | Some key =>
      let private_key_hex := key_private_hex L key in
      let public_key_hex := key_public_hex L key in
      if String.eqb address_type "p2pkh" then
        inr (KeyInfo wif_key (key_address L key "p2pkh") private_key_hex
               public_key_hex network_name address_type)
      else if String.eqb address_type "p2wpkh" then
        inr (KeyInfo wif_key (key_address L key "p2wpkh") private_key_hex
               public_key_hex network_name address_type)
      else inl (UnsupportedAddressType address_type)
  end.

End KeyGeneration.

End key_manager.

(* ================================================================== *)
(** ** wallet/tx_signer.py

    Signing is done by a Bitcoin Core node, reached through
    [utxo_manager.get_rpc_connection()]. What the [try] block of
    [sign_transaction_with_core] observes of it (a connection error,
    another exception, or a response) is the field
    [signrawtransactionwithkey] of [Node]. The JSON number [float(amount)]
    is a value of the abstract type [float]. *)

Module tx_signer.
Import tx_builder.

(** One entry of [prevtxs]. *)
Module Prevtx.
Record t (float : Type) : Type := Make {
  txid : string;
  vout : Z;
  scriptPubKey : string;
  amount : float
}.
Arguments Make {float} _ _ _ _.
Arguments txid {float} _.
Arguments vout {float} _.
Arguments scriptPubKey {float} _.
Arguments amount {float} _.
End Prevtx.

(** The value that the RPC call returns: some object that is not a
    dictionary, or a dictionary with or without the keys ['hex'],
    ['complete'] and ['errors']. *)
Inductive sign_response : Type :=
  | NotADict
  | Dict (hex : option string) (complete : option bool)
         (errors : option (list string)).

(** What happens inside the [try] block. An exception other than
    [ConnectionError] has its text [str(e)] and, for a JSON-RPC error, the
    message of [e.error]. *)
Inductive rpc_outcome (A : Type) : Type :=
  | Returned (a : A)
  | RaisedConnectionError (text : string)
  | RaisedException (text : string) (error_message : option string).
Arguments Returned {A} a.
Arguments RaisedConnectionError {A} text.
Arguments RaisedException {A} text error_message.

Record Node (float : Type) : Type := {
  (** [float(d)] for a [Decimal] *)
  float_of_decimal : Decimal.t -> float;
  (** [get_rpc_connection().signrawtransactionwithkey(hex, keys, prevtxs)] *)
  signrawtransactionwithkey :
    string -> list string -> list (Prevtx.t float) -> rpc_outcome sign_response
}.
Arguments float_of_decimal {float} _ _.
Arguments signrawtransactionwithkey {float} _ _ _ _.

(** The exceptions that [sign_transaction_with_core] raises itself. *)
Inductive failure : Type :=
  (** [ValueError("Unsigned transaction hex cannot be empty.")] *)
  | EmptyUnsignedHex
  (** [ValueError("UTXOs spent details (prevtxs) cannot be empty.")] *)
  | EmptyPrevtxs
  (** [ValueError("Each UTXO in utxos_spent_details must contain ...")] *)
  | PrevtxMissingKeys
  (** [ConnectionError("Failed to connect to Bitcoin Core for signing: ...")] *)
  | ConnectionFailed (text : string)
  (** [ValueError("Bitcoin Core RPC error during signrawtransactionwithkey: ...")] *)
  | RpcError (error_message : string)
  (** [ValueError("Unexpected response from signrawtransactionwithkey. ...")] *)
  | UnexpectedResponse
  (** a subscript on a key that the dictionary lacks *)
  | SubscriptError (key : string).

Section Signing.

Context {float : Type} (node : Node float).

Definition subscript {A} (field : option A) (k : string) : failure + A :=
  match field with
  | Some a => inr a
  | None => inl (SubscriptError k)
  end.

(** Lines 64-80: the loop that checks each UTXO and builds [prevtxs]. *)
Fixpoint build_prevtxs (utxos_spent_details : list utxo)
  : failure + list (Prevtx.t float) :=
  match utxos_spent_details with
  | [] => inr []
  | utxo :: rest =>
      if negb (forallb (has_key utxo) ["txid"; "vout"; "scriptPubKey"; "amount"])
      then inl PrevtxMissingKeys
      else
        match subscript (txid utxo) "txid",
              subscript (vout utxo) "vout",
              subscript (scriptPubKey utxo) "scriptPubKey",
              subscript (amount utxo) "amount" with
        | inr t, inr n, inr spk, inr a =>
            match build_prevtxs rest with
            | inr prevtxs =>
                inr (Prevtx.Make t n spk (float_of_decimal node a) :: prevtxs)
            | inl e => inl e
            end
        | inl e, _, _, _ => inl e
        | _, inl e, _, _ => inl e
        | _, _, inl e, _ => inl e
        | _, _, _, inl e => inl e
        end
  end.

Definition sign_transaction_with_core (unsigned_tx_hex : string)
    (private_keys_wif : list string) (utxos_spent_details : list utxo)
  : failure + (string * bool) :=
  if String.eqb unsigned_tx_hex EmptyString then inl EmptyUnsignedHex
  else if match utxos_spent_details with [] => true | _ => false end
  then inl EmptyPrevtxs
  else
    match build_prevtxs utxos_spent_details with
    | inl e => inl e
    | inr prevtxs =>
        match signrawtransactionwithkey node unsigned_tx_hex private_keys_wif
                prevtxs with
        | RaisedConnectionError ce => inl (ConnectionFailed ce)
        | RaisedException text error_message =>
            inl (RpcError (match error_message with
                           | Some m => m
                           | None => text
                           end))
        | Returned NotADict => inl UnexpectedResponse
        | Returned (Dict None _ _) => inl UnexpectedResponse
        | Returned (Dict _ None _) => inl UnexpectedResponse
        | Returned (Dict (Some signed_tx_hex) (Some complete) _) =>
            inr (signed_tx_hex, complete)
        end
    end.

End Signing.

End tx_signer.

(* ================================================================== *)
(** ** storage/database.py

    The SQLite file is modelled by its two tables. A table that
    [initialize_db] has not created yet is [None]; a statement on it
    raises [sqlite3.OperationalError], a [sqlite3.Error]. [UNIQUE] makes
    an [INSERT] of a present address or txid raise
    [sqlite3.IntegrityError], and the [with] block then rolls back.
    [AUTOINCREMENT] ids count up from the largest id used so far.
    [CURRENT_TIMESTAMP] is the explicit argument [now]. The statement is
    prepared before its parameters are bound, and the parameters are
    bound before the constraints are checked: a missing table is reported
    before an integer that does not fit, and that before a duplicate.
    Errors of the file system under the database are outside the model. [get_all_keys] and
    [get_all_transactions] order by a timestamp that rows may share, which
    SQL leaves open, and are not modelled. *)

Module database.

(** A row of [keys], as [dict(row)] returns it. *)
Record key_row : Type := KeyRow {
  key_id : Z;
  address : string;
  wif_filename : option string;
  label : option string;
  network : string;
  address_type : string;
  creation_date : Z
}.

(** A row of [transactions]; [amount_btc] is TEXT. *)
Record transaction_row : Type := TransactionRow {
  transaction_id : Z;
  txid : string;
  date : Z;
  amount_btc : string;
  fee_sats : Z;
  recipient_address : string;
  status : string;
  notes : option string
}.

(** The dictionary of [get_transaction_by_txid]: the row with
    ['amount_btc'] replaced by a [Decimal]. *)
Record transaction_record : Type := TransactionRecord {
  record_row : transaction_row;
  record_amount_btc : Decimal.t
}.

Record table (row : Type) : Type := Table {
  rows : list row;
  (** largest id that an insert has used *)
  sequence : Z
}.
Arguments Table {row} _ _.
Arguments rows {row} _.
Arguments sequence {row} _.

Record db : Type := Db {
  keys : option (table key_row);
  transactions : option (table transaction_row)
}.

(** The database file before [initialize_db] ran. *)
Definition new_db : db := Db None None.

(** How a call ends: it returns, or lets an exception pass. *)
Inductive outcome (A : Type) : Type :=
  | Returns (a : A)
  (** a [sqlite3.Error] that the function logs and re-raises *)
  | RaisesSqliteError
  (** [decimal.InvalidOperation], from [Decimal(text)] *)
  | RaisesInvalidOperation
  (** [OverflowError], from binding an integer that SQLite cannot hold;
      it is no [sqlite3.Error] and no handler catches it *)
  | RaisesOverflowError.
Arguments Returns {A} a.
Arguments RaisesSqliteError {A}.
Arguments RaisesInvalidOperation {A}.
Arguments RaisesOverflowError {A}.

(** An SQLite INTEGER is a signed 64-bit number. *)
Definition sqlite_integer (n : Z) : bool :=
  (- 2 ^ 63 <=? n) && (n <? 2 ^ 63).

(** [CREATE TABLE IF NOT EXISTS] for both tables. *)
Definition initialize_db (d : db) : outcome db :=
  Returns
    (Db (match keys d with
         | Some t => Some t
         | None => Some (Table [] 0)
         end)
        (match transactions d with
         | Some t => Some t
         | None => Some (Table [] 0)
         end)).

(* ---- keys ---- *)

Definition add_key_record (d : db) (now : Z)
    (address network address_type : string)
    (wif_filename label : option string) : outcome db :=
  match keys d with
  | None => RaisesSqliteError
  | Some t =>
      if existsb (fun r => String.eqb (database.address r) address) (rows t)
      then Returns d
      else
        let id := sequence t + 1 in
        Returns
          (Db (Some (Table
                 (rows t ++ [KeyRow id address wif_filename label network
                               address_type now])
                 id))
              (transactions d))
  end.

Definition get_key_by_address (d : db) (address : string) : option key_row :=
  match keys d with
  | None => None
  | Some t => find (fun r => String.eqb (database.address r) address) (rows t)
  end.

Definition set_label (new_label : string) (r : key_row) : key_row :=
  KeyRow (key_id r) (address r) (wif_filename r) (Some new_label) (network r)
         (address_type r) (creation_date r).

(** Returns the database and the boolean that the function returns. *)
Definition update_key_label (d : db) (address new_label : string)
  : outcome (db * bool) :=
  match keys d with
  | None => RaisesSqliteError
  | Some t =>
      let matches r := String.eqb (database.address r) address in
      let rowcount := List.length (filter matches (rows t)) in
      let d' :=
        Db (Some (Table
              (map (fun r => if matches r then set_label new_label r else r)
                   (rows t))
              (sequence t)))
           (transactions d) in
      if Nat.eqb rowcount 0 then Returns (d', false) else Returns (d', true)
  end.

(* ---- transactions ---- *)

Section Amounts.

(** [str(d)] and [Decimal(text)]; [None] when the text is no number. *)
Variable decimal_str : Decimal.t -> string.
Variable decimal_of_string : string -> option Decimal.t.

Definition add_transaction_record (d : db) (now : Z) (txid : string)
    (amount_btc : Decimal.t + string) (fee_sats : Z)
    (recipient_address status : string) (notes : option string) : outcome db :=
  let amount_btc_str :=
    match amount_btc with
    | inl dec => decimal_str dec
    | inr text => text
    end in
  match transactions d with
  | None => RaisesSqliteError
  | Some t =>
      if negb (sqlite_integer fee_sats) then RaisesOverflowError
      else if existsb (fun r => String.eqb (database.txid r) txid) (rows t)
      then Returns d
      else
        let id := sequence t + 1 in
        Returns
          (Db (keys d)
              (Some (Table
                 (rows t ++ [TransactionRow id txid now amount_btc_str fee_sats
                               recipient_address status notes])
                 id)))
  end.

Definition get_transaction_by_txid (d : db) (txid : string)
  : outcome (option transaction_record) :=
  match transactions d with
  | None => Returns None
  | Some t =>
      match find (fun r => String.eqb (database.txid r) txid) (rows t) with
      | None => Returns None
      | Some row =>
          match decimal_of_string (amount_btc row) with
          | Some dec => Returns (Some (TransactionRecord row dec))
          | None => RaisesInvalidOperation
          end
      end
  end.

End Amounts.

Definition set_status (new_status : string) (r : transaction_row)
  : transaction_row :=
  TransactionRow (transaction_id r) (txid r) (date r) (amount_btc r)
    (fee_sats r) (recipient_address r) new_status (notes r).

Definition update_transaction_status (d : db) (txid new_status : string)
  : outcome (db * bool) :=
  match transactions d with
  | None => RaisesSqliteError
  | Some t =>
      let matches r := String.eqb (database.txid r) txid in
      let rowcount := List.length (filter matches (rows t)) in
      let d' :=
        Db (keys d)
           (Some (Table
              (map (fun r => if matches r then set_status new_status r else r)
                   (rows t))
              (sequence t))) in
      if Nat.eqb rowcount 0 then Returns (d', false) else Returns (d', true)
  end.

End database.

(* ================================================================== *)
(** ** Vocabulary of the statements *)

(** The size table of the specification's FeeModel section. *)
Module FeeModelSpec.

Definition input_unit (input_type : string) : Z :=
  if String.eqb input_type "p2wpkh" then 68
  else if String.eqb input_type "p2pkh" then 148
  else 100.

Definition overhead (num_inputs num_outputs : Z) : Z :=
  10 + (if num_inputs >? 252 then 2 else 0)
     + (if num_outputs >? 252 then 2 else 0).

Definition total_size (num_inputs num_outputs input_unit output_unit : Z) : Z :=
  num_inputs * input_unit + num_outputs * output_unit
  + overhead num_inputs num_outputs.

End FeeModelSpec.

Module Selection.
Import tx_builder.

(** The four keys that [select_utxos_for_amount] requires. *)
Definition well_formed (u : utxo) : Prop :=
  forallb (has_key u) ["txid"; "vout"; "amount"; "scriptPubKey"] = true.

(** The satoshi value of a UTXO as supplied: its ['amount'] converted. *)
Definition utxo_value (u : utxo) : Z :=
  match amount u with
  | Some a => btc_to_satoshi a
  | None => 0
  end.


(** The ['satoshi_amount'] annotation of a selected UTXO. *)
Definition sats (u : utxo) : Z :=
  match satoshi_amount u with
  | Some s => s
  | None => 0
  end.

Definition sum_sats (utxos : list utxo) : Z :=
  fold_right (fun u acc => sats u + acc) 0 utxos.

Definition annotated (u : utxo) : Prop := present (satoshi_amount u) = true.

Definition annotate (u : utxo) : utxo :=
  copy_with_satoshi_amount u (utxo_value u).

(** The amount converts inside the exponent range of the decimal context:
    its product with 100,000,000 raises no [decimal.Overflow]. *)
Definition amount_in_range (a : Decimal.t) : Prop :=
  Decimal.adjusted (Decimal.mul a SATOSHIS_PER_BTC) <= Decimal.Emax.

Definition amounts_in_range (utxos : list utxo) : Prop :=
  Forall (fun u => forall a, amount u = Some a -> amount_in_range a) utxos.

(** Largest first, on the keyed list that [sort] works on. *)
Definition key_ge (x y : Z * utxo) : Prop := fst x >= fst y.

End Selection.

Module Assembly.
Import bitcoinlib tx_builder Selection.

(** [sum(i.value for i in tx.inputs)] *)
Definition sum_input_values (ins : list Input.t) : Z :=
  fold_right (fun i acc => Input.value i + acc) 0 ins.

(** The fee that [create_raw_transaction] estimates at lines 211-214. *)
Definition estimated_fee (fee_rate : Z) (utxos_to_spend : list utxo)
    (amount_btc : Decimal.t) (input_address_type : string) : Z :=
  estimate_transaction_size (Z.of_nat (List.length utxos_to_spend))
    (if sum_sats utxos_to_spend - btc_to_satoshi amount_btc >? 0 then 2 else 1)
    input_address_type "p2pkh" * fee_rate.

(** The change computed at line 227. *)
Definition computed_change (fee_rate : Z) (utxos_to_spend : list utxo)
    (amount_btc : Decimal.t) (input_address_type : string) : Z :=
  sum_sats utxos_to_spend - btc_to_satoshi amount_btc
  - estimated_fee fee_rate utxos_to_spend amount_btc input_address_type.

(** An input of the transaction spends this UTXO. *)
Definition spends (i : Input.t) (u : utxo) : Prop :=
  txid u = Some (Input.prev_txid i)
  /\ vout u = Some (Input.output_n i)
  /\ satoshi_amount u = Some (Input.value i).

(** The library takes the input that spends this UTXO. *)
Definition input_accepted (codec : Codec) (u : utxo) : Prop :=
  forall t n v,
    txid u = Some t -> vout u = Some n -> satoshi_amount u = Some v ->
    add_input_raises codec t n v = None.

(** The library takes the change output, or refuses it with the
    [ScriptError] that [create_raw_transaction] catches. *)
Definition change_output_handled (codec : Codec) (change : Z)
    (change_address : string) : Prop :=
  add_output_raises codec change change_address = None
  \/ add_output_raises codec change change_address = Some ScriptError.

(** The messages of the errors that [create_raw_transaction] raises with
    a [raise] statement of its own and that a call can end with. *)
Definition own_message (m : message) : Prop :=
  match m with
  | NetworkNotRecognized _ | NoUtxosToSpend | SpendUtxoMissingKeys
  | InvalidAddress _ | InsufficientFundsPreliminary _ _ _ _ => True
  | _ => False
  end.

End Assembly.

Module KeyCustody.
Import key_manager.

(** Contracts of the libraries that [key_manager.py] calls. *)
Section Contracts.
Context {KeyData : Type} (P : Primitives KeyData).

(** A token made by [Fernet(key).encrypt] decrypts under the same key. *)
Definition fernet_round_trip : Prop :=
  forall key env data, fernet_decrypt P key (fernet_encrypt P key env data) = Some data.

(** [json.loads] reads back what [json.dumps] wrote. *)
Definition json_round_trip : Prop :=
  forall data, json_loads P (json_dumps P data) = Some data.

End Contracts.

(** [Key(wif, network)] rebuilds a key from the WIF that [key.wif()] gave
    for it on that network. *)
Definition wif_round_trip {Key entropy : Type} (L : KeyLibrary Key entropy)
  : Prop :=
  forall network_name seed key,
    new_key L network_name seed = Some key ->
    key_from_wif L (key_wif L key) network_name = Some key.

(** A small instance of [Primitives], to run the functions on. Key data
    is a JSON text; the cipher tags the plaintext with the key. *)
Module Toy.

Fixpoint strip_prefix (k t : bytes) : option bytes :=
  match k, t with
  | [], _ => Some t
  | a :: k', b :: t' => if Byte.eqb a b then strip_prefix k' t' else None
  | _ :: _, [] => None
  end.

Definition primitives : Primitives string :=
  {| str_encode := list_byte_of_string;
     pbkdf2_hmac_sha256 := fun _ salt _ pw => salt ++ pw;
     urlsafe_b64encode := fun b => b;
     fernet_encrypt := fun key _ data => key ++ data;
     fernet_decrypt := strip_prefix;
     json_dumps := list_byte_of_string;
     json_loads := fun b => Some (string_of_list_byte b) |}.

Definition salt_a : bytes := repeat "a"%byte 16.
Definition salt_b : bytes := repeat "b"%byte 16.
Definition env0 : fernet_env := FernetEnv (repeat "0"%byte 16) 0.
Definition key_data : string := "[1, 2, 3]".
Definition password : string := "supersecretpassword".
Definition wallet_filepath : string := "test_wallet.enc".
Definition empty_fs : filesystem := Filesystem (fun path => path) (fun _ => None).

(** A directory in which [./name] and [name] are the same file. *)
Definition cwd_fs : filesystem :=
  Filesystem
    (fun path =>
       if String.prefix "./" path
       then String.substring 2 (String.length path - 2)%nat path
       else path)
    (fun _ => None).

(** A key library whose keys are their own WIF strings. *)
Definition key_library : KeyLibrary string string :=
  {| new_key := fun _ seed => Some seed;
     key_from_wif := fun wif_key _ => Some wif_key;
     key_private_hex := fun key => key;
     key_public_hex := fun key => String.append "02" key;
     key_wif := fun key => key;
     key_address := fun key script_type => String.append script_type key |}.

End Toy.

End KeyCustody.

(** Concrete data: the test block of tx_builder.py and small variants. *)
Module Scenario.
Import bitcoinlib tx_builder.

Definition from_address_p2wpkh : string :=
  "tb1qf9y5m3n7lgjpmj5j9z5kzgv8jcnhpv3wlam7wa".
Definition change_address_p2wpkh : string := from_address_p2wpkh.
Definition recipient_p2wpkh : string :=
  "tb1q0s3z3g0z9y0j7r8z3f0z9y0j7r8z3f0z9y0j7r".

(** A UTXO as [listunspent] supplies it, without ['satoshi_amount']. *)
Definition unspent (t : string) (n : Z) (spk : string) (a : Decimal.t)
    (conf : Z) : utxo :=
  Utxo (Some t) (Some n) (Some a) (Some spk) None
       (Some from_address_p2wpkh) (Some conf).

(** [Decimal('0.005')] BTC, 10 confirmations *)
Definition utxo_0_005 : utxo :=
  unspent "deadbeef00000000000000000000000000000000000000000000000000000000"
    0 "00140000000000000000000000000000000000000000" (Decimal.Dec 5 (-3)) 10.

(** [Decimal('0.003')] BTC, 5 confirmations *)
Definition utxo_0_003 : utxo :=
  unspent "cafebabe00000000000000000000000000000000000000000000000000000000"
    1 "00140000000000000000000000000000000000000001" (Decimal.Dec 3 (-3)) 5.

Definition example_utxos_p2wpkh : list utxo := [utxo_0_005; utxo_0_003].

(** [Decimal('0.002')] *)
Definition target_send_amount_btc : Decimal.t := Decimal.Dec 2 (-3).
Definition fee_sats_per_byte : Z := 2.

(** 1000 satoshis and 1 satoshi *)
Definition utxo_1000_sats : utxo :=
  unspent "aa" 0 "0014aa" (Decimal.Dec 1 (-5)) 6.

(** A UTXO whose dictionary lacks ['txid']. *)
Definition utxo_without_txid : utxo :=
  Utxo None (Some 0) (Some (Decimal.Dec 1 (-5))) (Some "0014aa") None None None.

(** An already selected UTXO of 100646 satoshis. *)
Definition utxo_100646_sats : utxo :=
  Utxo (Some "cc") (Some 0) (Some (Decimal.Dec 100646 (-8))) (Some "0014cc")
       (Some 100646) None None.

(** A codec that accepts every address and takes every call. *)
Definition permissive_codec : Codec :=
  {| address_valid := fun _ _ => true;
     transaction_raises := fun _ _ => None;
     add_input_raises := fun _ _ _ => None;
     add_output_raises := fun _ _ => None;
     hex_raises := fun _ => None;
     hex := fun _ => EmptyString |}.

(** A codec whose [Address] accepts every string, whose [Transaction]
    takes the witness type segwit only, and whose [add_output] refuses an
    address that does not start with [tb1q]. *)
Definition segwit_codec : Codec :=
  {| address_valid := fun _ _ => true;
     transaction_raises := fun _ w =>
       match w with
       | Some w' => if String.eqb w' "segwit" then None else Some TransactionError
       | None => Some TransactionError
       end;
     add_input_raises := fun _ _ _ => None;
     add_output_raises := fun _ a =>
       if String.prefix "tb1q" a then None else Some EncodingError;
     hex_raises := fun _ => None;
     hex := fun _ => EmptyString |}.

(** The transaction of the scenario, and one whose leftover is dust. *)
Definition scenario_tx : Transaction :=
  Tx "testnet" (Some "segwit")
     [Input.Make
        "deadbeef00000000000000000000000000000000000000000000000000000000"
        0 500000]
     [Output.Make 200000 recipient_p2wpkh;
      Output.Make 299708 change_address_p2wpkh].

Definition dust_tx : Transaction :=
  Tx "testnet" (Some "segwit")
     [Input.Make "cc" 0 100646]
     [Output.Make 100000 recipient_p2wpkh].

End Scenario.

Module Signing.
Import tx_builder tx_signer.

(** The prevtx entry [p] describes the UTXO [u]. *)
Definition prevtx_for {float : Type} (node : Node float)
    (p : Prevtx.t float) (u : utxo) : Prop :=
  txid u = Some (Prevtx.txid p)
  /\ vout u = Some (Prevtx.vout p)
  /\ scriptPubKey u = Some (Prevtx.scriptPubKey p)
  /\ exists a, amount u = Some a /\ Prevtx.amount p = float_of_decimal node a.

(** A node that signs everything, and one that cannot be reached. *)
Definition signing_node : Node Decimal.t :=
  {| float_of_decimal := fun d => d;
     signrawtransactionwithkey := fun unsigned_tx_hex _ _ =>
       Returned (Dict (Some (String.append unsigned_tx_hex "ff")) (Some true) None) |}.

Definition unreachable_node : Node Decimal.t :=
  {| float_of_decimal := fun d => d;
     signrawtransactionwithkey := fun _ _ _ =>
       RaisedConnectionError "refused" |}.

End Signing.

Module DatabaseScenario.
Import database.

(** The records that the test block of database.py writes. *)
Definition decimal_str_example (d : Decimal.t) : string := "0.5".
Definition decimal_of_string_example (text : string) : option Decimal.t :=
  if String.eqb text "0.5" then Some (Decimal.Dec 5 (-1)) else None.

Definition db_with_key : db :=
  Db (Some (Table [KeyRow 1 "testaddr1" (Some "mywallet.dat")
                     (Some "Test Key 1") "testnet" "p2wpkh" 100] 1))
     (Some (Table [] 0)).

Definition db_with_transaction : db :=
  Db (Some (Table [] 0))
     (Some (Table [TransactionRow 1 "txid_example_123" 100 "0.5" 5000
                     "recipient_addr_1" "broadcasted" (Some "Sent to friend")]
              1)).

End DatabaseScenario.

(* ================================================================== *)
(** ** Fee model *)

Module FeeFacts.
Import FeeModelSpec.

(** [int(Decimal * 100000000)] truncates toward zero; a product of more
    than 28 digits is first rounded half-even to 28. *)
Example btc_to_satoshi_exact :
  tx_builder.btc_to_satoshi (Decimal.Dec 5 (-3)) = 500000.
Proof. reflexivity. Qed.

Example btc_to_satoshi_truncates :
  tx_builder.btc_to_satoshi (Decimal.Dec 19 (-9)) = 1
  /\ tx_builder.btc_to_satoshi (Decimal.Dec (-19) (-9)) = -1.
Proof. split; reflexivity. Qed.

Example btc_to_satoshi_context_precision :
  tx_builder.btc_to_satoshi (Decimal.Dec 123456789012345678901234567895 (-8))
  = 123456789012345678901234567900.
Proof. reflexivity. Qed.

Lemma estimate_transaction_size_bytes_table num_inputs num_outputs input_type :
  fee_estimator.estimate_transaction_size_bytes num_inputs num_outputs input_type "p2pkh"
    = total_size num_inputs num_outputs (input_unit input_type) 34
  /\ fee_estimator.estimate_transaction_size_bytes num_inputs num_outputs input_type "p2wpkh"
    = total_size num_inputs num_outputs (input_unit input_type) 31
  /\ fee_estimator.estimate_transaction_size_bytes num_inputs num_outputs input_type "p2sh"
    = total_size num_inputs num_outputs (input_unit input_type) 32.
Proof.
  unfold fee_estimator.estimate_transaction_size_bytes, total_size, overhead, input_unit.
  cbn [String.eqb Ascii.eqb Bool.eqb].
  destruct (String.eqb input_type "p2wpkh"), (String.eqb input_type "p2pkh"),
    (num_inputs >? 252), (num_outputs >? 252); repeat split; lia.
Qed.

Lemma estimate_transaction_size_formula num_inputs num_outputs input_type output_type :
  tx_builder.estimate_transaction_size num_inputs num_outputs input_type output_type
    = num_inputs * input_unit input_type + num_outputs * 34 + 10.
Proof. reflexivity. Qed.


End FeeFacts.

(* ================================================================== *)
(** ** UTXO selection *)

Module SelectionFacts.
Import tx_builder Selection.

Lemma well_formed_amount u :
  well_formed u -> exists a, amount u = Some a.
Proof.
  unfold well_formed. cbn [forallb]. unfold has_key. cbn [String.eqb Ascii.eqb Bool.eqb].
  destruct (amount u) as [a|].
  - intros _. now exists a.
  - cbn [present]. rewrite !andb_false_r, ?andb_false_l. discriminate.
Qed.

Lemma sats_annotate u : sats (annotate u) = utxo_value u.
Proof. reflexivity. Qed.

Lemma annotated_annotate u : annotated (annotate u).
Proof. reflexivity. Qed.

(** Validation accepts a list of well-formed UTXOs and annotates each. *)
Lemma validate_and_convert_ok utxos :
  Forall well_formed utxos ->
  forall i, validate_and_convert i utxos = Ok (map annotate utxos).
Proof.
  induction 1 as [|u utxos Hu _ IH]; intro i; cbn [validate_and_convert map].
  - reflexivity.
  - unfold well_formed in Hu. rewrite Hu. cbn [negb].
    destruct (well_formed_amount u Hu) as [a Ha].
    rewrite Ha. cbn [getitem bind]. rewrite IH. cbn [bind].
    unfold annotate, utxo_value. now rewrite Ha.
Qed.

Lemma decorate_ok l :
  Forall annotated l ->
  decorate l = Ok (map (fun u => (sats u, u)) l).
Proof.
  induction 1 as [|u l Hu _ IH]; cbn [decorate map].
  - reflexivity.
  - unfold annotated in Hu. unfold sats.
    destruct (satoshi_amount u) as [s|]; [|discriminate].
    cbn [getitem bind]. rewrite IH. reflexivity.
Qed.

Lemma insert_desc_perm x l : Permutation (insert_desc x l) (x :: l).
Proof.
  induction l as [|y l IH]; cbn [insert_desc].
  - apply Permutation_refl.
  - destruct (fst x >=? fst y).
    + apply Permutation_refl.
    + eapply perm_trans; [apply perm_skip, IH | apply perm_swap].
Qed.

Lemma stable_sort_desc_perm l : Permutation (stable_sort_desc l) l.
Proof.
  induction l as [|x l IH]; cbn [stable_sort_desc].
  - apply perm_nil.
  - eapply perm_trans; [apply insert_desc_perm | apply perm_skip, IH].
Qed.


Lemma sum_sats_app l l' : sum_sats (l ++ l') = sum_sats l + sum_sats l'.
Proof.
  induction l as [|u l IH]; cbn [app sum_sats fold_right].
  - reflexivity.
  - fold (sum_sats (l ++ l')). fold (sum_sats l). lia.
Qed.


(** Sorting succeeds on annotated UTXOs and returns a permutation. *)
Lemma sort_by_satoshi_amount_desc_ok l :
  Forall annotated l ->
  exists sorted,
    sort_by_satoshi_amount_desc l = Ok sorted /\ Permutation sorted l.
Proof.
  intro H. unfold sort_by_satoshi_amount_desc. rewrite (decorate_ok l H).
  cbn [bind]. eexists. split; [reflexivity|].
  eapply perm_trans.
  - apply Permutation_map, stable_sort_desc_perm.
  - rewrite map_map. cbn [snd]. rewrite map_id. apply Permutation_refl.
Qed.

Section Loop.

Variables (target rate : Z) (it ot : string).

(** The state in which the selection loop is left. *)
Lemma selection_loop_spec remaining :
  Forall annotated remaining ->
  forall selected total est,
  exists taken rest est',
    remaining = taken ++ rest /\
    selection_loop target rate it ot remaining selected total est
      = Ok (selected ++ taken, total + sum_sats taken, est') /\
    (remaining <> [] ->
       taken <> [] /\
       est' = estimate_transaction_size
                (Z.of_nat (List.length (selected ++ taken))) 2 it ot * rate) /\
    (total + sum_sats taken >= target + est'
     \/ (rest = [] /\ (remaining <> [] -> total + sum_sats taken < target + est'))).
Proof.
  induction 1 as [|u remaining Hu _ IH]; intros selected total est.
  - exists [], [], est. cbn [selection_loop sum_sats fold_right app].
    rewrite app_nil_r, Z.add_0_r. repeat split; try easy.
    right. split; [reflexivity | easy].
  - cbn [selection_loop]. unfold annotated in Hu.
    assert (Hs : satoshi_amount u = Some (sats u)).
    { unfold sats. destruct (satoshi_amount u); [reflexivity | discriminate]. }
    rewrite Hs. cbn [getitem bind].
    set (est1 := estimate_transaction_size
                   (Z.of_nat (List.length (selected ++ [u]))) 2 it ot * rate).
    destruct (total + sats u >=? target + est1) eqn:Hge.
    + exists [u], remaining, est1. cbn [sum_sats fold_right app].
      rewrite Z.add_0_r. repeat split; try easy.
      left. apply Z.geb_le in Hge. lia.
    + destruct (IH (selected ++ [u]) (total + sats u) est1)
        as (taken & rest & est' & Hsplit & Hrun & Hest & Hexit).
      exists (u :: taken), rest, est'.
      rewrite <- app_assoc in Hrun, Hest. cbn [app] in Hrun, Hest.
      cbn [sum_sats fold_right app]. fold (sum_sats taken).
      rewrite Z.add_assoc. split; [now rewrite Hsplit|].
      split; [exact Hrun|].
      assert (Hlt : total + sats u < target + est1).
      { destruct (Z.geb_spec (total + sats u) (target + est1)); [discriminate | lia]. }
      destruct remaining as [|v remaining'].
      * destruct taken; [|destruct taken; discriminate].
        destruct rest; [|discriminate].
        cbn [selection_loop] in Hrun. injection Hrun as Hest'.
        subst est'. cbn [sum_sats fold_right] in *. rewrite Z.add_0_r in *.
        split; [intros _; split; [easy | reflexivity]|].
        right. split; [reflexivity | intros _; exact Hlt].
      * destruct Hest as [Hne Hest']; [easy|].
        split; [intros _; split; [easy | exact Hest']|].
        destruct Hexit as [Hexit | [Hrest Hexit]]; [left; exact Hexit|].
        right. split; [exact Hrest | intros _; apply Hexit; easy].
Qed.

End Loop.

End SelectionFacts.

Module SelectionTheorems.
Import tx_builder Selection SelectionFacts.


End SelectionTheorems.

(* ================================================================== *)
(** ** Transaction assembly *)


Module AssemblyFacts.
Import bitcoinlib tx_builder Selection Assembly.

Lemma sum_input_values_app l l' :
  sum_input_values (l ++ l') = sum_input_values l + sum_input_values l'.
Proof.
  induction l as [|i l IH]; cbn [app sum_input_values fold_right].
  - reflexivity.
  - fold (sum_input_values (l ++ l')). fold (sum_input_values l). lia.
Qed.

Lemma add_inputs_spec codec utxos :
  forall tx total tx' total',
  add_inputs codec utxos tx total = Ok (tx', total') ->
  total' = total + sum_sats utxos
  /\ sum_input_values (inputs tx') = sum_input_values (inputs tx) + sum_sats utxos
  /\ outputs tx' = outputs tx
  /\ List.length (inputs tx') = (List.length (inputs tx) + List.length utxos)%nat.
Proof.
  induction utxos as [|u utxos IH]; intros tx total tx' total' H;
    cbn [add_inputs] in H.
  - injection H as <- <-. cbn [sum_sats fold_right List.length].
    repeat split; try lia.
  - destruct (txid u) as [t|]; [|discriminate].
    destruct (vout u) as [n|]; [|discriminate].
    destruct (satoshi_amount u) as [s|] eqn:Hs; [|discriminate].
    cbn [getitem bind] in H.
    destruct (add_input_raises codec t n s); [discriminate|].
    apply IH in H.
    destruct H as (-> & Hin & Hout & Hlen).
    cbn [add_input inputs outputs] in Hin, Hout, Hlen.
    rewrite sum_input_values_app in Hin. rewrite length_app in Hlen.
    cbn [sum_input_values fold_right Input.value List.length] in Hin, Hlen.
    cbn [sum_sats fold_right List.length]. fold (sum_sats utxos).
    assert (Hu : sats u = s) by (unfold sats; now rewrite Hs).
    rewrite Hu. repeat split; try lia. exact Hout.
Qed.

(** The hex string returned is the serialisation of the transaction that
    lines 158-265 assembled. *)
Lemma create_raw_transaction_returns codec recipient amount rate utxos change
    network it raw_tx_hex fee :
  create_raw_transaction codec recipient amount rate utxos change network it
    = Ok (raw_tx_hex, fee) ->
  exists tx,
    build_transaction codec recipient amount rate utxos change network it
      = Ok (tx, fee)
    /\ raw_tx_hex = hex codec tx.
Proof.
  unfold create_raw_transaction.
  destruct (build_transaction codec recipient amount rate utxos change network it)
    as [[tx fee']|e]; cbn [bind]; [|discriminate].
  destruct (hex_raises codec tx); [discriminate|].
  intro H. injection H as <- <-. now exists tx.
Qed.

Section Build.

Variable codec : Codec.
Variables (recipient_address : string) (amount_btc : Decimal.t) (fee_rate : Z).
Variables (utxos_to_spend : list utxo) (change_address : string).
Variables (network_name : option string) (input_address_type : string).

Let total := sum_sats utxos_to_spend.
Let target := btc_to_satoshi amount_btc.
Let est := estimated_fee fee_rate utxos_to_spend amount_btc input_address_type.
Let change := computed_change fee_rate utxos_to_spend amount_btc input_address_type.

(** What a returned transaction looks like, by the size of the change. *)
Lemma build_transaction_returns tx fee :
  build_transaction codec recipient_address amount_btc fee_rate utxos_to_spend
    change_address network_name input_address_type = Ok (tx, fee) ->
  sum_input_values (inputs tx) = total
  /\ total >= target + est
  /\ ((546 <= change
       /\ output_script_error codec change change_address = false
       /\ outputs tx = [Output.Make target recipient_address;
                        Output.Make change change_address]
       /\ fee = est)
      \/ (546 <= change
          /\ output_script_error codec change change_address = true
          /\ outputs tx = [Output.Make target recipient_address]
          /\ fee = est + change)
      \/ (0 < change < 546
          /\ outputs tx = [Output.Make target recipient_address]
          /\ fee = est + change)
      \/ (change = 0
          /\ outputs tx = [Output.Make target recipient_address]
          /\ fee = est)).
Proof.
  unfold build_transaction.
  destruct (negb (str_in _ _)); [discriminate|].
  match goal with
  | |- context [if ?b then Err (Raise ValueError NoUtxosToSpend) else _] =>
      destruct b; [discriminate|]
  end.
  destruct (negb (forallb _ utxos_to_spend)); [discriminate|].
  destruct (negb (_ && _)); [discriminate|].
  destruct (transaction_raises codec _ _); [discriminate|].
  destruct (add_inputs codec utxos_to_spend _ 0) as [[tx0 tot]|e] eqn:Hadd;
    [|discriminate].
  cbn [bind]. apply add_inputs_spec in Hadd.
  destruct Hadd as (Htot & Hin & Hout & _).
  cbn [new_transaction inputs outputs sum_input_values fold_right] in Hin, Hout.
  rewrite Z.add_0_l in Htot, Hin. subst tot.
  fold total target. 
  change (estimate_transaction_size _ _ _ _ * fee_rate) with est.
  destruct (Z.ltb_spec total (target + est)) as [|Hfunds]; [discriminate|].
  destruct (add_output_raises codec target recipient_address); [discriminate|].
  change (total - target - est) with change.
  assert (Hchange : change = total - target - est) by reflexivity.
  destruct (Z.gtb_spec change 0) as [Hpos|Hnpos].
  - destruct (Z.geb_spec change 546) as [Hbig|Hdust].
    + unfold output_script_error.
      destruct (add_output_raises codec change change_address) as [c|];
        [destruct c|];
        cbn [bind add_output outputs sum_output_values fold_right];
        try discriminate.
      * rewrite Hout. cbn [app sum_output_values fold_right Output.value].
        destruct (_ && _); [discriminate|]. intro H. injection H as <- <-.
        cbn [add_output inputs outputs]. rewrite Hout. cbn [app].
        split; [exact Hin|]. split; [lia|]. right. left. repeat split; try lia; reflexivity.
      * rewrite Hout. cbn [app sum_output_values fold_right Output.value].
        destruct (_ && _); [discriminate|]. intro H. injection H as <- <-.
        cbn [add_output inputs outputs]. rewrite Hout. cbn [app].
        split; [exact Hin|]. split; [lia|]. left. repeat split; try lia; reflexivity.
    + cbn [bind add_output outputs sum_output_values fold_right].
      destruct (_ && _); [discriminate|]. intro H. injection H as <- <-.
      cbn [add_output inputs outputs]. rewrite Hout. cbn [app].
      split; [exact Hin|]. split; [lia|]. right. right. left.
      repeat split; try lia; reflexivity.
  - destruct (Z.ltb_spec change 0) as [Hneg|Hzero]; [lia|].
    cbn [bind add_output outputs sum_output_values fold_right].
    destruct (_ && _); [discriminate|]. intro H. injection H as <- <-.
    cbn [add_output inputs outputs]. rewrite Hout. cbn [app].
    split; [exact Hin|]. split; [lia|]. right. right. right.
    repeat split; try lia; reflexivity.
Qed.

End Build.

End AssemblyFacts.


Module AssemblyTheorems.
Import bitcoinlib tx_builder Selection Assembly AssemblyFacts.

Section Claims.

Variable codec : Codec.
Variables (recipient_address : string) (amount_btc : Decimal.t) (fee_rate : Z).
Variables (utxos_to_spend : list utxo) (change_address : string).
Variables (network_name : option string) (input_address_type : string).

(** C1. Whenever [create_raw_transaction] accepts its input and returns
    [(tx.hex(), fee)], the transaction [tx] it serialised balances exactly:
    the sum of its input values, which is the sum of the satoshi amounts of
    the UTXOs spent, equals the sum of its output values plus the returned
    fee. *)
Theorem create_raw_transaction_balance raw_tx_hex fee :
  create_raw_transaction codec recipient_address amount_btc fee_rate
    utxos_to_spend change_address network_name input_address_type
    = Ok (raw_tx_hex, fee) ->
  exists tx,
    build_transaction codec recipient_address amount_btc fee_rate
      utxos_to_spend change_address network_name input_address_type
      = Ok (tx, fee)
    /\ raw_tx_hex = hex codec tx
    /\ sum_input_values (inputs tx) = sum_sats utxos_to_spend
    /\ sum_input_values (inputs tx) = sum_output_values (outputs tx) + fee.
Proof.
  intro H. apply create_raw_transaction_returns in H.
  destruct H as (tx & Hbuild & Hhex). exists tx.
  split; [exact Hbuild|]. split; [exact Hhex|].
  apply build_transaction_returns in Hbuild.
  destruct Hbuild as (Hin & Hfunds & Hcases). split; [exact Hin|].
  rewrite Hin. unfold computed_change in Hcases.
  destruct Hcases as [(Hc & _ & -> & ->) | [(Hc & _ & -> & ->)
                     | [(Hc & -> & ->) | (Hc & -> & ->)]]];
    cbn [sum_output_values fold_right Output.value]; lia.
Qed.


(** C10. The funds check of [create_raw_transaction] makes the computed
    change non-negative, so on no input does the function raise the
    negative-change error: either the funds check fails, or the change is
    at least zero; and no result is that error. *)
Theorem create_raw_transaction_never_negative_change :
  (sum_sats utxos_to_spend
     < btc_to_satoshi amount_btc
       + estimated_fee fee_rate utxos_to_spend amount_btc input_address_type
   \/ 0 <= computed_change fee_rate utxos_to_spend amount_btc input_address_type)
  /\ (forall c,
        build_transaction codec recipient_address amount_btc fee_rate
          utxos_to_spend change_address network_name input_address_type
        <> Err (Raise ValueError (NegativeChange c)))
  /\ (forall c,
        create_raw_transaction codec recipient_address amount_btc fee_rate
          utxos_to_spend change_address network_name input_address_type
        <> Err (Raise ValueError (NegativeChange c))).
Proof.
  assert (Hbuild : forall c,
    build_transaction codec recipient_address amount_btc fee_rate
      utxos_to_spend change_address network_name input_address_type
    <> Err (Raise ValueError (NegativeChange c))).
  { intro c. unfold build_transaction.
    destruct (negb (str_in _ _)); [discriminate|].
    match goal with
    | |- context [if ?b then Err (Raise ValueError NoUtxosToSpend) else _] =>
        destruct b; [discriminate|]
    end.
    destruct (negb (forallb _ utxos_to_spend)); [discriminate|].
    destruct (negb (_ && _)); [discriminate|].
    destruct (transaction_raises codec _ _); [discriminate|].
    destruct (add_inputs codec utxos_to_spend _ 0) as [[tx0 tot]|e] eqn:Hadd.
    - cbn [bind].
      destruct (Z.ltb_spec tot
        (btc_to_satoshi amount_btc
         + estimate_transaction_size (Z.of_nat (List.length utxos_to_spend))
             (if tot - btc_to_satoshi amount_btc >? 0 then 2 else 1)
             input_address_type "p2pkh" * fee_rate)) as [|Hfunds];
        [discriminate|].
      destruct (add_output_raises codec _ recipient_address); [discriminate|].
      match goal with
      | |- context [if ?x >? 0 then _ else _] =>
          destruct (Z.gtb_spec x 0) as [Hpos|Hnpos]
      end.
      + match goal with
        | |- context [if ?x >=? 546 then _ else _] => destruct (x >=? 546)
        end; [destruct (add_output_raises codec _ change_address) as [[]|]|];
          cbn [bind]; try discriminate; destruct (_ && _); discriminate.
      + match goal with
        | |- context [if ?x <? 0 then _ else _] =>
            destruct (Z.ltb_spec x 0) as [Hneg|Hzero]
        end; [lia|].
        cbn [bind]. destruct (_ && _); discriminate.
    - cbn [bind]. intro H. injection H as ->.
      clear -Hadd. revert Hadd. generalize 0.
      match goal with
      | |- forall z, add_inputs _ _ ?tx z = _ -> _ => generalize tx
      end.
      induction utxos_to_spend as [|u us IH]; intros tx0 tot; cbn [add_inputs].
      + discriminate.
      + destruct (txid u); [|discriminate].
        destruct (vout u); [|discriminate].
        destruct (satoshi_amount u); [|discriminate].
        cbn [getitem bind].
        destruct (add_input_raises codec _ _ _); [discriminate|]. apply IH. }
  split; [|split].
  - unfold computed_change. lia.
  - exact Hbuild.
  - intros c H. unfold create_raw_transaction in H.
    destruct (build_transaction codec recipient_address amount_btc fee_rate
                utxos_to_spend change_address network_name input_address_type)
      as [[tx fee]|e] eqn:Hb; cbn [bind] in H;
      [destruct (hex_raises codec tx); discriminate|].
    injection H as ->. exact (Hbuild c eq_refl).
Qed.

End Claims.

End AssemblyTheorems.

(* ================================================================== *)
(** ** Key custody *)


Module KeyCustodyFacts.
Import key_manager KeyCustody.

Lemma firstn_length_app {A} (l l' : list A) :
  firstn (List.length l) (l ++ l') = l.
Proof. induction l as [|a l IH]; cbn; [destruct l'|]; congruence. Qed.

Lemma skipn_length_app {A} (l l' : list A) :
  skipn (List.length l) (l ++ l') = l'.
Proof. induction l as [|a l IH]; cbn; congruence. Qed.

Lemma strip_prefix_app k m : Toy.strip_prefix k (k ++ m) = Some m.
Proof.
  induction k as [|a k IH]; cbn [Toy.strip_prefix app].
  - reflexivity.
  - rewrite Byte.byte_dec_lb by reflexivity. exact IH.
Qed.

Lemma toy_fernet_round_trip : fernet_round_trip Toy.primitives.
Proof. intros key env data. apply strip_prefix_app. Qed.

Lemma toy_json_round_trip : json_round_trip Toy.primitives.
Proof.
  intro data. cbn [json_loads json_dumps Toy.primitives].
  now rewrite string_of_list_byte_of_string.
Qed.

Section Claims.
Context {KeyData : Type} (P : Primitives KeyData).

(** The container splits back into the salt and the Fernet token. *)
Lemma container_split (salt payload : bytes) :
  List.length salt = 16%nat ->
  firstn 16 (salt ++ payload) = salt /\ skipn 16 (salt ++ payload) = payload.
Proof.
  intros <-. split; [apply firstn_length_app | apply skipn_length_app].
Qed.

(** C5. When Fernet decrypts its own tokens and json reads back its own
    output, decrypting what [encrypt_key_data] produced, with the same
    password, returns the original key data, for every key data, password,
    16-byte salt and Fernet IV and clock; the same holds through
    [save_encrypted_key] and [load_encrypted_key]. *)
Theorem decrypt_encrypt_round_trip
    (salt : bytes) (env : fernet_env) (data : KeyData) (password : string) :
  fernet_round_trip P ->
  json_round_trip P ->
  List.length salt = 16%nat ->
  decrypt_key_data P (encrypt_key_data P salt env data password) password
    = Ok data
  /\ forall fs filepath,
       load_encrypted_key P
         (save_encrypted_key P fs salt env data password filepath)
         filepath password = Ok data.
Proof.
  intros Hfernet Hjson Hlen.
  assert (Hdec :
    decrypt_key_data P (encrypt_key_data P salt env data password) password
      = Ok data).
  { unfold decrypt_key_data, encrypt_key_data.
    destruct (container_split salt
                (fernet_encrypt P (_derive_encryption_key P password salt) env
                   (json_dumps P data)) Hlen) as [-> ->].
    now rewrite Hfernet, Hjson. }
  split; [exact Hdec|].
  intros fs filepath. unfold load_encrypted_key, save_encrypted_key.
  cbn [content realpath]. rewrite String.eqb_refl. now rewrite Hdec.
Qed.

(** C7. Two runs of [encrypt_key_data] on the same key data and password
    whose 16-byte salts differ produce different containers, whatever the
    Fernet IV and clock of either run. *)
Theorem encrypt_key_data_salt_freshness
    (salt1 salt2 : bytes) (env1 env2 : fernet_env)
    (data : KeyData) (password : string) :
  List.length salt1 = 16%nat ->
  List.length salt2 = 16%nat ->
  salt1 <> salt2 ->
  encrypt_key_data P salt1 env1 data password
    <> encrypt_key_data P salt2 env2 data password.
Proof.
  intros H1 H2 Hne Heq. apply Hne.
  unfold encrypt_key_data in Heq.
  apply (f_equal (firstn 16)) in Heq.
  destruct (container_split salt1
              (fernet_encrypt P (_derive_encryption_key P password salt1) env1
                 (json_dumps P data)) H1) as [E1 _].
  destruct (container_split salt2
              (fernet_encrypt P (_derive_encryption_key P password salt2) env2
                 (json_dumps P data)) H2) as [E2 _].
  congruence.
Qed.

(** Every failure of [load_encrypted_key] after the file was read is one
    [ValueError]; a missing file has a class of its own. *)
Lemma load_encrypted_key_failure fs filepath password e :
  load_encrypted_key P fs filepath password = Err e ->
  (exc_type e = ValueError /\ content fs (realpath fs filepath) <> None)
  \/ (exc_type e = FileNotFoundError
      /\ content fs (realpath fs filepath) = None).
Proof.
  unfold load_encrypted_key.
  destruct (content fs (realpath fs filepath)) as [c|].
  - destruct (decrypt_key_data P c password); [discriminate|].
    intro H. injection H as <-. left. split; [reflexivity | discriminate].
  - intro H. injection H as <-. right. split; reflexivity.
Qed.

End Claims.

(** C5 at the toy primitives. *)
Lemma decrypt_encrypt_round_trip_witness :
  fernet_round_trip Toy.primitives
  /\ json_round_trip Toy.primitives
  /\ List.length Toy.salt_a = 16%nat
  /\ decrypt_key_data Toy.primitives
       (encrypt_key_data Toy.primitives Toy.salt_a Toy.env0 Toy.key_data
          Toy.password) Toy.password
     = Ok Toy.key_data.
Proof.
  split; [exact toy_fernet_round_trip|].
  split; [exact toy_json_round_trip|].
  split; [reflexivity|].
  apply (decrypt_encrypt_round_trip Toy.primitives Toy.salt_a Toy.env0
           Toy.key_data Toy.password
           toy_fernet_round_trip toy_json_round_trip eq_refl).
Defined.

(** C7 at two concrete salts. *)
Lemma encrypt_key_data_salt_freshness_witness :
  List.length Toy.salt_a = 16%nat
  /\ List.length Toy.salt_b = 16%nat
  /\ Toy.salt_a <> Toy.salt_b
  /\ encrypt_key_data Toy.primitives Toy.salt_a Toy.env0 Toy.key_data Toy.password
     <> encrypt_key_data Toy.primitives Toy.salt_b Toy.env0 Toy.key_data Toy.password.
Proof.
  assert (Hne : Toy.salt_a <> Toy.salt_b) by (vm_compute; discriminate).
  split; [reflexivity|]. split; [reflexivity|]. split; [exact Hne|].
  apply (encrypt_key_data_salt_freshness Toy.primitives Toy.salt_a Toy.salt_b
           Toy.env0 Toy.env0 Toy.key_data Toy.password eq_refl eq_refl Hne).
Defined.

End KeyCustodyFacts.

(* ================================================================== *)
(** ** Statements at concrete inputs, and the remaining claims *)

Module FeeTheorems.
Import FeeModelSpec Scenario.

(** C4 (as amended). [estimate_transaction_size_bytes] of fee_estimator.py
    follows the size table in full: inputs*input_unit +
    outputs*output_unit + overhead, with input units 68 / 148 / 100,
    output units 34 / 31 / 32 and overhead 10, +2 above 252 inputs, +2
    above 252 outputs; [estimate_fee_details] multiplies that size by the
    rate. The estimator that [select_utxos_for_amount] and
    [create_raw_transaction] call, [estimate_transaction_size] of
    tx_builder.py, uses the same input units but counts 34 for every
    output type and a constant overhead of 10. The fee that
    [select_utxos_for_amount] returns is that size, for the inputs
    selected and one or two outputs, times the rate. The fee that
    [create_raw_transaction] estimates is that size, for the inputs spent
    and two outputs if they exceed the target, one otherwise, times the
    rate; the fee it returns is this estimate when the change is paid out
    or nothing is left over, and the estimate plus the change left when
    the change is not paid out. *)
Theorem size_estimators_and_fee :
  (forall num_inputs num_outputs input_type,
     fee_estimator.estimate_transaction_size_bytes num_inputs num_outputs input_type "p2pkh"
       = total_size num_inputs num_outputs (input_unit input_type) 34
     /\ fee_estimator.estimate_transaction_size_bytes num_inputs num_outputs input_type "p2wpkh"
       = total_size num_inputs num_outputs (input_unit input_type) 31
     /\ fee_estimator.estimate_transaction_size_bytes num_inputs num_outputs input_type "p2sh"
       = total_size num_inputs num_outputs (input_unit input_type) 32)
  /\ (forall num_inputs num_outputs input_type output_type rate,
        fee_estimator.total_fee_sats
          (fee_estimator.estimate_fee_details num_inputs num_outputs
             input_type output_type (Some rate))
        = fee_estimator.estimate_transaction_size_bytes num_inputs num_outputs
            input_type output_type * rate)
  /\ (forall num_inputs num_outputs input_type output_type,
        tx_builder.estimate_transaction_size num_inputs num_outputs
          input_type output_type
        = num_inputs * input_unit input_type + num_outputs * 34 + 10)
  /\ (forall target rate it ot utxos selected total fee,
        tx_builder.select_utxos_for_amount target rate it ot utxos
          = Ok (selected, total, fee) ->
        fee = tx_builder.estimate_transaction_size
                (Z.of_nat (List.length selected)) 1 it ot * rate
        \/ fee = tx_builder.estimate_transaction_size
                   (Z.of_nat (List.length selected)) 2 it ot * rate)
  /\ (forall codec recipient amount rate utxos change_address network it
             raw_tx_hex fee,
        tx_builder.create_raw_transaction codec recipient amount rate utxos
          change_address network it = Ok (raw_tx_hex, fee) ->
        let target := tx_builder.btc_to_satoshi amount in
        let estimate :=
          tx_builder.estimate_transaction_size (Z.of_nat (List.length utxos))
            (if Selection.sum_sats utxos - target >? 0 then 2 else 1)
            it "p2pkh" * rate in
        let left_over := Selection.sum_sats utxos - target - estimate in
        exists tx,
          tx_builder.build_transaction codec recipient amount rate utxos
            change_address network it = Ok (tx, fee)
          /\ 0 <= left_over
          /\ ((fee = estimate
               /\ (bitcoinlib.outputs tx
                   = [bitcoinlib.Output.Make target recipient;
                      bitcoinlib.Output.Make left_over change_address]
                   \/ (left_over = 0
                       /\ bitcoinlib.outputs tx
                          = [bitcoinlib.Output.Make target recipient])))
              \/ (fee = estimate + left_over
                  /\ 0 < left_over
                  /\ bitcoinlib.outputs tx
                     = [bitcoinlib.Output.Make target recipient]))).
Proof.
  split; [exact FeeFacts.estimate_transaction_size_bytes_table|].
  split; [reflexivity|].
  split; [exact FeeFacts.estimate_transaction_size_formula|].
  split.
  - intros target rate it ot utxos selected total fee.
    unfold tx_builder.select_utxos_for_amount.
    destruct utxos as [|u0 us]; [discriminate|].
    destruct (tx_builder.validate_and_convert 0 (u0 :: us)) as [with_sats|];
      [|discriminate].
    cbn [bind].
    destruct (tx_builder.sort_by_satoshi_amount_desc with_sats) as [sorted|];
      [|discriminate].
    cbn [bind].
    destruct (tx_builder.selection_loop target rate it ot sorted [] 0 0)
      as [[[sel tot] est]|]; [|discriminate].
    cbn [bind].
    destruct (tot >? target + est); [|destruct (tot =? target + est)];
      destruct (tot <? _); try discriminate;
      intro H; injection H as <- <- <-; auto.
  - intros codec recipient amount rate utxos change_address network it
      raw_tx_hex fee H target estimate left_over.
    apply AssemblyFacts.create_raw_transaction_returns in H.
    destruct H as (tx & Hbuild & _). exists tx. split; [exact Hbuild|].
    apply AssemblyFacts.build_transaction_returns in Hbuild.
    destruct Hbuild as (_ & Hfunds & Hcases).
    unfold Assembly.computed_change, Assembly.estimated_fee in Hfunds, Hcases.
    fold target in Hfunds, Hcases. fold estimate in Hfunds, Hcases.
    fold left_over in Hcases.
    split; [unfold left_over; lia|].
    destruct Hcases as [(Hc & _ & Ho & Hf) | [(Hc & _ & Ho & Hf)
                       | [(Hc & Ho & Hf) | (Hc & Ho & Hf)]]].
    + left. split; [exact Hf|]. now left.
    + right. split; [exact Hf|]. split; [lia | exact Ho].
    + right. split; [exact Hf|]. split; [lia | exact Ho].
    + left. split; [exact Hf|]. right. now split.
Qed.

(** C4 at the test block's UTXOs, and at a transaction whose change of 500
    satoshis is not paid out: the estimate is 146 and the fee returned is
    646. *)
Lemma size_estimators_and_fee_witness :
  tx_builder.select_utxos_for_amount 200000 2 "p2wpkh" "p2pkh" example_utxos_p2wpkh
    = Ok ([Selection.annotate utxo_0_005], 500000, 292)
  /\ (292 = tx_builder.estimate_transaction_size 1 1 "p2wpkh" "p2pkh" * 2
      \/ 292 = tx_builder.estimate_transaction_size 1 2 "p2wpkh" "p2pkh" * 2)
  /\ tx_builder.create_raw_transaction permissive_codec recipient_p2wpkh
       (Decimal.Dec 1 (-3)) 1 [utxo_100646_sats] change_address_p2wpkh
       (Some "testnet") "p2wpkh"
     = Ok (bitcoinlib.hex permissive_codec dust_tx, 646)
  /\ tx_builder.estimate_transaction_size 1 2 "p2wpkh" "p2pkh" * 1 = 146
  /\ exists tx,
       tx_builder.build_transaction permissive_codec recipient_p2wpkh
         (Decimal.Dec 1 (-3)) 1 [utxo_100646_sats] change_address_p2wpkh
         (Some "testnet") "p2wpkh" = Ok (tx, 646).
Proof.
  assert (H : tx_builder.select_utxos_for_amount 200000 2 "p2wpkh" "p2pkh"
                example_utxos_p2wpkh
              = Ok ([Selection.annotate utxo_0_005], 500000, 292))
    by reflexivity.
  assert (H' : tx_builder.create_raw_transaction permissive_codec
                 recipient_p2wpkh (Decimal.Dec 1 (-3)) 1 [utxo_100646_sats]
                 change_address_p2wpkh (Some "testnet") "p2wpkh"
               = Ok (bitcoinlib.hex permissive_codec dust_tx, 646))
    by reflexivity.
  split; [exact H|]. split.
  - exact (proj1 (proj2 (proj2 (proj2 size_estimators_and_fee)))
             200000 2 "p2wpkh" "p2pkh" example_utxos_p2wpkh _ _ _ H).
  - split; [exact H'|]. split; [reflexivity|].
    destruct (proj2 (proj2 (proj2 (proj2 size_estimators_and_fee)))
                permissive_codec recipient_p2wpkh (Decimal.Dec 1 (-3)) 1
                [utxo_100646_sats] change_address_p2wpkh (Some "testnet")
                "p2wpkh" _ 646 H')
      as (tx & Hbuild & _).
    now exists tx.
Defined.

(** C4 fails for the estimator that selection and assembly call: with
    P2WPKH outputs one input and two outputs are estimated at 146, not at
    68 + 2*31 + 10 = 140, so selection charges 292 where the table gives
    280; and with 253 inputs the overhead stays 10. *)
Lemma estimate_transaction_size_off_table :
  tx_builder.estimate_transaction_size 1 2 "p2wpkh" "p2wpkh" = 146
  /\ total_size 1 2 (input_unit "p2wpkh") 31 = 140
  /\ tx_builder.select_utxos_for_amount 200000 2 "p2wpkh" "p2wpkh" example_utxos_p2wpkh
     = Ok ([Selection.annotate utxo_0_005], 500000, 292)
  /\ total_size 1 2 (input_unit "p2wpkh") 31 * 2 = 280
  /\ tx_builder.estimate_transaction_size 253 1 "p2wpkh" "p2pkh" = 17248
  /\ total_size 253 1 (input_unit "p2wpkh") 34 = 17250.
Proof. repeat split. Qed.

End FeeTheorems.

Module SelectionScenarios.
Import tx_builder Selection Scenario.



End SelectionScenarios.

(* ================================================================== *)
(** ** Which exception a failure raises *)

Module FailureFacts.
Import bitcoinlib tx_builder Selection SelectionFacts.

Lemma validate_and_convert_cases utxos :
  forall i,
  (exists l, validate_and_convert i utxos = Ok l /\ Forall annotated l)
  \/ (exists j, validate_and_convert i utxos
                = Err (Raise ValueError (UtxoMissingKeys j))).
Proof.
  induction utxos as [|u utxos IH]; intro i; cbn [validate_and_convert].
  - left. exists []. split; [reflexivity | constructor].
  - destruct (forallb (has_key u) ["txid"; "vout"; "amount"; "scriptPubKey"])
      eqn:Hwf; cbn [negb].
    + destruct (well_formed_amount u Hwf) as [a ->]. cbn [getitem bind].
      destruct (IH (S i)) as [(l & -> & Hl) | (j & ->)]; cbn [bind].
      * left. eexists. split; [reflexivity|]. constructor; [reflexivity | exact Hl].
      * right. now exists j.
    + right. now exists i.
Qed.

(** Whatever makes [select_utxos_for_amount] fail, it raises [ValueError]. *)
Lemma select_utxos_for_amount_failure target rate it ot utxos e :
  select_utxos_for_amount target rate it ot utxos = Err e ->
  exc_type e = ValueError.
Proof.
  unfold select_utxos_for_amount.
  destruct utxos as [|u0 us]; [intro H; now injection H as <-|].
  destruct (validate_and_convert_cases (u0 :: us) 0) as [(l & -> & Hl) | (j & ->)];
    cbn [bind]; [|intro H; now injection H as <-].
  destruct (sort_by_satoshi_amount_desc_ok l Hl) as (sorted & -> & Hperm).
  cbn [bind].
  assert (Hs : Forall annotated sorted).
  { apply Forall_forall. intros x Hx. rewrite Forall_forall in Hl.
    apply Hl. eapply Permutation_in; eauto. }
  destruct (selection_loop_spec target rate it ot sorted Hs [] 0 0)
    as (taken & rest & est & _ & -> & _).
  cbn [bind].
  match goal with
  | |- (if ?b then _ else _) = _ -> _ => destruct b
  end; [intro H; now injection H as <- | discriminate].
Qed.

Lemma add_inputs_ok codec utxos :
  forallb (fun u => forallb (has_key u)
                      ["txid"; "vout"; "satoshi_amount"; "scriptPubKey"])
          utxos = true ->
  Forall (Assembly.input_accepted codec) utxos ->
  forall tx total, exists tx',
    add_inputs codec utxos tx total = Ok (tx', total + sum_sats utxos).
Proof.
  induction utxos as [|u utxos IH]; cbn [forallb add_inputs];
    intros H Hacc tx total.
  - exists tx. cbn [sum_sats fold_right]. now rewrite Z.add_0_r.
  - apply andb_prop in H. destruct H as [Hu Hrest].
    inversion Hacc as [|? ? Hau Hacc']; subst.
    unfold has_key in Hu. cbn [String.eqb Ascii.eqb Bool.eqb] in Hu.
    unfold sum_sats at 1. cbn [fold_right]. fold (sum_sats utxos).
    unfold sats at 1. unfold Assembly.input_accepted in Hau.
    destruct (txid u) as [t|]; [|discriminate].
    destruct (vout u) as [n|];
      [|cbn [present] in Hu; rewrite ?andb_false_r in Hu; discriminate].
    destruct (satoshi_amount u) as [s|];
      [|cbn [present] in Hu; rewrite ?andb_false_r in Hu; discriminate].
    cbn [getitem bind]. rewrite (Hau t n s eq_refl eq_refl eq_refl).
    destruct (IH Hrest Hacc' (add_input tx t n s) (total + s)) as [tx' ->].
    exists tx'. now rewrite Z.add_assoc.
Qed.

(** On UTXOs that carry the keys, the loop of lines 198-205 fails only
    with an exception of [tx.add_input]. *)
Lemma add_inputs_failure codec utxos :
  forallb (fun u => forallb (has_key u)
                      ["txid"; "vout"; "satoshi_amount"; "scriptPubKey"])
          utxos = true ->
  forall tx total e,
    add_inputs codec utxos tx total = Err e ->
    exc_msg e = LibraryMessage
    /\ exists t n v, add_input_raises codec t n v = Some (exc_type e).
Proof.
  induction utxos as [|u utxos IH]; cbn [forallb add_inputs];
    intros H tx total e.
  - discriminate.
  - apply andb_prop in H. destruct H as [Hu Hrest].
    unfold has_key in Hu. cbn [String.eqb Ascii.eqb Bool.eqb] in Hu.
    destruct (txid u) as [t|]; [|discriminate].
    destruct (vout u) as [n|];
      [|cbn [present] in Hu; rewrite ?andb_false_r in Hu; discriminate].
    destruct (satoshi_amount u) as [s|];
      [|cbn [present] in Hu; rewrite ?andb_false_r in Hu; discriminate].
    cbn [getitem bind].
    destruct (add_input_raises codec t n s) as [c|] eqn:Hc.
    + intro E. injection E as <-. split; [reflexivity|]. now exists t, n, s.
    + apply (IH Hrest).
Qed.

Section Build.

Variable codec : Codec.
Variables (recipient_address : string) (amount_btc : Decimal.t) (fee_rate : Z).
Variables (utxos_to_spend : list utxo) (change_address : string).
Variables (network_name : option string) (input_address_type : string).

Let network : string :=
  match network_name with
  | Some n => n
  | None => network_from_config
  end.

(** A failure of lines 158-265 is one of five [ValueError]s that the
    function raises itself, or an exception that a call into the library
    raised and the function lets pass: from [Transaction], [add_input],
    [add_output] for the recipient, or [add_output] for the change unless
    it is a [ScriptError]. *)
Lemma build_transaction_failure e :
  build_transaction codec recipient_address amount_btc fee_rate utxos_to_spend
    change_address network_name input_address_type = Err e ->
  (exc_type e = ValueError /\ Assembly.own_message (exc_msg e))
  \/ (exc_msg e = LibraryMessage
      /\ (transaction_raises codec network
            (witness_type_param input_address_type) = Some (exc_type e)
          \/ (exists t n v, add_input_raises codec t n v = Some (exc_type e))
          \/ add_output_raises codec (btc_to_satoshi amount_btc)
               recipient_address = Some (exc_type e)
          \/ (add_output_raises codec
                (Assembly.computed_change fee_rate utxos_to_spend amount_btc
                   input_address_type)
                change_address = Some (exc_type e)
              /\ exc_type e <> ScriptError))).
Proof.
  unfold build_transaction. fold network.
  destruct (negb (str_in _ _)); [intro H; injection H as <-; left; now split|].
  match goal with
  | |- context [if ?b then Err (Raise ValueError NoUtxosToSpend) else _] =>
      destruct b; [intro H; injection H as <-; left; now split|]
  end.
  destruct (forallb _ utxos_to_spend) eqn:Hkeys; cbn [negb];
    [|intro H; injection H as <-; left; now split].
  destruct (negb (_ && _)); [intro H; injection H as <-; left; now split|].
  destruct (transaction_raises codec _ _) as [c|] eqn:Htx;
    [intro H; injection H as <-; right; split; [reflexivity|]; now left|].
  destruct (add_inputs codec utxos_to_spend _ 0) as [[tx0 tot]|e0] eqn:Hadd;
    cbn [bind].
  2:{ intro H. injection H as <-.
      destruct (add_inputs_failure _ _ Hkeys _ _ _ Hadd) as [Hm Hex].
      right. split; [exact Hm|]. right. now left. }
  destruct (AssemblyFacts.add_inputs_spec _ _ _ _ _ _ Hadd)
    as (Htot & _ & Hout & _).
  cbn [new_transaction outputs] in Hout. rewrite Z.add_0_l in Htot. subst tot.
  unfold Assembly.computed_change, Assembly.estimated_fee.
  match goal with
  | |- (if ?a <? ?b then _ else _) = _ -> _ =>
      destruct (Z.ltb_spec a b) as [Hlt|Hge];
        [intro H; injection H as <-; left; now split|]
  end.
  destruct (add_output_raises codec _ recipient_address) as [c|] eqn:Hrec;
    [intro H; injection H as <-; right; split; [reflexivity|];
     right; right; now left|].
  match goal with
  | |- context [if ?x >? 0 then _ else _] =>
      destruct (Z.gtb_spec x 0) as [Hpos|Hnpos]
  end.
  - match goal with
    | |- context [if ?x >=? 546 then _ else _] => destruct (x >=? 546)
    end.
    + destruct (add_output_raises codec _ change_address) as [c|] eqn:Hch;
        [destruct c|]; cbn [bind add_output outputs];
        try (intro H; injection H as <-; right; split; [reflexivity|];
             right; right; right; split; [reflexivity | cbn; discriminate]);
        rewrite Hout; cbn [app sum_output_values fold_right Output.value];
        match goal with
        | |- (if negb ?p && (?a <? ?b) then _ else _) = _ -> _ =>
            destruct (Z.ltb_spec a b) as [Hd|Hd];
              [lia | rewrite andb_false_r; discriminate]
        end.
    + cbn [bind add_output outputs]. rewrite Hout.
      cbn [app sum_output_values fold_right Output.value].
      match goal with
      | |- (if negb ?p && (?a <? ?b) then _ else _) = _ -> _ =>
          destruct (Z.ltb_spec a b) as [Hd|Hd];
            [lia | rewrite andb_false_r; discriminate]
      end.
  - match goal with
    | |- context [if ?x <? 0 then _ else _] =>
        destruct (Z.ltb_spec x 0) as [Hneg|Hzero]; [lia|]
    end.
    cbn [bind add_output outputs]. rewrite Hout.
    cbn [app sum_output_values fold_right Output.value].
    match goal with
    | |- (if negb ?p && (?a <? ?b) then _ else _) = _ -> _ =>
        destruct (Z.ltb_spec a b) as [Hd|Hd];
          [lia | rewrite andb_false_r; discriminate]
    end.
Qed.

(** The inputs that [create_raw_transaction] accepts, when the library
    takes the calls made for them. *)
Lemma build_transaction_accepts net :
  network_name = Some net ->
  str_in net ["bitcoin"; "testnet"; "regtest"] = true ->
  utxos_to_spend <> [] ->
  forallb (fun u => forallb (has_key u)
                      ["txid"; "vout"; "satoshi_amount"; "scriptPubKey"])
          utxos_to_spend = true ->
  address_valid codec recipient_address net = true ->
  address_valid codec change_address net = true ->
  sum_sats utxos_to_spend
    >= btc_to_satoshi amount_btc
       + Assembly.estimated_fee fee_rate utxos_to_spend amount_btc
           input_address_type ->
  transaction_raises codec net (witness_type_param input_address_type) = None ->
  Forall (Assembly.input_accepted codec) utxos_to_spend ->
  add_output_raises codec (btc_to_satoshi amount_btc) recipient_address
    = None ->
  Assembly.change_output_handled codec
    (Assembly.computed_change fee_rate utxos_to_spend amount_btc
       input_address_type) change_address ->
  exists tx fee,
    build_transaction codec recipient_address amount_btc fee_rate
      utxos_to_spend change_address network_name input_address_type
    = Ok (tx, fee).
Proof.
  intros Hname Hnet Hne Hkeys Hr Hc Hfunds Htx Hacc Hrec Hch.
  destruct (build_transaction codec recipient_address amount_btc fee_rate
              utxos_to_spend change_address network_name input_address_type)
    as [[tx fee]|e] eqn:Hb; [now exists tx, fee|].
  exfalso. revert Hb. unfold build_transaction. rewrite Hname.
  rewrite Hnet, Hkeys, Hr, Hc, Htx. cbn [negb andb].
  match goal with
  | |- context [if ?b then Err (Raise ValueError NoUtxosToSpend) else _] =>
      replace b with false by (destruct utxos_to_spend; easy)
  end.
  match goal with
  | |- context [add_inputs codec utxos_to_spend ?tx 0] =>
      destruct (add_inputs_ok codec utxos_to_spend Hkeys Hacc tx 0) as [tx0 Hadd]
  end.
  rewrite Hadd.
  destruct (AssemblyFacts.add_inputs_spec _ _ _ _ _ _ Hadd) as (_ & _ & Hout & _).
  cbn [new_transaction outputs] in Hout.
  cbn [bind]. rewrite Z.add_0_l.
  unfold Assembly.change_output_handled, Assembly.computed_change,
    Assembly.estimated_fee in Hfunds, Hch.
  match goal with
  | |- (if ?a <? ?b then _ else _) = _ -> _ =>
      destruct (Z.ltb_spec a b) as [Hlt|Hge]; [lia|]
  end.
  rewrite Hrec.
  match goal with
  | |- context [if ?x >? 0 then _ else _] =>
      destruct (Z.gtb_spec x 0) as [Hpos|Hnpos]
  end.
  - match goal with
    | |- context [if ?x >=? 546 then _ else _] => destruct (x >=? 546)
    end; [destruct Hch as [-> | ->]|];
      cbn [bind add_output outputs]; rewrite Hout;
      cbn [app sum_output_values fold_right Output.value];
      match goal with
      | |- (if negb ?p && (?a <? ?b) then _ else _) = _ -> _ =>
          destruct (Z.ltb_spec a b) as [Hd|Hd];
            [lia | rewrite andb_false_r; discriminate]
      end.
  - match goal with
    | |- context [if ?x <? 0 then _ else _] =>
        destruct (Z.ltb_spec x 0) as [Hneg|Hzero]; [lia|]
    end.
    cbn [bind add_output outputs]. rewrite Hout.
    cbn [app sum_output_values fold_right Output.value].
    match goal with
    | |- (if negb ?p && (?a <? ?b) then _ else _) = _ -> _ =>
        destruct (Z.ltb_spec a b) as [Hd|Hd];
          [lia | rewrite andb_false_r; discriminate]
    end.
Qed.

End Build.

End FailureFacts.

Module FailureTheorems.
Import bitcoinlib tx_builder key_manager Scenario FailureFacts.

(** C9 (as amended). The failures that the core functions report
    themselves share one exception class, [ValueError]: a malformed UTXO,
    insufficient funds, an address that [Address] refuses, an unrecognised
    network and a failed decryption differ in their message only; a missing
    wallet file is a [FileNotFoundError]. Every other failure of
    [create_raw_transaction] is an exception that a call into bitcoinlib
    raised ([Transaction], [add_input], [add_output] for the recipient,
    [add_output] for the change unless it is the [ScriptError] that is
    caught, [hex]) and that passes unchanged, with the class the library
    gave it. Amounts are inside the exponent range of the decimal context;
    outside of it the conversion to satoshis raises [decimal.Overflow]. *)
Theorem failures_share_value_error :
  (forall target rate it ot utxos e,
     Selection.amounts_in_range utxos ->
     select_utxos_for_amount target rate it ot utxos = Err e ->
     exc_type e = ValueError)
  /\ (forall codec recipient amount rate utxos change network it e,
        Selection.amount_in_range amount ->
        create_raw_transaction codec recipient amount rate utxos change
          network it = Err e ->
        (exc_type e = ValueError /\ Assembly.own_message (exc_msg e))
        \/ (exc_msg e = LibraryMessage
            /\ (transaction_raises codec
                  (match network with
                   | Some n => n
                   | None => network_from_config
                   end)
                  (witness_type_param it) = Some (exc_type e)
                \/ (exists t n v,
                      add_input_raises codec t n v = Some (exc_type e))
                \/ add_output_raises codec (btc_to_satoshi amount) recipient
                   = Some (exc_type e)
                \/ (add_output_raises codec
                      (Assembly.computed_change rate utxos amount it) change
                    = Some (exc_type e)
                    /\ exc_type e <> ScriptError)
                \/ (exists tx, hex_raises codec tx = Some (exc_type e)))))
  /\ (forall codec recipient amount rate utxos change net it,
        str_in net ["bitcoin"; "testnet"; "regtest"] = true ->
        utxos <> [] ->
        forallb (fun u => forallb (has_key u)
                            ["txid"; "vout"; "satoshi_amount"; "scriptPubKey"])
                utxos = true ->
        address_valid codec recipient net && address_valid codec change net
          = false ->
        create_raw_transaction codec recipient amount rate utxos change
          (Some net) it
        = Err (Raise ValueError (InvalidAddress net)))
  /\ (forall KeyData (P : Primitives KeyData) fs filepath password,
        (content fs (realpath fs filepath) = None ->
         load_encrypted_key P fs filepath password
         = Err (Raise FileNotFoundError (WalletFileNotFound filepath)))
        /\ (forall encrypted e,
              content fs (realpath fs filepath) = Some encrypted ->
              decrypt_key_data P encrypted password = Err e ->
              load_encrypted_key P fs filepath password
              = Err (Raise ValueError (FailedToDecrypt (exc_msg e))))).
Proof.
  split; [intros target rate it ot utxos e _;
          apply select_utxos_for_amount_failure|].
  split; [|split].
  - intros codec recipient amount rate utxos change network it e _.
    unfold create_raw_transaction.
    destruct (build_transaction codec recipient amount rate utxos change
                network it) as [[tx fee]|e0] eqn:Hb; cbn [bind].
    + destruct (hex_raises codec tx) as [c|] eqn:Hhex; [|discriminate].
      intro H. injection H as <-. right. split; [reflexivity|].
      do 4 right. now exists tx.
    + intro H. injection H as <-.
      destruct (build_transaction_failure _ _ _ _ _ _ _ _ _ Hb)
        as [Hown | [Hm [H1 | [H2 | [H3 | H4]]]]]; [now left|right..];
        (split; [exact Hm|]); tauto.
  - intros codec recipient amount rate utxos change net it Hnet Hne Hkeys Haddr.
    unfold create_raw_transaction, build_transaction.
    rewrite Hnet, Hkeys, Haddr. cbn [negb].
    destruct utxos; [contradiction|reflexivity].
  - intros KeyData P fs filepath password. unfold load_encrypted_key. split.
    + now intros ->.
    + now intros encrypted e -> ->.
Qed.

(** C9 (as amended) at a selection that lacks funds. *)
Lemma failures_share_value_error_witness :
  Selection.amounts_in_range example_utxos_p2wpkh
  /\ select_utxos_for_amount 1000000 2 "p2wpkh" "p2pkh" example_utxos_p2wpkh
     = Err (Raise ValueError (InsufficientFunds 1000360 800000 2 360))
  /\ exc_type (Raise ValueError (InsufficientFunds 1000360 800000 2 360))
     = ValueError.
Proof.
  assert (Hrange : Selection.amounts_in_range example_utxos_p2wpkh).
  { repeat constructor; intros a Ha; injection Ha as <-;
      vm_compute; discriminate. }
  assert (H : select_utxos_for_amount 1000000 2 "p2wpkh" "p2pkh"
                example_utxos_p2wpkh
              = Err (Raise ValueError (InsufficientFunds 1000360 800000 2 360)))
    by reflexivity.
  split; [exact Hrange|]. split; [exact H|].
  exact (proj1 failures_share_value_error _ _ _ _ _ _ Hrange H).
Defined.

(** C9 fails as stated: a malformed UTXO, insufficient funds, an
    unsupported network and a failed decryption are all reported with the
    same exception class, [ValueError]; the network check precedes every
    call into the library. *)
Lemma failure_kinds_share_one_class :
  let malformed_utxo :=
    select_utxos_for_amount 200000 2 "p2wpkh" "p2pkh" [utxo_without_txid] in
  let insufficient_funds :=
    select_utxos_for_amount 1000000 2 "p2wpkh" "p2pkh" example_utxos_p2wpkh in
  let unsupported_network :=
    create_raw_transaction permissive_codec recipient_p2wpkh
      target_send_amount_btc 2 [Selection.annotate utxo_0_005]
      change_address_p2wpkh (Some "bitcoin_testnet") "p2wpkh" in
  let decryption_failure :=
    load_encrypted_key KeyCustody.Toy.primitives
      (save_encrypted_key KeyCustody.Toy.primitives KeyCustody.Toy.empty_fs
         KeyCustody.Toy.salt_a KeyCustody.Toy.env0 KeyCustody.Toy.key_data
         KeyCustody.Toy.password KeyCustody.Toy.wallet_filepath)
      KeyCustody.Toy.wallet_filepath "wrongpassword" in
  malformed_utxo = Err (Raise ValueError (UtxoMissingKeys 0))
  /\ insufficient_funds
     = Err (Raise ValueError (InsufficientFunds 1000360 800000 2 360))
  /\ unsupported_network
     = Err (Raise ValueError (NetworkNotRecognized "bitcoin_testnet"))
  /\ decryption_failure
     = Err (Raise ValueError (FailedToDecrypt LibraryMessage)).
Proof. cbv zeta. repeat split. Qed.

End FailureTheorems.

Module AssemblyScenarios.
Import bitcoinlib tx_builder Selection Assembly Scenario.

(** C8. In the scenario of the test block (two segwit UTXOs of 0.005 and
    0.003 BTC, target 0.002 BTC, 2 sat/byte), in whichever order the two
    UTXOs are listed, selection picks the 0.005 BTC UTXO alone, with a
    total of 500,000 satoshis and the fee for one input and two outputs,
    292 satoshis. For every recipient and change address on a supported
    network, when the library accepts the two addresses, constructs the
    segwit transaction and takes the input and the two outputs, assembly
    produces the recipient output of 200,000 satoshis and a change output
    of 299,708 satoshis to the change address, and the call returns once
    [hex] does. The fee is within a tenth of the 276 and the change within
    a thousandth of the 299,724 that the specification gives as
    approximate figures. *)
Theorem spec_scenario_selection_and_change
    (codec : Codec) utxos recipient_address change_address network :
  utxos = [utxo_0_005; utxo_0_003] \/ utxos = [utxo_0_003; utxo_0_005] ->
  str_in network ["bitcoin"; "testnet"; "regtest"] = true ->
  address_valid codec recipient_address network = true ->
  address_valid codec change_address network = true ->
  transaction_raises codec network (Some "segwit") = None ->
  input_accepted codec (annotate utxo_0_005) ->
  add_output_raises codec 200000 recipient_address = None ->
  add_output_raises codec 299708 change_address = None ->
  exists selected fee change tx,
    select_utxos_for_amount (btc_to_satoshi target_send_amount_btc)
      fee_sats_per_byte "p2wpkh" "p2pkh" utxos
      = Ok (selected, 500000, fee)
    /\ selected = [annotate utxo_0_005]
    /\ fee = estimate_transaction_size 1 2 "p2wpkh" "p2pkh" * fee_sats_per_byte
    /\ build_transaction codec recipient_address target_send_amount_btc
         fee_sats_per_byte selected change_address (Some network) "p2wpkh"
       = Ok (tx, fee)
    /\ (hex_raises codec tx = None ->
        create_raw_transaction codec recipient_address target_send_amount_btc
          fee_sats_per_byte selected change_address (Some network) "p2wpkh"
        = Ok (hex codec tx, fee))
    /\ sum_input_values (inputs tx) = 500000
    /\ outputs tx = [Output.Make 200000 recipient_address;
                     Output.Make change change_address]
    /\ fee = 292 /\ 10 * Z.abs (fee - 276) <= 276
    /\ change = 299708 /\ 1000 * Z.abs (change - 299724) <= 299724.
Proof.
  intros Hlist Hnet Hr Hc Htx Hin0 Hor Hoc.
  assert (Hsel :
    select_utxos_for_amount (btc_to_satoshi target_send_amount_btc)
      fee_sats_per_byte "p2wpkh" "p2pkh" utxos
    = Ok ([annotate utxo_0_005], 500000, 292)).
  { destruct Hlist as [-> | ->]; reflexivity. }
  destruct (FailureFacts.build_transaction_accepts codec recipient_address
              target_send_amount_btc fee_sats_per_byte [annotate utxo_0_005]
              change_address (Some network) "p2wpkh" network)
    as (tx & fee & Hbuild);
    try reflexivity; try assumption; try discriminate.
  { repeat constructor. exact Hin0. }
  { left. exact Hoc. }
  pose proof (AssemblyFacts.build_transaction_returns _ _ _ _ _ _ _ _ _ _ Hbuild)
    as (Hin & _ & Hcases).
  change (computed_change fee_sats_per_byte [annotate utxo_0_005]
            target_send_amount_btc "p2wpkh") with 299708 in Hcases.
  change (estimated_fee fee_sats_per_byte [annotate utxo_0_005]
            target_send_amount_btc "p2wpkh") with 292 in Hcases.
  change (btc_to_satoshi target_send_amount_btc) with 200000 in Hcases.
  change (sum_sats [annotate utxo_0_005]) with 500000 in Hin.
  destruct Hcases as [(_ & _ & Hout & ->) | [(_ & Hse & _) | [(Hd & _) | (Hz & _)]]];
    [| unfold output_script_error in Hse; rewrite Hoc in Hse; discriminate
     | lia | discriminate].
  exists [annotate utxo_0_005], 292, 299708, tx.
  split; [exact Hsel|]. split; [reflexivity|]. split; [reflexivity|].
  split; [exact Hbuild|].
  split.
  { intro Hhex. unfold create_raw_transaction. rewrite Hbuild. cbn [bind].
    now rewrite Hhex. }
  split; [exact Hin|]. split; [exact Hout|].
  repeat split; discriminate.
Qed.

(** C8 with the smaller UTXO listed first, at the codec that takes every
    call. *)
Lemma spec_scenario_selection_and_change_witness :
  str_in "testnet" ["bitcoin"; "testnet"; "regtest"] = true
  /\ address_valid permissive_codec recipient_p2wpkh "testnet" = true
  /\ address_valid permissive_codec change_address_p2wpkh "testnet" = true
  /\ transaction_raises permissive_codec "testnet" (Some "segwit") = None
  /\ input_accepted permissive_codec (annotate utxo_0_005)
  /\ add_output_raises permissive_codec 200000 recipient_p2wpkh = None
  /\ add_output_raises permissive_codec 299708 change_address_p2wpkh = None
  /\ exists selected fee change,
       select_utxos_for_amount (btc_to_satoshi target_send_amount_btc)
         fee_sats_per_byte "p2wpkh" "p2pkh" [utxo_0_003; utxo_0_005]
         = Ok (selected, 500000, fee)
       /\ selected = [annotate utxo_0_005]
       /\ fee = 292 /\ change = 299708.
Proof.
  assert (Hin : input_accepted permissive_codec (annotate utxo_0_005))
    by (intros t n v _ _ _; reflexivity).
  repeat (split; [reflexivity|]). split; [exact Hin|].
  repeat (split; [reflexivity|]).
  destruct (spec_scenario_selection_and_change permissive_codec
              [utxo_0_003; utxo_0_005] recipient_p2wpkh change_address_p2wpkh
              "testnet" (or_intror eq_refl) eq_refl eq_refl eq_refl eq_refl
              Hin eq_refl eq_refl)
    as (selected & fee & change & tx & Hsel & Hs & _ & _ & _ & _ & _ & Hfee & _
        & Hchange & _).
  exists selected, fee, change. repeat split; assumption.
Defined.


Lemma scenario_build :
  build_transaction permissive_codec recipient_p2wpkh target_send_amount_btc
    fee_sats_per_byte [annotate utxo_0_005] change_address_p2wpkh
    (Some "testnet") "p2wpkh" = Ok (scenario_tx, 292).
Proof. reflexivity. Qed.

(** 100646 satoshis in, 100000 to send at 1 sat/byte: the estimate is 146
    and 500 satoshis are left over. *)
Lemma dust_build :
  build_transaction permissive_codec recipient_p2wpkh (Decimal.Dec 1 (-3)) 1
    [utxo_100646_sats] change_address_p2wpkh (Some "testnet") "p2wpkh"
  = Ok (dust_tx, 646).
Proof. reflexivity. Qed.

(** C1 at the scenario: 500000 = (200000 + 299708) + 292. *)
Lemma create_raw_transaction_balance_witness :
  create_raw_transaction permissive_codec recipient_p2wpkh
    target_send_amount_btc fee_sats_per_byte [annotate utxo_0_005]
    change_address_p2wpkh (Some "testnet") "p2wpkh"
    = Ok (hex permissive_codec scenario_tx, 292)
  /\ exists tx,
       build_transaction permissive_codec recipient_p2wpkh
         target_send_amount_btc fee_sats_per_byte [annotate utxo_0_005]
         change_address_p2wpkh (Some "testnet") "p2wpkh" = Ok (tx, 292)
       /\ sum_input_values (inputs tx) = sum_output_values (outputs tx) + 292.
Proof.
  split; [reflexivity|].
  destruct (AssemblyTheorems.create_raw_transaction_balance permissive_codec
              recipient_p2wpkh target_send_amount_btc fee_sats_per_byte
              [annotate utxo_0_005] change_address_p2wpkh (Some "testnet")
              "p2wpkh" (hex permissive_codec scenario_tx) 292 eq_refl)
    as (tx & Hbuild & _ & _ & Hbal).
  exists tx. split; assumption.
Defined.


(** C10 at a selection that cannot pay the target: the funds check
    raises, and the error is not the negative-change one for the change,
    -500224, that the inputs would leave. *)
Lemma create_raw_transaction_never_negative_change_witness :
  build_transaction permissive_codec recipient_p2wpkh (Decimal.Dec 1 (-2)) 2
    [annotate utxo_0_005] change_address_p2wpkh (Some "testnet") "p2wpkh"
    = Err (Raise ValueError
             (InsufficientFundsPreliminary 500000 1000000 224 1000224))
  /\ computed_change 2 [annotate utxo_0_005] (Decimal.Dec 1 (-2)) "p2wpkh"
     = -500224
  /\ build_transaction permissive_codec recipient_p2wpkh (Decimal.Dec 1 (-2)) 2
       [annotate utxo_0_005] change_address_p2wpkh (Some "testnet") "p2wpkh"
     <> Err (Raise ValueError (NegativeChange (-500224))).
Proof.
  split; [reflexivity|]. split; [reflexivity|].
  exact (proj1 (proj2
    (AssemblyTheorems.create_raw_transaction_never_negative_change
       permissive_codec recipient_p2wpkh (Decimal.Dec 1 (-2)) 2
       [annotate utxo_0_005] change_address_p2wpkh (Some "testnet") "p2wpkh"))
    (-500224)).
Defined.

End AssemblyScenarios.

(* ================================================================== *)
(** ** More on UTXO selection *)

Module SelectionOrder.
Import tx_builder Selection SelectionFacts.

Lemma insert_desc_sorted x l :
  StronglySorted key_ge l -> StronglySorted key_ge (insert_desc x l).
Proof.
  induction 1 as [|y l Hl IH Hy]; cbn [insert_desc].
  - repeat constructor.
  - destruct (Z.geb_spec (fst x) (fst y)) as [Hge|Hlt].
    + constructor; [now constructor|].
      constructor; [unfold key_ge; lia|].
      eapply Forall_impl; [|exact Hy]. unfold key_ge. intros z Hz. lia.
    + constructor; [exact IH|].
      apply Forall_forall. intros z Hz.
      apply (Permutation_in _ (insert_desc_perm x l)) in Hz.
      destruct Hz as [<- | Hz].
      * unfold key_ge. lia.
      * rewrite Forall_forall in Hy. now apply Hy.
Qed.

Lemma stable_sort_desc_sorted l : StronglySorted key_ge (stable_sort_desc l).
Proof.
  induction l as [|x l IH]; cbn [stable_sort_desc].
  - constructor.
  - now apply insert_desc_sorted.
Qed.

(** Insertion keeps the elements of one key in their order: the new
    element goes in front of the elements of its key. *)
Lemma insert_desc_filter k x l :
  StronglySorted key_ge l ->
  filter (fun y => fst y =? k) (insert_desc x l)
    = filter (fun y => fst y =? k) (x :: l).
Proof.
  induction 1 as [|y l Hl IH Hy]; cbn [insert_desc].
  - reflexivity.
  - destruct (Z.geb_spec (fst x) (fst y)) as [Hge|Hlt]; [reflexivity|].
    cbn [filter] in *. rewrite IH.
    destruct (Z.eqb_spec (fst x) k) as [Hx|Hx];
      destruct (Z.eqb_spec (fst y) k) as [Hyk|Hyk]; try reflexivity.
    lia.
Qed.

Lemma stable_sort_desc_filter k l :
  filter (fun y => fst y =? k) (stable_sort_desc l)
    = filter (fun y => fst y =? k) l.
Proof.
  induction l as [|x l IH]; cbn [stable_sort_desc].
  - reflexivity.
  - rewrite insert_desc_filter by apply stable_sort_desc_sorted.
    cbn [filter]. now rewrite IH.
Qed.

(** What [sort] returns on annotated UTXOs: they are in descending order
    of satoshi amount, and the UTXOs of one amount keep their order. *)
Lemma sort_by_satoshi_amount_desc_spec l sorted :
  Forall annotated l ->
  sort_by_satoshi_amount_desc l = Ok sorted ->
  Permutation sorted l
  /\ StronglySorted (fun u v => sats u >= sats v) sorted
  /\ forall k, filter (fun u => sats u =? k) sorted
               = filter (fun u => sats u =? k) l.
Proof.
  intros Hl. unfold sort_by_satoshi_amount_desc.
  rewrite (decorate_ok l Hl). cbn [bind]. intro H. injection H as <-.
  set (keyed := map (fun u => (sats u, u)) l).
  assert (Hkey : forall x, In x (stable_sort_desc keyed) -> fst x = sats (snd x)).
  { intros x Hx. apply (Permutation_in _ (stable_sort_desc_perm keyed)) in Hx.
    unfold keyed in Hx. apply in_map_iff in Hx. now destruct Hx as (u & <- & _). }
  split; [|split].
  - eapply perm_trans.
    + apply Permutation_map, stable_sort_desc_perm.
    + unfold keyed. rewrite map_map. cbn [snd]. rewrite map_id.
      apply Permutation_refl.
  - pose proof (stable_sort_desc_sorted keyed) as Hs.
    revert Hkey. induction Hs as [|x s Hs IH Hx]; intro Hkey; cbn [map].
    + constructor.
    + constructor.
      * apply IH. intros y Hy. apply Hkey. now right.
      * apply Forall_forall. intros v Hv. apply in_map_iff in Hv.
        destruct Hv as (y & <- & Hy). rewrite Forall_forall in Hx.
        specialize (Hx y Hy). unfold key_ge in Hx.
        rewrite <- (Hkey x (or_introl eq_refl)).
        rewrite <- (Hkey y (or_intror Hy)). exact Hx.
  - intro k.
    assert (Hmap : forall s,
      (forall x, In x s -> fst x = sats (snd x)) ->
      filter (fun u => sats u =? k) (map snd s)
        = map snd (filter (fun y => fst y =? k) s)).
    { induction s as [|x s IH]; intro Hs; cbn [map filter]; [reflexivity|].
      rewrite <- (Hs x (or_introl eq_refl)).
      rewrite IH by (intros y Hy; apply Hs; now right).
      now destruct (fst x =? k). }
    rewrite (Hmap _ Hkey), stable_sort_desc_filter.
    rewrite <- Hmap.
    + unfold keyed. rewrite map_map. cbn [snd]. now rewrite map_id.
    + intros x Hx. unfold keyed in Hx. apply in_map_iff in Hx.
      now destruct Hx as (u & <- & _).
Qed.

End SelectionOrder.

Module SelectionExtras.
Import tx_builder Selection SelectionFacts SelectionOrder.

Lemma validate_and_convert_inv utxos :
  forall i l,
  validate_and_convert i utxos = Ok l ->
  Forall well_formed utxos /\ l = map annotate utxos.
Proof.
  induction utxos as [|u utxos IH]; intros i l; cbn [validate_and_convert].
  - intro H. injection H as <-. split; [constructor | reflexivity].
  - destruct (forallb (has_key u) ["txid"; "vout"; "amount"; "scriptPubKey"])
      eqn:Hwf; cbn [negb]; [|discriminate].
    destruct (well_formed_amount u Hwf) as [a Ha]. rewrite Ha.
    cbn [getitem bind].
    destruct (validate_and_convert (S i) utxos) as [l'|] eqn:Hrest;
      cbn [bind]; [|discriminate].
    intro H. injection H as <-. destruct (IH _ _ Hrest) as [Hall ->].
    split; [now constructor|]. cbn [map]. unfold annotate, utxo_value.
    now rewrite Ha.
Qed.

Section Loop.

Variables (target rate : Z) (it ot : string).

(** The loop stops at the first prefix that pays the target and the fee
    for two outputs: no shorter prefix of what it took does. *)
Lemma selection_loop_first_cover remaining :
  forall selected total est result_list result_total result_est,
  selection_loop target rate it ot remaining selected total est
    = Ok (result_list, result_total, result_est) ->
  exists taken,
    result_list = selected ++ taken /\
    forall p q, taken = p ++ q -> p <> [] -> q <> [] ->
      total + sum_sats p
        < target + estimate_transaction_size
                     (Z.of_nat (List.length (selected ++ p))) 2 it ot * rate.
Proof.
  induction remaining as [|u remaining IH];
    intros selected total est rl rt re; cbn [selection_loop].
  - intro H. injection H as <- <- <-. exists []. split; [now rewrite app_nil_r|].
    intros p q Hpq Hp. destruct p; [easy | discriminate].
  - destruct (satoshi_amount u) as [s|] eqn:Hs; cbn [getitem bind];
      [|discriminate].
    assert (Hu : sats u = s) by (unfold sats; now rewrite Hs).
    match goal with
    | |- (if ?a >=? ?b then _ else _) = _ -> _ =>
        destruct (Z.geb_spec a b) as [Hge|Hlt]
    end.
    + intro H. injection H as <- <- <-. exists [u]. split; [reflexivity|].
      intros p q Hpq Hp Hq. destruct p as [|x p]; [easy|].
      destruct p; [|destruct p; discriminate].
      destruct q; [easy | discriminate].
    + intro H. apply IH in H. destruct H as (taken & -> & Hmin).
      exists (u :: taken). split; [now rewrite <- app_assoc|].
      intros p q Hpq Hp Hq. destruct p as [|x p]; [easy|].
      cbn [app] in Hpq. injection Hpq as <- Hpq.
      cbn [sum_sats fold_right]. fold (sum_sats p). rewrite Hu.
      destruct p as [|y p].
      * cbn [sum_sats fold_right]. rewrite Z.add_0_r. exact Hlt.
      * specialize (Hmin (y :: p) q Hpq ltac:(discriminate) Hq).
        rewrite <- app_assoc in Hmin. cbn [app] in Hmin.
        rewrite Z.add_assoc. exact Hmin.
Qed.

End Loop.

(** Everything that a returned selection satisfies. *)
Lemma select_utxos_for_amount_returns
    target rate it ot utxos selected total_selected fee :
  select_utxos_for_amount target rate it ot utxos
    = Ok (selected, total_selected, fee) ->
  utxos <> []
  /\ Forall well_formed utxos
  /\ selected <> []
  /\ total_selected = sum_sats selected
  /\ total_selected >= target + fee
  /\ (exists rest,
        sort_by_satoshi_amount_desc (map annotate utxos) = Ok (selected ++ rest)
        /\ (rest = []
            \/ total_selected
                 >= target + estimate_transaction_size
                                (Z.of_nat (List.length selected)) 2 it ot * rate))
  /\ ((fee = estimate_transaction_size
               (Z.of_nat (List.length selected)) 2 it ot * rate
       /\ total_selected > target + fee)
      \/ (fee = estimate_transaction_size
                  (Z.of_nat (List.length selected)) 1 it ot * rate
          /\ total_selected
               <= target + estimate_transaction_size
                              (Z.of_nat (List.length selected)) 2 it ot * rate))
  /\ (forall p q, selected = p ++ q -> p <> [] -> q <> [] ->
        sum_sats p
          < target + estimate_transaction_size
                       (Z.of_nat (List.length p)) 2 it ot * rate).
Proof.
  unfold select_utxos_for_amount.
  destruct utxos as [|u0 us] eqn:Hutxos; [discriminate|]. rewrite <- Hutxos.
  destruct (validate_and_convert 0 utxos) as [with_sats|] eqn:Hval;
    cbn [bind]; [|discriminate].
  destruct (validate_and_convert_inv _ _ _ Hval) as [Hwf ->].
  assert (Hann : Forall annotated (map annotate utxos)).
  { apply Forall_forall. intros x Hx. apply in_map_iff in Hx.
    destruct Hx as (y & <- & _). apply annotated_annotate. }
  destruct (sort_by_satoshi_amount_desc_ok _ Hann) as (sorted & Hsort & Hperm).
  rewrite Hsort. cbn [bind].
  assert (Hann' : Forall annotated sorted).
  { apply Forall_forall. intros x Hx. rewrite Forall_forall in Hann.
    apply Hann. eapply Permutation_in; eauto. }
  assert (Hsne : sorted <> []).
  { intro E. subst sorted. apply Permutation_nil in Hperm.
    rewrite Hutxos in Hperm. discriminate. }
  destruct (selection_loop_spec target rate it ot sorted Hann' [] 0 0)
    as (taken & rest & est & Hsplit & Hrun & Hest & Hexit).
  pose proof (selection_loop_first_cover target rate it ot sorted [] 0 0 _ _ _ Hrun)
    as (taken' & Htaken' & Hmin).
  cbn [app] in Htaken'. subst taken'.
  rewrite Hrun. cbn [bind app]. rewrite Z.add_0_l in *.
  destruct (Hest Hsne) as [Htne ->]. cbn [app] in *.
  set (n := Z.of_nat (List.length taken)) in *.
  intro H.
  assert (Hcommon :
    forall f,
      fee = f -> selected = taken -> total_selected = sum_sats taken ->
      total_selected >= target + f ->
      (f = estimate_transaction_size n 2 it ot * rate
       /\ total_selected > target + f
       \/ f = estimate_transaction_size n 1 it ot * rate
          /\ total_selected <= target + estimate_transaction_size n 2 it ot * rate) ->
      utxos <> [] /\ Forall well_formed utxos /\ selected <> []
      /\ total_selected = sum_sats selected
      /\ total_selected >= target + fee
      /\ (exists rest0,
            Ok sorted = Ok (selected ++ rest0)
            /\ (rest0 = []
                \/ total_selected
                     >= target + estimate_transaction_size
                          (Z.of_nat (List.length selected)) 2 it ot * rate))
      /\ ((fee = estimate_transaction_size
                   (Z.of_nat (List.length selected)) 2 it ot * rate
           /\ total_selected > target + fee)
          \/ (fee = estimate_transaction_size
                      (Z.of_nat (List.length selected)) 1 it ot * rate
              /\ total_selected
                   <= target + estimate_transaction_size
                        (Z.of_nat (List.length selected)) 2 it ot * rate))
      /\ (forall p q, selected = p ++ q -> p <> [] -> q <> [] ->
            sum_sats p
              < target + estimate_transaction_size
                           (Z.of_nat (List.length p)) 2 it ot * rate)).
  { intros f -> -> -> Hcov Hfee.
    split; [rewrite Hutxos; discriminate|]. split; [exact Hwf|].
    split; [exact Htne|]. split; [reflexivity|]. split; [exact Hcov|].
    split.
    - exists rest. split; [now rewrite Hsplit|].
      destruct Hexit as [Hge | [Hrest _]]; [right; fold n; lia | now left].
    - split; [exact Hfee|].
      intros p q Hpq Hp Hq. specialize (Hmin p q Hpq Hp Hq).
      rewrite Z.add_0_l in Hmin. exact Hmin. }
  revert H.
  destruct (Z.gtb_spec (sum_sats taken)
              (target + estimate_transaction_size n 2 it ot * rate)) as [Hgt|Hle].
  - destruct (Z.ltb_spec (sum_sats taken)
                (target + estimate_transaction_size n 2 it ot * rate))
      as [Hlt|Hnlt]; [discriminate|].
    intro H. injection H as <- <- <-.
    apply (Hcommon _ eq_refl eq_refl eq_refl); [lia|].
    left. split; [reflexivity | lia].
  - assert (Hfinal :
      (if sum_sats taken =? target + estimate_transaction_size n 2 it ot * rate
       then 1 else 1) = 1) by now destruct (_ =? _).
    rewrite Hfinal.
    destruct (Z.ltb_spec (sum_sats taken)
                (target + estimate_transaction_size n 1 it ot * rate))
      as [Hlt|Hnlt]; [discriminate|].
    intro H. injection H as <- <- <-.
    apply (Hcommon _ eq_refl eq_refl eq_refl); [lia|].
    right. split; [reflexivity | lia].
Qed.

(** Each selected UTXO is the annotated copy of an input UTXO. *)
Lemma selected_from_input target rate it ot utxos selected total_selected fee :
  select_utxos_for_amount target rate it ot utxos
    = Ok (selected, total_selected, fee) ->
  forall u, In u selected -> exists u0, In u0 utxos /\ u = annotate u0.
Proof.
  intro H. apply select_utxos_for_amount_returns in H.
  destruct H as (_ & _ & _ & _ & _ & (rest & Hsort & _) & _).
  intros u Hu.
  assert (Hann : Forall annotated (map annotate utxos)).
  { apply Forall_forall. intros x Hx. apply in_map_iff in Hx.
    destruct Hx as (y & <- & _). apply annotated_annotate. }
  destruct (sort_by_satoshi_amount_desc_spec _ _ Hann Hsort) as (Hperm & _).
  assert (Hin : In u (map annotate utxos)).
  { eapply Permutation_in; [exact Hperm|]. apply in_or_app. now left. }
  apply in_map_iff in Hin. destruct Hin as (u0 & <- & Hu0). now exists u0.
Qed.

End SelectionExtras.

Module SelectionExtraTheorems.
Import tx_builder Selection SelectionFacts SelectionOrder SelectionExtras Scenario.

(** X1. Every selection that [select_utxos_for_amount] returns pays for
    itself: it is not empty, each selected UTXO is the annotated copy of a
    UTXO of the input, all input UTXOs carry the four required keys, the
    returned total is the sum of the selected satoshi amounts and is at
    least the target plus the returned fee, and the returned fee is the
    estimate for the selected inputs with two outputs when something is
    left over for change, with one output otherwise. *)
Theorem select_utxos_for_amount_sound
    target rate it ot utxos selected total_selected fee :
  select_utxos_for_amount target rate it ot utxos
    = Ok (selected, total_selected, fee) ->
  selected <> []
  /\ Forall well_formed utxos
  /\ (forall u, In u selected -> exists u0, In u0 utxos /\ u = annotate u0)
  /\ total_selected = sum_sats selected
  /\ total_selected >= target + fee
  /\ ((fee = estimate_transaction_size
               (Z.of_nat (List.length selected)) 2 it ot * rate
       /\ total_selected > target + fee)
      \/ (fee = estimate_transaction_size
                  (Z.of_nat (List.length selected)) 1 it ot * rate
          /\ total_selected
               <= target + estimate_transaction_size
                              (Z.of_nat (List.length selected)) 2 it ot * rate)).
Proof.
  intro H. pose proof (selected_from_input _ _ _ _ _ _ _ _ H) as Hin.
  apply select_utxos_for_amount_returns in H.
  destruct H as (_ & Hwf & Hne & Htot & Hcov & _ & Hfee & _).
  repeat (split; [assumption|]). assumption.
Qed.

(** X1 at the test block's UTXOs. *)
Lemma select_utxos_for_amount_sound_witness :
  select_utxos_for_amount 200000 2 "p2wpkh" "p2pkh" example_utxos_p2wpkh
    = Ok ([annotate utxo_0_005], 500000, 292)
  /\ 500000 = sum_sats [annotate utxo_0_005]
  /\ 500000 >= 200000 + 292.
Proof.
  assert (H : select_utxos_for_amount 200000 2 "p2wpkh" "p2pkh"
                example_utxos_p2wpkh
              = Ok ([annotate utxo_0_005], 500000, 292)) by reflexivity.
  split; [exact H|].
  destruct (select_utxos_for_amount_sound _ _ _ _ _ _ _ _ H)
    as (_ & _ & _ & Htot & Hcov & _).
  split; assumption.
Defined.

(** X2. Selection is largest-first and stable: the selected UTXOs followed
    by the ones left out are the annotated input in descending order of
    satoshi amount, UTXOs of equal amount in their input order; so no UTXO
    left out is larger than a selected one. *)
Theorem select_utxos_for_amount_largest_first
    target rate it ot utxos selected total_selected fee :
  select_utxos_for_amount target rate it ot utxos
    = Ok (selected, total_selected, fee) ->
  exists rest,
    Permutation (selected ++ rest) (map annotate utxos)
    /\ StronglySorted (fun u v => sats u >= sats v) (selected ++ rest)
    /\ (forall k, filter (fun u => sats u =? k) (selected ++ rest)
                  = filter (fun u => sats u =? k) (map annotate utxos))
    /\ (forall u v, In u selected -> In v rest -> sats u >= sats v).
Proof.
  intro H. apply select_utxos_for_amount_returns in H.
  destruct H as (_ & _ & _ & _ & _ & (rest & Hsort & _) & _).
  assert (Hann : Forall annotated (map annotate utxos)).
  { apply Forall_forall. intros x Hx. apply in_map_iff in Hx.
    destruct Hx as (y & <- & _). apply annotated_annotate. }
  destruct (sort_by_satoshi_amount_desc_spec _ _ Hann Hsort)
    as (Hperm & Hsorted & Hstable).
  exists rest. repeat (split; [assumption|]).
  clear -Hsorted. induction selected as [|x sel IH]; intros u v Hu Hv; [easy|].
  cbn [app] in Hsorted. apply StronglySorted_inv in Hsorted.
  destruct Hsorted as [Hs Hx]. destruct Hu as [<- | Hu].
  - rewrite Forall_forall in Hx. apply Hx. apply in_or_app. now right.
  - now apply IH.
Qed.

(** X2 at the test block's UTXOs given smallest first. *)
Lemma select_utxos_for_amount_largest_first_witness :
  select_utxos_for_amount 200000 2 "p2wpkh" "p2pkh" [utxo_0_003; utxo_0_005]
    = Ok ([annotate utxo_0_005], 500000, 292)
  /\ exists rest,
       Permutation ([annotate utxo_0_005] ++ rest)
         (map annotate [utxo_0_003; utxo_0_005])
       /\ forall v, In v rest -> sats (annotate utxo_0_005) >= sats v.
Proof.
  assert (H : select_utxos_for_amount 200000 2 "p2wpkh" "p2pkh"
                [utxo_0_003; utxo_0_005]
              = Ok ([annotate utxo_0_005], 500000, 292)) by reflexivity.
  split; [exact H|].
  destruct (select_utxos_for_amount_largest_first _ _ _ _ _ _ _ _ H)
    as (rest & Hperm & _ & _ & Hge).
  exists rest. split; [exact Hperm|].
  intros v Hv. apply Hge; [now left | exact Hv].
Defined.

(** X3. Selection stops at the first prefix of the sorted UTXOs that pays
    the target and the fee for two outputs: no shorter non-empty prefix of
    the returned selection does, and UTXOs are left out only if the
    selection covers the target and the two-output fee. *)
Theorem select_utxos_for_amount_stops_at_first_cover
    target rate it ot utxos selected total_selected fee :
  select_utxos_for_amount target rate it ot utxos
    = Ok (selected, total_selected, fee) ->
  (forall p q, selected = p ++ q -> p <> [] -> q <> [] ->
     sum_sats p
       < target + estimate_transaction_size
                    (Z.of_nat (List.length p)) 2 it ot * rate)
  /\ (List.length selected = List.length utxos
      \/ total_selected
           >= target + estimate_transaction_size
                          (Z.of_nat (List.length selected)) 2 it ot * rate).
Proof.
  intro H. apply select_utxos_for_amount_returns in H.
  destruct H as (_ & _ & _ & _ & _ & (rest & Hsort & Hrest) & _ & Hmin).
  split; [exact Hmin|].
  destruct Hrest as [-> | Hcov]; [left | now right].
  assert (Hann : Forall annotated (map annotate utxos)).
  { apply Forall_forall. intros x Hx. apply in_map_iff in Hx.
    destruct Hx as (y & <- & _). apply annotated_annotate. }
  destruct (sort_by_satoshi_amount_desc_spec _ _ Hann Hsort) as (Hperm & _).
  apply Permutation_length in Hperm.
  now rewrite app_nil_r, length_map in Hperm.
Qed.

(** X3 at three UTXOs of which two are needed. *)
Lemma select_utxos_for_amount_stops_at_first_cover_witness :
  select_utxos_for_amount 600000 2 "p2wpkh" "p2pkh"
    [utxo_0_003; utxo_1000_sats; utxo_0_005]
    = Ok ([annotate utxo_0_005; annotate utxo_0_003], 800000, 428)
  /\ sum_sats [annotate utxo_0_005]
       < 600000 + estimate_transaction_size 1 2 "p2wpkh" "p2pkh" * 2.
Proof.
  assert (H : select_utxos_for_amount 600000 2 "p2wpkh" "p2pkh"
                [utxo_0_003; utxo_1000_sats; utxo_0_005]
              = Ok ([annotate utxo_0_005; annotate utxo_0_003], 800000, 428))
    by reflexivity.
  split; [exact H|].
  exact (proj1 (select_utxos_for_amount_stops_at_first_cover _ _ _ _ _ _ _ _ H)
           [annotate utxo_0_005] [annotate utxo_0_003] eq_refl
           ltac:(discriminate) ltac:(discriminate)).
Defined.




End SelectionExtraTheorems.

(* ================================================================== *)
(** ** Selection followed by assembly *)

Module PipelineFacts.
Import bitcoinlib tx_builder Selection Assembly SelectionExtras FailureFacts.

Lemma annotate_spendable u :
  well_formed u ->
  forallb (has_key (annotate u))
    ["txid"; "vout"; "satoshi_amount"; "scriptPubKey"] = true.
Proof.
  unfold well_formed, has_key, annotate.
  cbn [forallb String.eqb Ascii.eqb Bool.eqb copy_with_satoshi_amount
       txid vout scriptPubKey satoshi_amount present].
  destruct (txid u), (vout u), (amount u), (scriptPubKey u); cbn; congruence.
Qed.

Lemma selected_spendable target rate it ot utxos selected total_selected fee :
  select_utxos_for_amount target rate it ot utxos
    = Ok (selected, total_selected, fee) ->
  forallb (fun u => forallb (has_key u)
                      ["txid"; "vout"; "satoshi_amount"; "scriptPubKey"])
          selected = true.
Proof.
  intro H. pose proof (selected_from_input _ _ _ _ _ _ _ _ H) as Hin.
  apply select_utxos_for_amount_returns in H. destruct H as (_ & Hwf & _).
  apply forallb_forall. intros u Hu.
  destruct (Hin u Hu) as (u0 & Hu0 & ->).
  apply annotate_spendable. rewrite Forall_forall in Hwf. now apply Hwf.
Qed.

Section Build.

Variable codec : Codec.
Variables (recipient_address : string) (amount_btc : Decimal.t) (fee_rate : Z).
Variables (utxos_to_spend : list utxo) (change_address : string).
Variables (network : string) (input_address_type : string).

(** The funds check of lines 216-221, once validation has passed and the
    library has built the transaction with its inputs. *)
Lemma build_transaction_lacks_funds :
  str_in network ["bitcoin"; "testnet"; "regtest"] = true ->
  utxos_to_spend <> [] ->
  forallb (fun u => forallb (has_key u)
                      ["txid"; "vout"; "satoshi_amount"; "scriptPubKey"])
          utxos_to_spend = true ->
  address_valid codec recipient_address network = true ->
  address_valid codec change_address network = true ->
  transaction_raises codec network (witness_type_param input_address_type)
    = None ->
  Forall (input_accepted codec) utxos_to_spend ->
  sum_sats utxos_to_spend
    < btc_to_satoshi amount_btc
      + estimated_fee fee_rate utxos_to_spend amount_btc input_address_type ->
  build_transaction codec recipient_address amount_btc fee_rate
    utxos_to_spend change_address (Some network) input_address_type
  = Err (Raise ValueError
           (InsufficientFundsPreliminary (sum_sats utxos_to_spend)
              (btc_to_satoshi amount_btc)
              (estimated_fee fee_rate utxos_to_spend amount_btc
                 input_address_type)
              (btc_to_satoshi amount_btc
               + estimated_fee fee_rate utxos_to_spend amount_btc
                   input_address_type))).
Proof.
  intros Hnet Hne Hkeys Hr Hc Htx Hacc Hfunds.
  unfold build_transaction.
  rewrite Hnet, Hkeys, Hr, Hc, Htx. cbn [negb andb].
  match goal with
  | |- context [if ?b then Err (Raise ValueError NoUtxosToSpend) else _] =>
      replace b with false by (destruct utxos_to_spend; easy)
  end.
  match goal with
  | |- context [add_inputs codec utxos_to_spend ?tx 0] =>
      destruct (add_inputs_ok codec utxos_to_spend Hkeys Hacc tx 0) as [tx0 ->]
  end.
  cbn [bind]. rewrite Z.add_0_l. unfold estimated_fee in *.
  match goal with
  | |- (if ?a <? ?b then _ else _) = _ =>
      destruct (Z.ltb_spec a b) as [Hlt|Hge]; [reflexivity | lia]
  end.
Qed.

(** An exception of [Transaction(...)] ends the call, once validation has
    passed. *)
Lemma build_transaction_constructor_raises c :
  str_in network ["bitcoin"; "testnet"; "regtest"] = true ->
  utxos_to_spend <> [] ->
  forallb (fun u => forallb (has_key u)
                      ["txid"; "vout"; "satoshi_amount"; "scriptPubKey"])
          utxos_to_spend = true ->
  address_valid codec recipient_address network = true ->
  address_valid codec change_address network = true ->
  transaction_raises codec network (witness_type_param input_address_type)
    = Some c ->
  build_transaction codec recipient_address amount_btc fee_rate
    utxos_to_spend change_address (Some network) input_address_type
  = Err (Raise c LibraryMessage).
Proof.
  intros Hnet Hne Hkeys Hr Hc Htx.
  unfold build_transaction.
  rewrite Hnet, Hkeys, Hr, Hc, Htx. cbn [negb andb].
  destruct utxos_to_spend; [contradiction | reflexivity].
Qed.

End Build.

End PipelineFacts.

Module PipelineTheorems.
Import bitcoinlib tx_builder Selection Assembly SelectionExtras FailureFacts
       PipelineFacts Scenario.

(** X5. A selection returned by [select_utxos_for_amount] is handed to
    [create_raw_transaction] with the same target, rate and input type, a
    supported network and addresses that [Address] accepts, at a
    non-negative fee rate. If the library's [Transaction] refuses the
    witness type of the input type, the call ends with the library's
    exception. If the library constructs the transaction and takes the
    inputs: a selection that covers the target and the fee for two outputs
    is assembled, provided the library takes the recipient output and
    takes the change output or refuses it with a [ScriptError], and the fee
    of the transaction is at least the fee the selection returned; a
    selection that does not cover the two-output fee, which happens when
    all UTXOs were taken and only the one-output fee fits, is refused with
    "Insufficient funds after preliminary fee calculation". *)
Theorem selection_then_assembly
    (codec : Codec) target rate it ot utxos selected total_selected fee
    amount_btc recipient_address change_address network :
  0 <= rate ->
  select_utxos_for_amount target rate it ot utxos
    = Ok (selected, total_selected, fee) ->
  btc_to_satoshi amount_btc = target ->
  str_in network ["bitcoin"; "testnet"; "regtest"] = true ->
  address_valid codec recipient_address network = true ->
  address_valid codec change_address network = true ->
  let two_output_fee :=
    estimate_transaction_size (Z.of_nat (List.length selected)) 2 it ot * rate in
  (forall c,
     transaction_raises codec network (witness_type_param it) = Some c ->
     build_transaction codec recipient_address amount_btc rate selected
       change_address (Some network) it
     = Err (Raise c LibraryMessage))
  /\ (transaction_raises codec network (witness_type_param it) = None ->
      Forall (input_accepted codec) selected ->
      (total_selected >= target + two_output_fee ->
       add_output_raises codec target recipient_address = None ->
       change_output_handled codec
         (computed_change rate selected amount_btc it) change_address ->
       exists tx fee',
         build_transaction codec recipient_address amount_btc rate selected
           change_address (Some network) it = Ok (tx, fee')
         /\ fee' >= fee)
      /\ (total_selected < target + two_output_fee ->
          build_transaction codec recipient_address amount_btc rate selected
            change_address (Some network) it
          = Err (Raise ValueError
                   (InsufficientFundsPreliminary total_selected target
                      two_output_fee (target + two_output_fee))))).
Proof.
  intros Hrate Hsel Htarget Hnet Hr Hc two_output_fee.
  pose proof (selected_spendable _ _ _ _ _ _ _ _ Hsel) as Hkeys.
  apply select_utxos_for_amount_returns in Hsel.
  destruct Hsel as (_ & _ & Hne & Htot & Hcov & _ & Hfee & _).
  split.
  { intros c Htx.
    now apply build_transaction_constructor_raises. }
  intros Htx Hacc.
  set (n := Z.of_nat (List.length selected)) in *.
  assert (Hn : 1 <= n).
  { unfold n. destruct selected; [easy|]. cbn [List.length]. lia. }
  pose proof (FeeFacts.estimate_transaction_size_formula n 1 it ot) as E1.
  pose proof (FeeFacts.estimate_transaction_size_formula n 2 it ot) as E2.
  pose proof (FeeFacts.estimate_transaction_size_formula n 1 it "p2pkh") as E1'.
  pose proof (FeeFacts.estimate_transaction_size_formula n 2 it "p2pkh") as E2'.
  assert (Hiu : 68 <= FeeModelSpec.input_unit it).
  { unfold FeeModelSpec.input_unit.
    destruct (String.eqb it "p2wpkh"), (String.eqb it "p2pkh"); lia. }
  assert (Hest : estimated_fee rate selected amount_btc it
                 = if total_selected - target >? 0
                   then estimate_transaction_size n 2 it "p2pkh" * rate
                   else estimate_transaction_size n 1 it "p2pkh" * rate).
  { unfold estimated_fee. rewrite Htarget, <- Htot. fold n.
    now destruct (total_selected - target >? 0). }
  assert (Hfee_le : fee <= two_output_fee).
  { unfold two_output_fee. destruct Hfee as [[-> _] | [-> _]]; nia. }
  split.
  - intros Hcover Hse Hch.
    assert (Hfunds : sum_sats selected
                     >= btc_to_satoshi amount_btc
                        + estimated_fee rate selected amount_btc it).
    { rewrite Hest, Htarget, <- Htot. unfold two_output_fee in Hcover.
      destruct (total_selected - target >? 0); nia. }
    rewrite <- Htarget in Hse.
    destruct (build_transaction_accepts codec recipient_address amount_btc rate
                selected change_address (Some network) it network
                eq_refl Hnet Hne Hkeys Hr Hc Hfunds Htx Hacc Hse Hch)
      as (tx & fee' & Hbuild).
    exists tx, fee'. split; [exact Hbuild|].
    apply AssemblyFacts.build_transaction_returns in Hbuild.
    destruct Hbuild as (_ & _ & Hcases). unfold computed_change in Hcases.
    rewrite Hest, Htarget, <- Htot in Hcases.
    unfold two_output_fee in *.
    destruct (Z.gtb_spec (total_selected - target) 0) as [Hpos|Hnpos];
      destruct Hcases as [(? & _ & _ & ->) | [(? & _ & _ & ->)
                         | [(? & _ & ->) | (? & _ & ->)]]];
      destruct Hfee as [[-> ?] | [-> ?]]; nia.
  - intro Hshort.
    assert (Hpos : total_selected - target > 0).
    { unfold two_output_fee in Hshort.
      destruct Hfee as [[-> ?] | [-> ?]]; nia. }
    assert (Hest2 : estimated_fee rate selected amount_btc it = two_output_fee).
    { rewrite Hest. unfold two_output_fee.
      destruct (Z.gtb_spec (total_selected - target) 0); [|lia].
      now rewrite E2, E2'. }
    pose proof (build_transaction_lacks_funds codec recipient_address
                  amount_btc rate selected change_address network it
                  Hnet Hne Hkeys Hr Hc Htx Hacc) as Hrej.
    rewrite Hest2, Htarget, <- Htot in Hrej. apply Hrej. lia.
Qed.

(** X5 at one UTXO of 1000 satoshis and 1 sat/byte. For a target of 888,
    selection returns the UTXO with the one-output fee 112, and assembly
    refuses it, asking for the two-output fee 146. For a target of 500 and
    legacy inputs, selection returns it with the fee 226, and a library
    that constructs segwit transactions only ends the assembly with its
    [TransactionError]. *)
Lemma selection_then_assembly_witness :
  select_utxos_for_amount 888 1 "p2wpkh" "p2pkh" [utxo_1000_sats]
    = Ok ([annotate utxo_1000_sats], 1000, 112)
  /\ btc_to_satoshi (Decimal.Dec 888 (-8)) = 888
  /\ transaction_raises permissive_codec "testnet" (witness_type_param "p2wpkh")
     = None
  /\ Forall (input_accepted permissive_codec) [annotate utxo_1000_sats]
  /\ build_transaction permissive_codec recipient_p2wpkh (Decimal.Dec 888 (-8)) 1
       [annotate utxo_1000_sats] change_address_p2wpkh (Some "testnet") "p2wpkh"
     = Err (Raise ValueError (InsufficientFundsPreliminary 1000 888 146 1034))
  /\ select_utxos_for_amount 500 1 "p2pkh" "p2pkh" [utxo_1000_sats]
     = Ok ([annotate utxo_1000_sats], 1000, 226)
  /\ transaction_raises segwit_codec "testnet" (witness_type_param "p2pkh")
     = Some TransactionError
  /\ build_transaction segwit_codec recipient_p2wpkh (Decimal.Dec 500 (-8)) 1
       [annotate utxo_1000_sats] change_address_p2wpkh (Some "testnet") "p2pkh"
     = Err (Raise TransactionError LibraryMessage).
Proof.
  assert (H : select_utxos_for_amount 888 1 "p2wpkh" "p2pkh" [utxo_1000_sats]
              = Ok ([annotate utxo_1000_sats], 1000, 112)) by reflexivity.
  assert (H' : select_utxos_for_amount 500 1 "p2pkh" "p2pkh" [utxo_1000_sats]
               = Ok ([annotate utxo_1000_sats], 1000, 226)) by reflexivity.
  assert (Hacc : Forall (input_accepted permissive_codec)
                   [annotate utxo_1000_sats]).
  { constructor; [intros t n v _ _ _; reflexivity | constructor]. }
  split; [exact H|]. split; [reflexivity|]. split; [reflexivity|].
  split; [exact Hacc|]. split.
  - exact (proj2 (proj2 (selection_then_assembly permissive_codec 888 1
                    "p2wpkh" "p2pkh" [utxo_1000_sats] [annotate utxo_1000_sats]
                    1000 112 (Decimal.Dec 888 (-8)) recipient_p2wpkh
                    change_address_p2wpkh "testnet" ltac:(lia) H eq_refl
                    eq_refl eq_refl eq_refl) eq_refl Hacc)
             ltac:(vm_compute; reflexivity)).
  - split; [exact H'|]. split; [reflexivity|].
    exact (proj1 (selection_then_assembly segwit_codec 500 1 "p2pkh" "p2pkh"
                    [utxo_1000_sats] [annotate utxo_1000_sats] 1000 226
                    (Decimal.Dec 500 (-8)) recipient_p2wpkh
                    change_address_p2wpkh "testnet" ltac:(lia) H' eq_refl
                    eq_refl eq_refl eq_refl) TransactionError eq_refl).
Defined.

End PipelineTheorems.

(* ================================================================== *)
(** ** More on transaction assembly *)

Module AssemblyExtras.
Import bitcoinlib tx_builder Selection Assembly AssemblyFacts FailureFacts Scenario.

Lemma add_inputs_structure codec utxos :
  forall tx total tx' total',
  add_inputs codec utxos tx total = Ok (tx', total') ->
  exists added,
    inputs tx' = inputs tx ++ added
    /\ Forall2 spends added utxos
    /\ network tx' = network tx
    /\ witness_type tx' = witness_type tx.
Proof.
  induction utxos as [|u utxos IH]; intros tx total tx' total' H;
    cbn [add_inputs] in H.
  - injection H as <- <-. exists []. rewrite app_nil_r. repeat split. constructor.
  - destruct (txid u) as [t|] eqn:Ht; [|discriminate].
    destruct (vout u) as [n|] eqn:Hn; [|discriminate].
    destruct (satoshi_amount u) as [s|] eqn:Hs; [|discriminate].
    cbn [getitem bind] in H.
    destruct (add_input_raises codec t n s); [discriminate|].
    apply IH in H.
    destruct H as (added & Hin & Hall & Hnet & Hwt).
    cbn [add_input inputs network witness_type] in Hin, Hnet, Hwt.
    exists (Input.Make t n s :: added).
    rewrite <- app_assoc in Hin. split; [exact Hin|].
    split; [|split; assumption].
    constructor; [|exact Hall]. now repeat split.
Qed.

Section Build.

Variable codec : Codec.
Variables (recipient_address : string) (amount_btc : Decimal.t) (fee_rate : Z).
Variables (utxos_to_spend : list utxo) (change_address : string).
Variables (network_name : option string) (input_address_type : string).

(** X6. The transaction that [create_raw_transaction] serialises has one
    input per UTXO spent, in the order given, each with the txid, vout and
    satoshi amount of its UTXO; its network is the one named (or the
    bitcoinlib name of [config.NETWORK]) and one of the three supported;
    its witness type is segwit exactly for p2wpkh inputs. *)
Theorem create_raw_transaction_inputs raw_tx_hex fee :
  create_raw_transaction codec recipient_address amount_btc fee_rate
    utxos_to_spend change_address network_name input_address_type
    = Ok (raw_tx_hex, fee) ->
  exists tx,
    raw_tx_hex = hex codec tx
    /\ Forall2 spends (inputs tx) utxos_to_spend
    /\ network tx = match network_name with
                    | Some n => n
                    | None => "bitcoin"
                    end
    /\ In (network tx) ["bitcoin"; "testnet"; "regtest"]
    /\ witness_type tx
       = if String.eqb input_address_type "p2wpkh" then Some "segwit"
         else if String.eqb input_address_type "p2sh-p2wpkh"
              then Some "segwit_p2sh" else None.
Proof.
  intro H. apply create_raw_transaction_returns in H.
  destruct H as (tx & Hbuild & ->). exists tx. split; [reflexivity|].
  revert Hbuild. unfold build_transaction.
  change network_from_config with "bitcoin".
  set (net := match network_name with Some n => n | None => "bitcoin" end).
  destruct (str_in net ["bitcoin"; "testnet"; "regtest"]) eqn:Hnet;
    cbn [negb]; [|discriminate].
  match goal with
  | |- context [if ?b then Err (Raise ValueError NoUtxosToSpend) else _] =>
      destruct b; [discriminate|]
  end.
  destruct (negb (forallb _ utxos_to_spend)); [discriminate|].
  destruct (negb (_ && _)); [discriminate|].
  destruct (transaction_raises codec _ _); [discriminate|].
  destruct (add_inputs codec utxos_to_spend _ 0) as [[tx0 tot]|e] eqn:Hadd;
    [|discriminate].
  cbn [bind]. apply add_inputs_structure in Hadd.
  destruct Hadd as (added & Hin & Hall & Hn & Hw).
  cbn [new_transaction inputs network witness_type app] in Hin, Hn, Hw.
  unfold witness_type_param in Hw.
  assert (Hgoal : forall t : Transaction,
    inputs t = inputs tx0 -> network t = network tx0 ->
    witness_type t = witness_type tx0 ->
    Forall2 spends (inputs t) utxos_to_spend
    /\ network t = net
    /\ In (network t) ["bitcoin"; "testnet"; "regtest"]
    /\ witness_type t
       = (if String.eqb input_address_type "p2wpkh" then Some "segwit"
          else if String.eqb input_address_type "p2sh-p2wpkh"
               then Some "segwit_p2sh" else None)).
  { intros t -> -> ->. rewrite Hin, Hn, Hw.
    split; [exact Hall|]. split; [reflexivity|]. split; [|reflexivity].
    unfold str_in in Hnet. apply existsb_exists in Hnet.
    destruct Hnet as (x & Hx & Heq). apply String.eqb_eq in Heq. now subst x. }
  destruct (_ <? _); [discriminate|].
  destruct (add_output_raises codec _ recipient_address); [discriminate|].
  destruct (_ >? 0).
  - destruct (_ >=? 546);
      [destruct (add_output_raises codec _ change_address) as [[]|]|];
      cbn [bind]; try discriminate; (destruct (_ && _); [discriminate|]);
      intro H; injection H as <- _; now apply Hgoal.
  - destruct (_ <? 0); [discriminate|]. cbn [bind].
    destruct (_ && _); [discriminate|].
    intro H; injection H as <- _; now apply Hgoal.
Qed.

(** X7. The final balance check of [create_raw_transaction] never fires:
    on no input does the function raise its "Mismatch ... Deficit" error. *)
Theorem create_raw_transaction_never_deficit total_input total_out fee :
  build_transaction codec recipient_address amount_btc fee_rate
    utxos_to_spend change_address network_name input_address_type
  <> Err (Raise ValueError (BalanceDeficit total_input total_out fee))
  /\ create_raw_transaction codec recipient_address amount_btc fee_rate
       utxos_to_spend change_address network_name input_address_type
     <> Err (Raise ValueError (BalanceDeficit total_input total_out fee)).
Proof.
  assert (Hbuild :
    build_transaction codec recipient_address amount_btc fee_rate
      utxos_to_spend change_address network_name input_address_type
    <> Err (Raise ValueError (BalanceDeficit total_input total_out fee))).
  { unfold build_transaction.
    destruct (negb (str_in _ _)); [discriminate|].
    match goal with
    | |- context [if ?b then Err (Raise ValueError NoUtxosToSpend) else _] =>
        destruct b; [discriminate|]
    end.
    destruct (forallb _ utxos_to_spend) eqn:Hkeys; cbn [negb]; [|discriminate].
    destruct (negb (_ && _)); [discriminate|].
    destruct (transaction_raises codec _ _); [discriminate|].
    destruct (add_inputs codec utxos_to_spend _ 0) as [[tx0 tot]|e0] eqn:Hadd;
      cbn [bind].
    2:{ destruct (add_inputs_failure _ _ Hkeys _ _ _ Hadd) as [Hm _].
        intro H. injection H as ->. discriminate. }
    destruct (add_inputs_spec _ _ _ _ _ _ Hadd) as (Htot & _ & Hout & _).
    cbn [new_transaction outputs] in Hout. rewrite Z.add_0_l in Htot.
    subst tot.
    match goal with
    | |- (if ?a <? ?b then _ else _) <> _ =>
        destruct (Z.ltb_spec a b) as [Hlt|Hge]; [discriminate|]
    end.
    destruct (add_output_raises codec _ recipient_address); [discriminate|].
    match goal with
    | |- context [if ?x >? 0 then _ else _] =>
        destruct (Z.gtb_spec x 0) as [Hpos|Hnpos]
    end.
    - match goal with
      | |- context [if ?x >=? 546 then _ else _] => destruct (x >=? 546)
      end; [destruct (add_output_raises codec _ change_address) as [[]|]|];
        cbn [bind add_output outputs]; try discriminate; rewrite Hout;
        cbn [app sum_output_values fold_right Output.value];
        match goal with
        | |- (if negb ?p && (?a <? ?b) then _ else _) <> _ =>
            destruct (Z.ltb_spec a b) as [Hd|Hd];
              [lia | rewrite andb_false_r; discriminate]
        end.
    - match goal with
      | |- context [if ?x <? 0 then _ else _] =>
          destruct (Z.ltb_spec x 0) as [Hneg|Hzero]; [discriminate|]
      end.
      cbn [bind add_output outputs]. rewrite Hout.
      cbn [app sum_output_values fold_right Output.value].
      match goal with
      | |- (if negb ?p && (?a <? ?b) then _ else _) <> _ =>
          destruct (Z.ltb_spec a b) as [Hd|Hd];
            [lia | rewrite andb_false_r; discriminate]
      end. }
  split; [exact Hbuild|].
  intro H. unfold create_raw_transaction in H.
  destruct (build_transaction codec recipient_address amount_btc fee_rate
              utxos_to_spend change_address network_name input_address_type)
    as [[tx f]|e] eqn:Hb; cbn [bind] in H;
    [destruct (hex_raises codec tx); discriminate|].
  injection H as ->. now apply Hbuild.
Qed.

End Build.

(** X6 at the scenario of the test block. *)
Lemma create_raw_transaction_inputs_witness :
  create_raw_transaction permissive_codec recipient_p2wpkh
    target_send_amount_btc fee_sats_per_byte [annotate utxo_0_005]
    change_address_p2wpkh (Some "testnet") "p2wpkh"
    = Ok (hex permissive_codec scenario_tx, 292)
  /\ exists tx,
       Forall2 spends (inputs tx) [annotate utxo_0_005]
       /\ network tx = "testnet"
       /\ witness_type tx = Some "segwit".
Proof.
  split; [reflexivity|].
  destruct (create_raw_transaction_inputs permissive_codec recipient_p2wpkh
              target_send_amount_btc fee_sats_per_byte [annotate utxo_0_005]
              change_address_p2wpkh (Some "testnet") "p2wpkh"
              (hex permissive_codec scenario_tx) 292 eq_refl)
    as (tx & _ & Hin & Hnet & _ & Hw).
  exists tx. repeat split; assumption.
Defined.

(** X7 at the scenario of the test block. *)
Lemma create_raw_transaction_never_deficit_witness :
  build_transaction permissive_codec recipient_p2wpkh target_send_amount_btc
    fee_sats_per_byte [annotate utxo_0_005] change_address_p2wpkh
    (Some "testnet") "p2wpkh" = Ok (scenario_tx, 292)
  /\ build_transaction permissive_codec recipient_p2wpkh target_send_amount_btc
       fee_sats_per_byte [annotate utxo_0_005] change_address_p2wpkh
       (Some "testnet") "p2wpkh"
     <> Err (Raise ValueError (BalanceDeficit 500000 499708 292)).
Proof.
  split; [reflexivity|].
  exact (proj1 (create_raw_transaction_never_deficit permissive_codec
                  recipient_p2wpkh target_send_amount_btc fee_sats_per_byte
                  [annotate utxo_0_005] change_address_p2wpkh (Some "testnet")
                  "p2wpkh" 500000 499708 292)).
Defined.

End AssemblyExtras.

(* ================================================================== *)
(** ** Satoshi and BTC amounts *)

Module DecimalFacts.
Import Decimal.

Lemma digits_fuel_nonneg fuel : forall n, 0 <= digits_fuel fuel n.
Proof.
  induction fuel as [|fuel IH]; intro n; cbn [digits_fuel]; [lia|].
  destruct (n =? 0); [lia|]. specialize (IH (n / 10)). lia.
Qed.

Lemma digits_fuel_upper fuel :
  forall n k, 0 <= k -> 0 <= n < 10 ^ k -> digits_fuel fuel n <= k.
Proof.
  induction fuel as [|fuel IH]; intros n k Hk Hn; cbn [digits_fuel]; [lia|].
  destruct (Z.eqb_spec n 0) as [|Hnz]; [lia|].
  assert (Hk1 : 1 <= k).
  { destruct (Z.eq_dec k 0) as [->|]; [|lia]. cbn in Hn. lia. }
  assert (Hdiv : 0 <= n / 10 < 10 ^ (k - 1)).
  { split; [apply Z.div_pos; lia|].
    apply Z.div_lt_upper_bound; [lia|].
    replace (10 * 10 ^ (k - 1)) with (10 ^ k); [lia|].
    replace k with (Z.succ (k - 1)) at 1 by lia.
    rewrite Z.pow_succ_r by lia. reflexivity. }
  specialize (IH (n / 10) (k - 1) ltac:(lia) Hdiv). lia.
Qed.

Lemma num_digits_upper n k : 0 <= k -> 0 <= n < 10 ^ k -> num_digits n <= k.
Proof. intros. unfold num_digits. now apply digits_fuel_upper. Qed.

Lemma num_digits_nonneg n : 0 <= num_digits n.
Proof. apply digits_fuel_nonneg. Qed.

(** A coefficient of at most 28 digits is not rounded. *)
Lemma context_round_exact c e :
  Z.abs c < 10 ^ 28 -> context_round (Dec c e) = Dec c e.
Proof.
  intro H. unfold context_round. cbn [coefficient exponent].
  pose proof (num_digits_upper (Z.abs c) 28 ltac:(lia) ltac:(lia)) as Hd.
  unfold prec. destruct (Z.leb_spec (num_digits (Z.abs c)) 28); [reflexivity | lia].
Qed.

End DecimalFacts.

Module AmountTheorems.
Import Decimal DecimalFacts tx_builder.

(** X8. For an amount whose coefficient has at most 20 digits and whose
    exponent is at most [Emax - 27] (every amount up to 10^12 BTC at 8
    decimals), the product with 100,000,000 stays inside the exponent
    range of the context, so that no [Overflow] is raised, and
    [btc_to_satoshi] is the exact product truncated toward zero: no digit
    is rounded up, so a non-negative amount never converts to more
    satoshis than it is worth, and to less than one satoshi fewer. *)
Theorem btc_to_satoshi_truncates_exactly c e :
  Z.abs c < 10 ^ 20 ->
  e + 27 <= Emax ->
  adjusted (mul (Dec c e) SATOSHIS_PER_BTC) <= Emax
  /\ btc_to_satoshi (Dec c e)
     = (if 0 <=? e + 8 then c * 10 ^ (e + 8) else Z.quot c (10 ^ (- (e + 8))))
  /\ (0 <= c -> e + 8 < 0 ->
      0 <= btc_to_satoshi (Dec c e)
      /\ btc_to_satoshi (Dec c e) * 10 ^ (- (e + 8)) <= c
         < (btc_to_satoshi (Dec c e) + 1) * 10 ^ (- (e + 8))).
Proof.
  intros Hc He.
  assert (Hprod : Z.abs (c * 100000000) < 10 ^ 28).
  { rewrite Z.abs_mul. change (Z.abs 100000000) with (10 ^ 8).
    change (10 ^ 28) with (10 ^ 20 * 10 ^ 8). nia. }
  assert (Hmul : mul (Dec c e) SATOSHIS_PER_BTC = Dec (c * 100000000) e).
  { unfold mul, SATOSHIS_PER_BTC, of_int. cbn [coefficient exponent].
    rewrite Z.add_0_r. now apply context_round_exact. }
  assert (Heq : btc_to_satoshi (Dec c e)
    = (if 0 <=? e + 8 then c * 10 ^ (e + 8) else Z.quot c (10 ^ (- (e + 8))))).
  { unfold btc_to_satoshi. rewrite Hmul.
    unfold to_int. cbn [coefficient exponent].
    change 100000000 with (10 ^ 8).
    destruct (Z.leb_spec 0 e) as [He0|He0].
    - destruct (Z.leb_spec 0 (e + 8)); [|lia].
      rewrite Z.pow_add_r by lia. lia.
    - destruct (Z.leb_spec 0 (e + 8)) as [He8|He8].
      + replace 8 with ((e + 8) + (- e)) at 1 by lia.
        rewrite Z.pow_add_r by lia. rewrite Z.mul_assoc.
        apply Z.quot_mul. apply Z.pow_nonzero; lia.
      + replace (- e) with (- (e + 8) + 8) by lia.
        rewrite Z.pow_add_r by lia.
        apply Z.quot_mul_cancel_r; apply Z.pow_nonzero; lia. }
  split; [|split; [exact Heq|]].
  { rewrite Hmul. unfold adjusted. cbn [coefficient exponent].
    pose proof (num_digits_upper (Z.abs (c * 100000000)) 28 ltac:(lia)
                  ltac:(lia)) as Hd.
    unfold Emax in *. lia. }
  intros Hpos He8. rewrite Heq.
  destruct (Z.leb_spec 0 (e + 8)); [lia|].
  assert (Hp : 0 < 10 ^ (- (e + 8))) by (apply Z.pow_pos_nonneg; lia).
  rewrite Z.quot_div_nonneg by lia.
  pose proof (Z.div_mod c (10 ^ (- (e + 8))) ltac:(lia)) as Hdm.
  pose proof (Z.mod_pos_bound c (10 ^ (- (e + 8))) Hp) as Hmod.
  split; [apply Z.div_pos; lia|]. nia.
Qed.

(** X8 at 0.123456789 BTC: 12345678 satoshis, the ninth decimal dropped. *)
Lemma btc_to_satoshi_truncates_exactly_witness :
  Z.abs 123456789 < 10 ^ 20
  /\ -9 + 27 <= Emax
  /\ btc_to_satoshi (Dec 123456789 (-9)) = Z.quot 123456789 (10 ^ 1)
  /\ btc_to_satoshi (Dec 123456789 (-9)) = 12345678.
Proof.
  assert (H : Z.abs 123456789 < 10 ^ 20) by (vm_compute; reflexivity).
  assert (He : -9 + 27 <= Emax) by (vm_compute; discriminate).
  split; [exact H|]. split; [exact He|]. split; [|reflexivity].
  exact (proj1 (proj2 (btc_to_satoshi_truncates_exactly 123456789 (-9) H He))).
Defined.

End AmountTheorems.

Module RoundTripFacts.
Import Decimal DecimalFacts tx_builder.

Lemma pow10_pos k : 0 <= k -> 0 < 10 ^ k.
Proof. intro. apply Z.pow_pos_nonneg; lia. Qed.

Lemma pow10_split a b : 0 <= a -> 0 <= b -> 10 ^ (a + b) = 10 ^ a * 10 ^ b.
Proof. intros. apply Z.pow_add_r; lia. Qed.

(** [int] of a decimal whose coefficient ends in enough zeros. *)
Lemma to_int_scaled y a b :
  0 <= a -> 0 <= b -> to_int (Dec (y * 10 ^ a) (b - a)) = y * 10 ^ b.
Proof.
  intros Ha Hb. unfold to_int. cbn [coefficient exponent].
  destruct (Z.leb_spec 0 (b - a)) as [H|H].
  - replace b with (a + (b - a)) at 2 by lia.
    rewrite pow10_split by lia. lia.
  - replace (- (b - a)) with (a - b) by lia.
    replace a with (b + (a - b)) at 1 by lia.
    rewrite pow10_split by lia. rewrite Z.mul_assoc.
    apply Z.quot_mul. pose proof (pow10_pos (a - b)). lia.
Qed.

Lemma round_half_even_exact q s :
  0 <= s -> round_half_even (q * 10 ^ s) s = q.
Proof.
  intro Hs. unfold round_half_even.
  pose proof (pow10_pos s Hs) as Hp.
  rewrite Z.div_mul by lia. rewrite Z.mod_mul by lia.
  cbn [Z.mul].
  destruct (Z.gtb_spec 0 (10 ^ s)); [lia|].
  destruct (Z.eqb_spec 0 (10 ^ s)); [lia|]. reflexivity.
Qed.

(** Multiplying by 100,000,000 and truncating undoes eight decimals, also
    when the product has more than 28 digits: the digits that the context
    drops are zeros. *)
Lemma btc_to_satoshi_scaled x k :
  0 <= k <= 8 -> Z.abs x * 10 ^ k < 10 ^ 28 ->
  btc_to_satoshi (Dec x (k - 8)) = x * 10 ^ k.
Proof.
  intros Hk Hx.
  assert (Hx28 : Z.abs x < 10 ^ 28).
  { pose proof (pow10_pos k ltac:(lia)). nia. }
  unfold btc_to_satoshi, mul, SATOSHIS_PER_BTC, of_int.
  cbn [coefficient exponent]. rewrite Z.add_0_r.
  change 100000000 with (10 ^ 8).
  unfold context_round. cbn [coefficient exponent].
  assert (Habs : Z.abs (x * 10 ^ 8) = Z.abs x * 10 ^ 8).
  { rewrite Z.abs_mul. now rewrite (Z.abs_eq (10 ^ 8)) by (vm_compute; discriminate). }
  rewrite Habs.
  pose proof (num_digits_upper (Z.abs x * 10 ^ 8) 36 ltac:(lia)
                ltac:(change (10 ^ 36) with (10 ^ 28 * 10 ^ 8); lia)) as Hd.
  set (m := num_digits (Z.abs x * 10 ^ 8)) in *.
  unfold prec. destruct (Z.leb_spec m 28) as [Hm|Hm].
  - apply to_int_scaled; lia.
  - set (s := m - 28). assert (Hs : 1 <= s <= 8) by (unfold s; lia).
    replace (Z.abs x * 10 ^ 8) with ((Z.abs x * 10 ^ (8 - s)) * 10 ^ s).
    2:{ rewrite <- Z.mul_assoc, <- pow10_split by lia. f_equal. f_equal. lia. }
    rewrite round_half_even_exact by lia.
    assert (Hsgn : Z.sgn (x * 10 ^ 8) * (Z.abs x * 10 ^ (8 - s))
                   = x * 10 ^ (8 - s)).
    { rewrite Z.sgn_mul. change (Z.sgn (10 ^ 8)) with 1.
      rewrite Z.mul_1_r, Z.mul_assoc. f_equal.
      rewrite Z.mul_comm. apply Z.abs_sgn. }
    rewrite Hsgn.
    replace (k - 8 + s) with (k - (8 - s)) by lia.
    apply to_int_scaled; lia.
Qed.

(** What the zero-stripping loop returns on a positive coefficient. *)
Lemma strip_zeros_spec k :
  forall coeff exp, 0 < coeff ->
  exists c j,
    strip_zeros k coeff exp = (c, exp + j)
    /\ 0 <= j <= Z.of_nat k
    /\ 0 < c
    /\ c * 10 ^ j = coeff
    /\ (j < Z.of_nat k -> c mod 10 <> 0).
Proof.
  induction k as [|k IH]; intros coeff exp Hpos; cbn [strip_zeros].
  - exists coeff, 0. rewrite Z.add_0_r. repeat split; try lia.
  - destruct (Z.eqb_spec (coeff mod 10) 0) as [Hz|Hnz].
    + assert (Hc : coeff = 10 * (coeff / 10)).
      { pose proof (Z.div_mod coeff 10 ltac:(lia)). lia. }
      destruct (IH (coeff / 10) (exp + 1) ltac:(lia))
        as (c & j & Hrun & Hj & Hcpos & Hval & Hstop).
      exists c, (j + 1). rewrite Hrun.
      split; [f_equal; lia|]. split; [lia|]. split; [exact Hcpos|].
      split.
      * rewrite pow10_split by lia. change (10 ^ 1) with 10. lia.
      * intro Hlt. apply Hstop. lia.
    + exists coeff, 0. rewrite Z.add_0_r. repeat split; try lia.
Qed.

End RoundTripFacts.

Module RoundTripTheorems.
Import Decimal DecimalFacts RoundTripFacts tx_builder.

(** X9. For every satoshi amount of at most 28 digits, [satoshi_to_btc]
    returns a [Decimal], and converting that back with [btc_to_satoshi]
    returns the same integer. *)
Theorem satoshi_to_btc_round_trip n :
  Z.abs n < 10 ^ 28 ->
  exists btc, satoshi_to_btc n = Some btc /\ btc_to_satoshi btc = n.
Proof.
  intro Hn. unfold satoshi_to_btc, div, SATOSHIS_PER_BTC, of_int.
  cbn [coefficient exponent].
  change (100000000 =? 0) with false. cbv iota.
  destruct (Z.eqb_spec n 0) as [->|Hnz].
  - eexists. split; reflexivity.
  - change (Z.abs 100000000) with (10 ^ 8).
    change (num_digits (10 ^ 8)) with 9.
    change (Z.sgn 100000000) with 1. rewrite Z.mul_1_r.
    pose proof (num_digits_upper (Z.abs n) 28 ltac:(lia) ltac:(lia)) as Hup.
    pose proof (num_digits_nonneg (Z.abs n)) as Hlo.
    unfold prec. set (shift := 9 - num_digits (Z.abs n) + 28 + 1).
    assert (Hshift : 10 <= shift <= 38) by (unfold shift; lia).
    destruct (Z.leb_spec 0 shift) as [_|]; [|lia].
    assert (Hsplit : Z.abs n * 10 ^ shift
                     = (Z.abs n * 10 ^ (shift - 8)) * 10 ^ 8).
    { rewrite <- Z.mul_assoc, <- pow10_split by lia. do 2 f_equal. lia. }
    rewrite Hsplit, Z.div_mul, Z.mod_mul by (vm_compute; discriminate).
    cbn [Z.eqb]. cbv iota.
    replace (0 - 0 - (0 - 0 - shift)) with shift by lia.
    replace (0 - 0 - shift) with (- shift) by lia.
    assert (Hcpos : 0 < Z.abs n * 10 ^ (shift - 8)).
    { pose proof (pow10_pos (shift - 8) ltac:(lia)). nia. }
    destruct (strip_zeros_spec (Z.to_nat shift) _ (- shift) Hcpos)
      as (c & j & -> & Hj & Hc & Hval & Hstop).
    rewrite Z2Nat.id in Hj, Hstop by lia.
    assert (Hjm : shift - 8 <= j).
    { destruct (Z_lt_le_dec j (shift - 8)) as [Hlt|]; [exfalso|assumption].
      apply (Hstop ltac:(lia)).
      assert (Hc10 : c = (Z.abs n * 10 ^ (shift - 8 - j - 1)) * 10).
      { apply (Z.mul_cancel_r _ _ (10 ^ j));
          [pose proof (pow10_pos j ltac:(lia)); lia|].
        rewrite Hval. rewrite <- !Z.mul_assoc. f_equal.
        replace (shift - 8) with ((shift - 8 - j - 1) + (1 + j)) at 1 by lia.
        rewrite !pow10_split by lia. reflexivity. }
      rewrite Hc10. apply Z.mod_mul. lia. }
    set (k := j - (shift - 8)).
    assert (Hk : 0 <= k <= 8) by (unfold k; lia).
    assert (Hck : c * 10 ^ k = Z.abs n).
    { apply (Z.mul_cancel_r _ _ (10 ^ (shift - 8)));
        [pose proof (pow10_pos (shift - 8) ltac:(lia)); lia|].
      rewrite <- Hval, <- Z.mul_assoc, <- pow10_split by lia.
      do 2 f_equal. unfold k. lia. }
    assert (Hcn : c <= Z.abs n).
    { pose proof (pow10_pos k ltac:(lia)). nia. }
    assert (Hsc : Z.abs (Z.sgn n * c) = c) by lia.
    rewrite context_round_exact by lia.
    eexists. split; [reflexivity|].
    replace (- shift + j) with (k - 8) by (unfold k; lia).
    rewrite btc_to_satoshi_scaled by (rewrite ?Hsc; lia).
    rewrite <- Z.mul_assoc, Hck. rewrite Z.mul_comm. apply Z.abs_sgn.
Qed.

(** X9 at 2,100,000,000,000,000 satoshis, the 21 million BTC of the
    supply. *)
Lemma satoshi_to_btc_round_trip_witness :
  Z.abs 2100000000000000 < 10 ^ 28
  /\ exists btc,
       satoshi_to_btc 2100000000000000 = Some btc
       /\ btc_to_satoshi btc = 2100000000000000.
Proof.
  assert (H : Z.abs 2100000000000000 < 10 ^ 28) by (vm_compute; reflexivity).
  split; [exact H|].
  exact (satoshi_to_btc_round_trip 2100000000000000 H).
Defined.

End RoundTripTheorems.

(* ================================================================== *)
(** ** More on the fee model *)

Module FeeExtraTheorems.

Lemma input_unit_bounds it : 68 <= FeeModelSpec.input_unit it <= 148.
Proof.
  unfold FeeModelSpec.input_unit.
  destruct (String.eqb it "p2wpkh"), (String.eqb it "p2pkh"); lia.
Qed.

(** X10. Both size estimators grow with the transaction: more inputs or
    more outputs never give a smaller size, for any types, and so never a
    smaller fee at a non-negative rate. *)
Theorem size_estimators_monotone
    num_inputs num_inputs' num_outputs num_outputs' input_type output_type rate :
  num_inputs <= num_inputs' ->
  num_outputs <= num_outputs' ->
  0 <= rate ->
  fee_estimator.estimate_transaction_size_bytes num_inputs num_outputs
    input_type output_type
  <= fee_estimator.estimate_transaction_size_bytes num_inputs' num_outputs'
       input_type output_type
  /\ tx_builder.estimate_transaction_size num_inputs num_outputs
       input_type output_type
     <= tx_builder.estimate_transaction_size num_inputs' num_outputs'
          input_type output_type
  /\ fee_estimator.total_fee_sats
       (fee_estimator.estimate_fee_details num_inputs num_outputs
          input_type output_type (Some rate))
     <= fee_estimator.total_fee_sats
          (fee_estimator.estimate_fee_details num_inputs' num_outputs'
             input_type output_type (Some rate)).
Proof.
  intros Hi Ho Hr.
  assert (Hbytes :
    fee_estimator.estimate_transaction_size_bytes num_inputs num_outputs
      input_type output_type
    <= fee_estimator.estimate_transaction_size_bytes num_inputs' num_outputs'
         input_type output_type).
  { unfold fee_estimator.estimate_transaction_size_bytes.
    destruct (String.eqb input_type "p2wpkh"), (String.eqb input_type "p2pkh"),
      (String.eqb output_type "p2pkh"), (String.eqb output_type "p2wpkh"),
      (String.eqb output_type "p2sh");
      destruct (Z.gtb_spec num_inputs 252), (Z.gtb_spec num_inputs' 252),
        (Z.gtb_spec num_outputs 252), (Z.gtb_spec num_outputs' 252); lia. }
  split; [exact Hbytes|]. split.
  - rewrite !FeeFacts.estimate_transaction_size_formula.
    pose proof (input_unit_bounds input_type). nia.
  - cbn [fee_estimator.estimate_fee_details fee_estimator.total_fee_sats]. nia.
Qed.

(** X10 from one input and one output to two and two. *)
Lemma size_estimators_monotone_witness :
  1 <= 2 /\ 0 <= 10
  /\ fee_estimator.estimate_transaction_size_bytes 1 1 "p2wpkh" "p2wpkh"
     <= fee_estimator.estimate_transaction_size_bytes 2 2 "p2wpkh" "p2wpkh".
Proof.
  assert (H12 : 1 <= 2) by lia. assert (H10 : 0 <= 10) by lia.
  split; [exact H12|]. split; [exact H10|].
  exact (proj1 (size_estimators_monotone 1 2 1 2 "p2wpkh" "p2wpkh" 10
                  H12 H12 H10)).
Defined.

(** X11. The estimator of tx_builder.py and the one of fee_estimator.py
    agree whenever there are at most 252 inputs and 252 outputs and the
    output type is neither p2wpkh nor p2sh. In general, for a non-negative
    number of outputs, tx_builder's size is at most 4 below and at most 3
    per output above fee_estimator's. *)
Theorem size_estimators_agree num_inputs num_outputs input_type output_type :
  0 <= num_outputs ->
  (num_inputs <= 252 -> num_outputs <= 252 ->
   String.eqb output_type "p2wpkh" = false ->
   String.eqb output_type "p2sh" = false ->
   tx_builder.estimate_transaction_size num_inputs num_outputs
     input_type output_type
   = fee_estimator.estimate_transaction_size_bytes num_inputs num_outputs
       input_type output_type)
  /\ fee_estimator.estimate_transaction_size_bytes num_inputs num_outputs
       input_type output_type - 4
     <= tx_builder.estimate_transaction_size num_inputs num_outputs
          input_type output_type
     <= fee_estimator.estimate_transaction_size_bytes num_inputs num_outputs
          input_type output_type + 3 * num_outputs.
Proof.
  intro Hno.
  unfold tx_builder.estimate_transaction_size,
    fee_estimator.estimate_transaction_size_bytes.
  split.
  - intros Hi Ho -> ->.
    destruct (Z.gtb_spec num_inputs 252); [lia|].
    destruct (Z.gtb_spec num_outputs 252); [lia|].
    destruct (String.eqb input_type "p2wpkh"), (String.eqb input_type "p2pkh"),
      (String.eqb output_type "p2pkh"); lia.
  - destruct (String.eqb input_type "p2wpkh"), (String.eqb input_type "p2pkh"),
      (String.eqb output_type "p2pkh"), (String.eqb output_type "p2wpkh"),
      (String.eqb output_type "p2sh");
      destruct (num_inputs >? 252), (num_outputs >? 252); lia.
Qed.

(** X11 at the sizes selection uses: one input, two P2PKH outputs. *)
Lemma size_estimators_agree_witness :
  0 <= 2
  /\ tx_builder.estimate_transaction_size 1 2 "p2wpkh" "p2pkh"
     = fee_estimator.estimate_transaction_size_bytes 1 2 "p2wpkh" "p2pkh".
Proof.
  assert (H : 0 <= 2) by lia. split; [exact H|].
  exact (proj1 (size_estimators_agree 1 2 "p2wpkh" "p2pkh" H)
           ltac:(lia) ltac:(lia) eq_refl eq_refl).
Defined.

End FeeExtraTheorems.

(* ================================================================== *)
(** ** More on key custody *)

Module KeyExtraTheorems.
Import key_manager KeyCustody KeyCustodyFacts.

Section Keys.
Context {Key entropy : Type} (L : KeyLibrary Key entropy).

(** X12. When the key library rebuilds a key from its own WIF, importing
    the WIF of a generated key, for the same network and address type,
    returns the very record that generation returned: same address, same
    private and public key. *)
Theorem import_generated_key seed network_name address_type info :
  wif_round_trip L ->
  generate_wif_key L seed network_name address_type = inr info ->
  import_wif_key L (wif info) network_name address_type = inr info.
Proof.
  intros Hwif. unfold generate_wif_key, import_wif_key.
  destruct (new_key L network_name seed) as [key|] eqn:Hnew; [|discriminate].
  destruct (String.eqb address_type "p2pkh");
    [|destruct (String.eqb address_type "p2wpkh"); [|discriminate]];
    intro H; injection H as <-; cbn [wif];
    now rewrite (Hwif _ _ _ Hnew).
Qed.

(** X13. [generate_wif_key] and [import_wif_key] return a key record only
    for the address types p2pkh and p2wpkh; the record repeats the network
    and address type asked for and carries the library's address of that
    type. For any other address type, and a key the library accepts, both
    raise the unsupported-address-type [ValueError]. *)
Theorem key_functions_address_types network_name address_type :
  (forall seed info,
     generate_wif_key L seed network_name address_type = inr info ->
     (address_type = "p2pkh" \/ address_type = "p2wpkh")
     /\ network info = network_name
     /\ key_manager.address_type info = address_type
     /\ exists key, new_key L network_name seed = Some key
                    /\ address info = key_address L key address_type
                    /\ wif info = key_wif L key)
  /\ (forall wif_key info,
        import_wif_key L wif_key network_name address_type = inr info ->
        (address_type = "p2pkh" \/ address_type = "p2wpkh")
        /\ network info = network_name
        /\ key_manager.address_type info = address_type
        /\ wif info = wif_key
        /\ exists key, key_from_wif L wif_key network_name = Some key
                       /\ address info = key_address L key address_type)
  /\ (address_type <> "p2pkh" -> address_type <> "p2wpkh" ->
      (forall seed key,
         new_key L network_name seed = Some key ->
         generate_wif_key L seed network_name address_type
           = inl (UnsupportedAddressType address_type))
      /\ (forall wif_key key,
            key_from_wif L wif_key network_name = Some key ->
            import_wif_key L wif_key network_name address_type
              = inl (UnsupportedAddressType address_type))).
Proof.
  unfold generate_wif_key, import_wif_key. split; [|split].
  - intros seed info.
    destruct (new_key L network_name seed) as [key|]; [|discriminate].
    destruct (String.eqb_spec address_type "p2pkh") as [->|];
      [|destruct (String.eqb_spec address_type "p2wpkh") as [->|];
        [|discriminate]];
      intro H; injection H as <-; cbn; (split; [auto|]);
      repeat split; now exists key.
  - intros wif_key info.
    destruct (key_from_wif L wif_key network_name) as [key|]; [|discriminate].
    destruct (String.eqb_spec address_type "p2pkh") as [->|];
      [|destruct (String.eqb_spec address_type "p2wpkh") as [->|];
        [|discriminate]];
      intro H; injection H as <-; cbn; (split; [auto|]);
      repeat split; now exists key.
  - intros H1 H2.
    apply String.eqb_neq in H1. apply String.eqb_neq in H2.
    split; intros x key ->; now rewrite H1, H2.
Qed.

End Keys.

Section Files.
Context {KeyData : Type} (P : Primitives KeyData).

Lemma decrypt_own_container salt env data password :
  fernet_round_trip P -> json_round_trip P -> List.length salt = 16%nat ->
  decrypt_key_data P (encrypt_key_data P salt env data password) password
    = Ok data.
Proof.
  intros Hfernet Hjson Hlen. unfold decrypt_key_data, encrypt_key_data.
  destruct (container_split salt
              (fernet_encrypt P (_derive_encryption_key P password salt) env
                 (json_dumps P data)) Hlen) as [-> ->].
  now rewrite Hfernet, Hjson.
Qed.

(** X14. [save_encrypted_key] writes one file. For a path that names
    another file, what [load_encrypted_key] returns, with any password, is
    unchanged, and a file that was absent still raises
    [FileNotFoundError]. Every path that names the saved file, the path
    given or another name of it, loads the key data saved. Saving again
    under the same path replaces the wallet: loading then returns the key
    data of the last save (given the round-trip contracts of Fernet and
    json). *)
Theorem save_encrypted_key_frame
    fs salt env data password filepath salt' env' data' password' :
  fernet_round_trip P -> json_round_trip P ->
  List.length salt = 16%nat ->
  List.length salt' = 16%nat ->
  (forall other pw,
     realpath fs other <> realpath fs filepath ->
     load_encrypted_key P
       (save_encrypted_key P fs salt env data password filepath) other pw
     = load_encrypted_key P fs other pw)
  /\ (forall other pw,
        realpath fs other <> realpath fs filepath ->
        content fs (realpath fs other) = None ->
        load_encrypted_key P
          (save_encrypted_key P fs salt env data password filepath) other pw
        = Err (Raise FileNotFoundError (WalletFileNotFound other)))
  /\ (forall other,
        realpath fs other = realpath fs filepath ->
        load_encrypted_key P
          (save_encrypted_key P fs salt env data password filepath)
          other password
        = Ok data)
  /\ load_encrypted_key P
       (save_encrypted_key P
          (save_encrypted_key P fs salt env data password filepath)
          salt' env' data' password' filepath)
       filepath password'
     = Ok data'.
Proof.
  intros Hfernet Hjson Hlen Hlen'.
  assert (Hframe : forall other pw,
    realpath fs other <> realpath fs filepath ->
    load_encrypted_key P
      (save_encrypted_key P fs salt env data password filepath) other pw
    = load_encrypted_key P fs other pw).
  { intros other pw Hne. unfold load_encrypted_key, save_encrypted_key.
    cbn [content realpath].
    apply String.eqb_neq in Hne. now rewrite Hne. }
  split; [exact Hframe|]. split; [|split].
  - intros other pw Hne Habsent. rewrite (Hframe other pw Hne).
    unfold load_encrypted_key. now rewrite Habsent.
  - intros other Hsame. unfold load_encrypted_key, save_encrypted_key.
    cbn [content realpath]. rewrite Hsame, String.eqb_refl.
    now rewrite (decrypt_own_container salt env data password
                   Hfernet Hjson Hlen).
  - unfold load_encrypted_key, save_encrypted_key at 1.
    cbn [content realpath]. rewrite String.eqb_refl.
    now rewrite (decrypt_own_container salt' env' data' password'
                   Hfernet Hjson Hlen').
Qed.

End Files.

(** X12 at the toy key library. *)
Lemma import_generated_key_witness :
  wif_round_trip Toy.key_library
  /\ generate_wif_key Toy.key_library "cT1" "testnet" "p2wpkh"
     = inr (KeyInfo "cT1" "p2wpkhcT1" "cT1" "02cT1" "testnet" "p2wpkh")
  /\ import_wif_key Toy.key_library "cT1" "testnet" "p2wpkh"
     = inr (KeyInfo "cT1" "p2wpkhcT1" "cT1" "02cT1" "testnet" "p2wpkh").
Proof.
  assert (Hwif : wif_round_trip Toy.key_library).
  { intros net seed key H. cbn in *. congruence. }
  split; [exact Hwif|]. split; [reflexivity|].
  exact (import_generated_key Toy.key_library "cT1" "testnet" "p2wpkh"
           (KeyInfo "cT1" "p2wpkhcT1" "cT1" "02cT1" "testnet" "p2wpkh")
           Hwif eq_refl).
Defined.

(** X13 at the address type p2sh, which neither function supports. *)
Lemma key_functions_address_types_witness :
  "p2sh" <> "p2pkh" /\ "p2sh" <> "p2wpkh"
  /\ new_key Toy.key_library "bitcoin" "cT1" = Some "cT1"
  /\ generate_wif_key Toy.key_library "cT1" "bitcoin" "p2sh"
     = inl (UnsupportedAddressType "p2sh").
Proof.
  assert (H1 : "p2sh" <> "p2pkh") by discriminate.
  assert (H2 : "p2sh" <> "p2wpkh") by discriminate.
  split; [exact H1|]. split; [exact H2|]. split; [reflexivity|].
  exact (proj1 (proj2 (proj2
           (key_functions_address_types Toy.key_library "bitcoin" "p2sh"))
           H1 H2) "cT1" "cT1" eq_refl).
Defined.

(** X14 at the toy primitives: the wallet saved as [test_wallet.enc] is
    loaded under the name [./test_wallet.enc] of the same file, and a
    second save replaces the first. *)
Lemma save_encrypted_key_frame_witness :
  fernet_round_trip Toy.primitives
  /\ json_round_trip Toy.primitives
  /\ List.length Toy.salt_a = 16%nat
  /\ List.length Toy.salt_b = 16%nat
  /\ realpath Toy.cwd_fs "./test_wallet.enc"
     = realpath Toy.cwd_fs Toy.wallet_filepath
  /\ load_encrypted_key Toy.primitives
       (save_encrypted_key Toy.primitives Toy.cwd_fs Toy.salt_a Toy.env0
          Toy.key_data Toy.password Toy.wallet_filepath)
       "./test_wallet.enc" Toy.password
     = Ok Toy.key_data
  /\ load_encrypted_key Toy.primitives
       (save_encrypted_key Toy.primitives
          (save_encrypted_key Toy.primitives Toy.cwd_fs Toy.salt_a Toy.env0
             Toy.key_data Toy.password Toy.wallet_filepath)
          Toy.salt_b Toy.env0 "[4]" "other password" Toy.wallet_filepath)
       Toy.wallet_filepath "other password"
     = Ok "[4]".
Proof.
  split; [exact toy_fernet_round_trip|].
  split; [exact toy_json_round_trip|].
  split; [reflexivity|]. split; [reflexivity|]. split; [reflexivity|].
  destruct (save_encrypted_key_frame Toy.primitives Toy.cwd_fs Toy.salt_a
              Toy.env0 Toy.key_data Toy.password Toy.wallet_filepath Toy.salt_b
              Toy.env0 "[4]" "other password"
              toy_fernet_round_trip toy_json_round_trip eq_refl eq_refl)
    as (_ & _ & Halias & Hlast).
  split; [exact (Halias "./test_wallet.enc" eq_refl) | exact Hlast].
Defined.

End KeyExtraTheorems.

(* ================================================================== *)
(** ** Signing requests *)

Module SignerFacts.
Import tx_builder Selection tx_signer Signing.

Section Signing.
Context {float : Type} (node : Node float).

Lemma signer_keys_present u :
  forallb (has_key u) ["txid"; "vout"; "scriptPubKey"; "amount"] = true ->
  exists t n spk a,
    txid u = Some t /\ vout u = Some n
    /\ scriptPubKey u = Some spk /\ amount u = Some a.
Proof.
  unfold has_key. cbn [forallb String.eqb Ascii.eqb Bool.eqb].
  destruct (txid u) as [t|], (vout u) as [n|], (scriptPubKey u) as [spk|],
    (amount u) as [a|]; cbn [present andb]; try discriminate.
  intros _. now exists t, n, spk, a.
Qed.

Lemma build_prevtxs_ok utxos :
  Forall (fun u => forallb (has_key u)
                     ["txid"; "vout"; "scriptPubKey"; "amount"] = true) utxos ->
  exists prevtxs,
    build_prevtxs node utxos = inr prevtxs
    /\ Forall2 (prevtx_for node) prevtxs utxos.
Proof.
  induction 1 as [|u utxos Hu _ (prevtxs & IH & Hall)]; cbn [build_prevtxs].
  - exists []. split; [reflexivity | constructor].
  - rewrite Hu. cbn [negb].
    destruct (signer_keys_present u Hu) as (t & n & spk & a & Ht & Hn & Hs & Ha).
    rewrite Ht, Hn, Hs, Ha. cbn [subscript]. rewrite IH.
    eexists. split; [reflexivity|]. constructor; [|exact Hall].
    unfold prevtx_for. cbn. repeat split; try assumption. now exists a.
Qed.

Lemma build_prevtxs_missing utxos :
  Exists (fun u => forallb (has_key u)
                     ["txid"; "vout"; "scriptPubKey"; "amount"] = false) utxos ->
  build_prevtxs node utxos = inl PrevtxMissingKeys.
Proof.
  induction 1 as [u utxos Hu | u utxos _ IH]; cbn [build_prevtxs].
  - now rewrite Hu.
  - destruct (forallb (has_key u) ["txid"; "vout"; "scriptPubKey"; "amount"])
      eqn:Hu; cbn [negb]; [|reflexivity].
    destruct (signer_keys_present u Hu) as (t & n & spk & a & Ht & Hn & Hs & Ha).
    rewrite Ht, Hn, Hs, Ha. cbn [subscript]. now rewrite IH.
Qed.

End Signing.

Lemma well_formed_signer_keys u :
  well_formed u ->
  forallb (has_key (annotate u)) ["txid"; "vout"; "scriptPubKey"; "amount"]
    = true.
Proof.
  unfold well_formed, has_key, annotate.
  cbn [forallb String.eqb Ascii.eqb Bool.eqb copy_with_satoshi_amount
       txid vout scriptPubKey amount present].
  destruct (txid u), (vout u), (amount u), (scriptPubKey u); cbn; congruence.
Qed.

End SignerFacts.

Module SignerTheorems.
Import tx_builder Selection SelectionExtras tx_signer Signing SignerFacts Scenario.

Section Signing.
Context {float : Type}.

(** X15. [sign_transaction_with_core] validates before it contacts the
    node: with an empty transaction hex, an empty UTXO list or a UTXO that
    lacks one of txid, vout, scriptPubKey, amount, it raises one of its
    three validation [ValueError]s, and the result is the same whatever
    node is configured, reachable or not. *)
Theorem sign_transaction_validates_first
    (node node' : Node float) unsigned_tx_hex private_keys_wif utxos :
  unsigned_tx_hex = EmptyString
  \/ utxos = []
  \/ Exists (fun u => forallb (has_key u)
                        ["txid"; "vout"; "scriptPubKey"; "amount"] = false)
            utxos ->
  sign_transaction_with_core node unsigned_tx_hex private_keys_wif utxos
    = sign_transaction_with_core node' unsigned_tx_hex private_keys_wif utxos
  /\ (sign_transaction_with_core node unsigned_tx_hex private_keys_wif utxos
        = inl EmptyUnsignedHex
      \/ sign_transaction_with_core node unsigned_tx_hex private_keys_wif utxos
           = inl EmptyPrevtxs
      \/ sign_transaction_with_core node unsigned_tx_hex private_keys_wif utxos
           = inl PrevtxMissingKeys).
Proof.
  intro H. unfold sign_transaction_with_core.
  destruct (String.eqb unsigned_tx_hex EmptyString) eqn:Hhex; [now auto|].
  destruct H as [-> | [-> | Hex]]; [discriminate | now auto |].
  destruct utxos as [|u0 us] eqn:Hu; [now auto|]. rewrite <- Hu in *.
  rewrite (build_prevtxs_missing node utxos Hex).
  rewrite (build_prevtxs_missing node' utxos Hex). auto.
Qed.

(** X16. A selection returned by [select_utxos_for_amount] is a valid
    signing request: for a non-empty transaction hex the node is called
    with one prevtx entry per selected UTXO, in selection order, carrying
    the txid, vout, scriptPubKey and BTC amount of that UTXO; the node's
    hex and completeness flag are returned as they are, also when the
    transaction is only partially signed, a connection error stays a
    connection error and any other exception becomes the RPC
    [ValueError] with the node's message. *)
Theorem sign_selected_utxos
    (node : Node float) target rate it ot utxos selected total_selected fee
    unsigned_tx_hex private_keys_wif :
  select_utxos_for_amount target rate it ot utxos
    = Ok (selected, total_selected, fee) ->
  unsigned_tx_hex <> EmptyString ->
  exists prevtxs,
    Forall2 (prevtx_for node) prevtxs selected
    /\ (forall signed_tx_hex complete errors,
          signrawtransactionwithkey node unsigned_tx_hex private_keys_wif prevtxs
            = Returned (Dict (Some signed_tx_hex) (Some complete) errors) ->
          sign_transaction_with_core node unsigned_tx_hex private_keys_wif
            selected = inr (signed_tx_hex, complete))
    /\ (forall ce,
          signrawtransactionwithkey node unsigned_tx_hex private_keys_wif prevtxs
            = RaisedConnectionError ce ->
          sign_transaction_with_core node unsigned_tx_hex private_keys_wif
            selected = inl (ConnectionFailed ce))
    /\ (forall text error_message,
          signrawtransactionwithkey node unsigned_tx_hex private_keys_wif prevtxs
            = RaisedException text (Some error_message) ->
          sign_transaction_with_core node unsigned_tx_hex private_keys_wif
            selected = inl (RpcError error_message)).
Proof.
  intros Hsel Hhex.
  pose proof (selected_from_input _ _ _ _ _ _ _ _ Hsel) as Hin.
  apply select_utxos_for_amount_returns in Hsel.
  destruct Hsel as (_ & Hwf & Hne & _).
  assert (Hkeys : Forall (fun u => forallb (has_key u)
                    ["txid"; "vout"; "scriptPubKey"; "amount"] = true) selected).
  { apply Forall_forall. intros u Hu. destruct (Hin u Hu) as (u0 & Hu0 & ->).
    apply well_formed_signer_keys. rewrite Forall_forall in Hwf. now apply Hwf. }
  destruct (build_prevtxs_ok node selected Hkeys) as (prevtxs & Hbuild & Hall).
  exists prevtxs. split; [exact Hall|].
  unfold sign_transaction_with_core.
  apply String.eqb_neq in Hhex. rewrite Hhex, Hbuild.
  destruct selected as [|s0 sel]; [easy|].
  repeat split; intros; now rewrite H.
Qed.

End Signing.

(** X15 at an empty UTXO list. *)
Lemma sign_transaction_validates_first_witness :
  sign_transaction_with_core signing_node "0200" ["cT1"] []
    = sign_transaction_with_core unreachable_node "0200" ["cT1"] []
  /\ sign_transaction_with_core signing_node "0200" ["cT1"] []
     = inl EmptyPrevtxs.
Proof.
  destruct (sign_transaction_validates_first signing_node unreachable_node
              "0200" ["cT1"] [] (or_intror (or_introl eq_refl)))
    as [Hsame _].
  split; [exact Hsame | reflexivity].
Defined.

(** X16 at the selection of the test block. *)
Lemma sign_selected_utxos_witness :
  select_utxos_for_amount 200000 2 "p2wpkh" "p2pkh" example_utxos_p2wpkh
    = Ok ([annotate utxo_0_005], 500000, 292)
  /\ "0200" <> EmptyString
  /\ exists prevtxs,
       Forall2 (prevtx_for signing_node) prevtxs [annotate utxo_0_005].
Proof.
  assert (H : select_utxos_for_amount 200000 2 "p2wpkh" "p2pkh"
                example_utxos_p2wpkh
              = Ok ([annotate utxo_0_005], 500000, 292)) by reflexivity.
  assert (Hhex : "0200" <> EmptyString) by discriminate.
  split; [exact H|]. split; [exact Hhex|].
  destruct (sign_selected_utxos signing_node 200000 2 "p2wpkh" "p2pkh"
              example_utxos_p2wpkh [annotate utxo_0_005] 500000 292
              "0200" ["cT1"] H Hhex) as (prevtxs & Hall & _).
  now exists prevtxs.
Defined.

End SignerTheorems.

(* ================================================================== *)
(** ** The ledger store *)

Module DatabaseFacts.
Import database.

Lemma find_none_existsb {A} (f : A -> bool) l :
  find f l = None <-> existsb f l = false.
Proof.
  induction l as [|x l IH]; cbn [find existsb]; [easy|].
  destruct (f x); cbn [orb]; [easy | exact IH].
Qed.

Lemma find_app_absent {A} (f : A -> bool) l x :
  find f l = None -> find f (l ++ [x]) = if f x then Some x else None.
Proof.
  induction l as [|y l IH]; cbn [find app]; [easy|].
  destruct (f y); [discriminate | exact IH].
Qed.

Lemma find_app_other {A} (f : A -> bool) l x :
  f x = false -> find f (l ++ [x]) = find f l.
Proof.
  intro Hx. induction l as [|y l IH]; cbn [find app].
  - now rewrite Hx.
  - now destruct (f y).
Qed.

Lemma find_map_update {A} (f g : A -> bool) (upd : A -> A) l :
  (forall r, f (upd r) = f r) ->
  find f (map (fun r => if g r then upd r else r) l)
    = option_map (fun r => if g r then upd r else r) (find f l).
Proof.
  intro Hf. induction l as [|x l IH]; cbn [find map option_map]; [reflexivity|].
  destruct (g x) eqn:Hg.
  - rewrite Hf. destruct (f x); [cbn [option_map]; now rewrite Hg | exact IH].
  - destruct (f x); [cbn [option_map]; now rewrite Hg | exact IH].
Qed.

Lemma filter_length_zero {A} (f : A -> bool) l :
  Nat.eqb (List.length (filter f l)) 0 = true <-> find f l = None.
Proof.
  induction l as [|x l IH]; cbn [filter find]; [easy|].
  destruct (f x); cbn [List.length Nat.eqb]; [easy | exact IH].
Qed.

Lemma map_update_absent {A} (g : A -> bool) (upd : A -> A) l :
  find g l = None -> map (fun r => if g r then upd r else r) l = l.
Proof.
  induction l as [|x l IH]; cbn [find map]; [easy|].
  destruct (g x); [discriminate|]. intro H. now rewrite IH.
Qed.

Lemma eqb_sym_false a b : String.eqb a b = false -> String.eqb b a = false.
Proof. rewrite !String.eqb_neq. congruence. Qed.

End DatabaseFacts.

Module DatabaseTheorems.
Import database DatabaseFacts DatabaseScenario.

(** X17. On an initialised database [add_key_record] returns, and
    afterwards [get_key_by_address] finds a record for the address: the
    one just given (address, network, address type, wallet file, label,
    timestamp) when the address was new, and the record that was there
    before, with the whole database unchanged, when the address was
    already present; the records of all other addresses are untouched. On
    a database without tables it raises and [get_key_by_address] returns
    [None]. *)
Theorem add_key_record_then_get d now a net ty wf lbl :
  match keys d with
  | Some t =>
      exists d',
        add_key_record d now a net ty wf lbl = Returns d'
        /\ (get_key_by_address d a = None ->
            get_key_by_address d' a
              = Some (KeyRow (sequence t + 1) a wf lbl net ty now))
        /\ (forall r, get_key_by_address d a = Some r ->
              d' = d /\ get_key_by_address d' a = Some r)
        /\ (forall b, b <> a ->
              get_key_by_address d' b = get_key_by_address d b)
        /\ transactions d' = transactions d
  | None =>
      add_key_record d now a net ty wf lbl = RaisesSqliteError
      /\ get_key_by_address d a = None
  end.
Proof.
  unfold add_key_record, get_key_by_address.
  destruct (keys d) as [t|] eqn:Hk; [|split; reflexivity].
  destruct (existsb (fun r => String.eqb (address r) a) (rows t)) eqn:Hex.
  - exists d. rewrite Hk. split; [reflexivity|]. split.
    + intro Hnone. apply find_none_existsb in Hnone. congruence.
    + repeat split; auto.
  - eexists. split; [reflexivity|]. cbn [keys rows transactions].
    apply find_none_existsb in Hex. split; [|split; [|split]].
    + intros _. rewrite (find_app_absent _ _ _ Hex). cbn [address].
      now rewrite String.eqb_refl.
    + intros r Hr. congruence.
    + intros b Hb. apply find_app_other. cbn [address].
      apply String.eqb_neq. congruence.
    + reflexivity.
Qed.

(** X18. On an initialised database [update_key_label] returns [True]
    exactly when a record of the address exists; then
    [get_key_by_address] returns that record with the new label and every
    other field as before. It returns [False] and leaves the database as
    it was when there is none. Records of other addresses keep their
    label. *)
Theorem update_key_label_then_get d t a new_label :
  keys d = Some t ->
  exists d' found,
    update_key_label d a new_label = Returns (d', found)
    /\ (forall r, get_key_by_address d a = Some r ->
          found = true
          /\ get_key_by_address d' a = Some (set_label new_label r))
    /\ (get_key_by_address d a = None -> found = false /\ d' = d)
    /\ (forall b, b <> a ->
          get_key_by_address d' b = get_key_by_address d b).
Proof.
  intro Hk. unfold update_key_label, get_key_by_address. rewrite Hk.
  assert (Hget : forall b,
    find (fun r => String.eqb (address r) b)
      (map (fun r => if String.eqb (address r) a then set_label new_label r
                     else r) (rows t))
    = option_map (fun r => if String.eqb (address r) a
                           then set_label new_label r else r)
        (find (fun r => String.eqb (address r) b) (rows t))).
  { intro b. apply (find_map_update _ (fun r => String.eqb (address r) a)).
    reflexivity. }
  destruct (Nat.eqb (List.length
              (filter (fun r => String.eqb (address r) a) (rows t))) 0)
    eqn:Hcount.
  - apply filter_length_zero in Hcount.
    eexists _, false. split; [reflexivity|]. cbn [keys rows].
    split; [intros r Hr; congruence|].
    split.
    + intros _. split; [reflexivity|].
      rewrite (map_update_absent (fun r => String.eqb (address r) a)
                 (set_label new_label) _ Hcount).
      destruct d as [k tr]. cbn in *. subst k. now destruct t.
    + intros b Hb.
      now rewrite (map_update_absent (fun r => String.eqb (address r) a)
                     (set_label new_label) _ Hcount).
  - eexists _, true. split; [reflexivity|]. cbn [keys rows].
    split; [|split].
    + intros r Hr. split; [reflexivity|]. rewrite Hget, Hr. cbn [option_map].
      apply find_some in Hr. destruct Hr as [_ Hr]. now rewrite Hr.
    + intro Hnone. apply filter_length_zero in Hnone. congruence.
    + intros b Hb. rewrite Hget.
      destruct (find (fun r => String.eqb (address r) b) (rows t)) as [r|] eqn:Hf;
        [|reflexivity].
      cbn [option_map]. apply find_some in Hf. destruct Hf as [_ Hf].
      apply String.eqb_eq in Hf.
      replace (String.eqb (address r) a) with false; [reflexivity|].
      symmetry. apply String.eqb_neq. congruence.
Qed.

(** X19. [initialize_db] creates the tables that are missing and keeps
    the ones that exist: it never raises, running it twice is the same as
    running it once, every key record found before is found after, and
    after it [add_key_record] no longer raises. *)
Theorem initialize_db_idempotent d :
  exists d',
    initialize_db d = Returns d'
    /\ initialize_db d' = Returns d'
    /\ (forall a r, get_key_by_address d a = Some r ->
          get_key_by_address d' a = Some r)
    /\ (forall now a net ty wf lbl,
          add_key_record d' now a net ty wf lbl <> RaisesSqliteError)
    /\ (keys d <> None -> transactions d <> None -> d' = d).
Proof.
  unfold initialize_db, get_key_by_address, add_key_record.
  eexists. split; [reflexivity|]. cbn [keys transactions].
  split; [now destruct (keys d), (transactions d)|].
  split; [intros a r; now destruct (keys d)|].
  split.
  - intros now a net ty wf lbl.
    destruct (keys d) as [t|]; cbn [rows]; [destruct (existsb _ _)|]; discriminate.
  - intros Hk Ht. destruct d as [[k|] [tr|]]; cbn in *; congruence.
Qed.

Section Amounts.

Variable decimal_str : Decimal.t -> string.
Variable decimal_of_string : string -> option Decimal.t.

(** X20. On an initialised database, for a fee that fits a signed 64-bit
    integer: after [add_transaction_record] of a new txid with a [Decimal]
    amount that [Decimal(str(amount))] reads back,
    [get_transaction_by_txid] returns the record with that amount as a
    [Decimal], the fee, recipient, status and notes given; a txid that is
    already recorded keeps its old record and the database is unchanged;
    and an amount given as a text that is no number is stored, after which
    [get_transaction_by_txid] raises [decimal.InvalidOperation] for that
    txid. For a fee outside that range the call raises [OverflowError],
    whether the txid is new or not, and nothing is stored. *)
Theorem add_transaction_record_then_get d t now tx fee recipient st nts :
  transactions d = Some t ->
  (- 2 ^ 63 <= fee < 2 ^ 63 ->
   (forall dec,
      decimal_of_string (decimal_str dec) = Some dec ->
      get_transaction_by_txid decimal_of_string d tx = Returns None ->
      exists d',
        add_transaction_record decimal_str d now tx (inl dec) fee recipient st
          nts = Returns d'
        /\ get_transaction_by_txid decimal_of_string d' tx
           = Returns (Some (TransactionRecord
                              (TransactionRow (sequence t + 1) tx now
                                 (decimal_str dec) fee recipient st nts)
                              dec)))
   /\ (forall amount r,
         find (fun r => String.eqb (txid r) tx) (rows t) = Some r ->
         add_transaction_record decimal_str d now tx amount fee recipient st nts
           = Returns d)
   /\ (forall text,
         get_transaction_by_txid decimal_of_string d tx = Returns None ->
         decimal_of_string text = None ->
         exists d',
           add_transaction_record decimal_str d now tx (inr text) fee recipient
             st nts = Returns d'
           /\ get_transaction_by_txid decimal_of_string d' tx
              = RaisesInvalidOperation))
  /\ (fee < - 2 ^ 63 \/ 2 ^ 63 <= fee ->
      forall amount,
        add_transaction_record decimal_str d now tx amount fee recipient st nts
          = RaisesOverflowError).
Proof.
  intros Ht.
  unfold add_transaction_record, get_transaction_by_txid. rewrite Ht.
  assert (Habsent :
    match find (fun r => String.eqb (txid r) tx) (rows t) with
    | Some row =>
        match decimal_of_string (amount_btc row) with
        | Some dec => Returns (Some (TransactionRecord row dec))
        | None => RaisesInvalidOperation
        end
    | None => Returns None
    end = Returns None ->
    find (fun r => String.eqb (txid r) tx) (rows t) = None).
  { destruct (find _ (rows t)) as [r|]; [|reflexivity].
    destruct (decimal_of_string (amount_btc r)); discriminate. }
  split.
  - intro Hfee.
    assert (Hint : sqlite_integer fee = true).
    { unfold sqlite_integer. apply andb_true_intro.
      split; [apply Z.leb_le | apply Z.ltb_lt]; lia. }
    rewrite Hint. cbn [negb].
    split; [|split].
    + intros dec Hdec Hnone. specialize (Habsent Hnone).
      rewrite (proj1 (find_none_existsb _ _) Habsent).
      eexists. split; [reflexivity|]. cbn [transactions rows].
      rewrite (find_app_absent _ _ _ Habsent). cbn [txid].
      rewrite String.eqb_refl. cbn [amount_btc]. now rewrite Hdec.
    + intros amount r Hr.
      destruct (existsb (fun r0 => String.eqb (txid r0) tx) (rows t)) eqn:Hex;
        [reflexivity|].
      apply find_none_existsb in Hex. congruence.
    + intros text Hnone Htext. specialize (Habsent Hnone).
      rewrite (proj1 (find_none_existsb _ _) Habsent).
      eexists. split; [reflexivity|]. cbn [transactions rows].
      rewrite (find_app_absent _ _ _ Habsent). cbn [txid].
      rewrite String.eqb_refl. cbn [amount_btc]. now rewrite Htext.
  - intros Hfee amount.
    assert (Hint : sqlite_integer fee = false).
    { unfold sqlite_integer. apply andb_false_iff.
      destruct Hfee; [left; apply Z.leb_gt | right; apply Z.ltb_ge]; lia. }
    now rewrite Hint.
Qed.

(** X21. On an initialised database [update_transaction_status] returns
    [True] exactly when the txid is recorded; then
    [get_transaction_by_txid] returns the same record with the new status,
    its amount still the same [Decimal]. For an unknown txid it returns
    [False] and changes nothing. *)
Theorem update_transaction_status_then_get d t tx new_status :
  transactions d = Some t ->
  exists d' found,
    update_transaction_status d tx new_status = Returns (d', found)
    /\ (forall r dec,
          get_transaction_by_txid decimal_of_string d tx
            = Returns (Some (TransactionRecord r dec)) ->
          found = true
          /\ get_transaction_by_txid decimal_of_string d' tx
             = Returns (Some (TransactionRecord (set_status new_status r) dec)))
    /\ (find (fun r => String.eqb (txid r) tx) (rows t) = None ->
        found = false /\ d' = d)
    /\ keys d' = keys d.
Proof.
  intro Ht. unfold update_transaction_status, get_transaction_by_txid.
  rewrite Ht.
  assert (Hget :
    find (fun r => String.eqb (txid r) tx)
      (map (fun r => if String.eqb (txid r) tx then set_status new_status r
                     else r) (rows t))
    = option_map (fun r => if String.eqb (txid r) tx
                           then set_status new_status r else r)
        (find (fun r => String.eqb (txid r) tx) (rows t))).
  { apply (find_map_update _ (fun r => String.eqb (txid r) tx)). reflexivity. }
  destruct (Nat.eqb (List.length
              (filter (fun r => String.eqb (txid r) tx) (rows t))) 0)
    eqn:Hcount.
  - apply filter_length_zero in Hcount.
    eexists _, false. split; [reflexivity|]. cbn [transactions rows keys].
    split.
    + intros r dec. rewrite Hcount. discriminate.
    + split; [|reflexivity]. intros _. split; [reflexivity|].
      rewrite (map_update_absent (fun r => String.eqb (txid r) tx)
                 (set_status new_status) _ Hcount).
      destruct d as [k tr]. cbn in *. subst tr. now destruct t.
  - eexists _, true. split; [reflexivity|]. cbn [transactions rows keys].
    split; [|split; [|reflexivity]].
    + intros r dec. rewrite Hget.
      destruct (find (fun r0 => String.eqb (txid r0) tx) (rows t))
        as [r0|] eqn:Hf; [|discriminate].
      cbn [option_map]. apply find_some in Hf. destruct Hf as [_ Hf].
      rewrite Hf. cbn [set_status amount_btc].
      destruct (decimal_of_string (amount_btc r0)); [|discriminate].
      intro H. injection H as <- <-. split; reflexivity.
    + intro Hnone. apply filter_length_zero in Hnone. congruence.
Qed.

End Amounts.

(** X17: a second record for testaddr1 is ignored, the first label stays. *)
Lemma add_key_record_then_get_witness :
  exists d',
    add_key_record db_with_key 200 "testaddr1" "testnet" "p2wpkh"
      (Some "mywallet.dat") (Some "Test Key 1 Duplicate") = Returns d'
    /\ d' = db_with_key
    /\ option_map label (get_key_by_address d' "testaddr1")
       = Some (Some "Test Key 1").
Proof.
  destruct (add_key_record_then_get db_with_key 200 "testaddr1" "testnet"
              "p2wpkh" (Some "mywallet.dat") (Some "Test Key 1 Duplicate"))
    as (d' & Hadd & _ & Hdup & _).
  exists d'. split; [exact Hadd|].
  destruct (Hdup _ eq_refl) as [-> _]. split; reflexivity.
Defined.

(** X18: the label of testaddr1 is replaced. *)
Lemma update_key_label_then_get_witness :
  keys db_with_key
    = Some (Table [KeyRow 1 "testaddr1" (Some "mywallet.dat")
                     (Some "Test Key 1") "testnet" "p2wpkh" 100] 1)
  /\ exists d' found,
       update_key_label db_with_key "testaddr1" "My Primary Test Key"
         = Returns (d', found)
       /\ found = true
       /\ option_map label (get_key_by_address d' "testaddr1")
          = Some (Some "My Primary Test Key").
Proof.
  split; [reflexivity|].
  destruct (update_key_label_then_get db_with_key _ "testaddr1"
              "My Primary Test Key" eq_refl)
    as (d' & found & Hupd & Hfound & _).
  exists d', found. split; [exact Hupd|].
  destruct (Hfound _ eq_refl) as [-> ->]. split; reflexivity.
Defined.

(** X20: 0.5 BTC is stored as text and read back as a Decimal; with a
    fee of 2^63 satoshis the same call raises [OverflowError]. *)
Lemma add_transaction_record_then_get_witness :
  transactions db_with_key = Some (Table [] 0)
  /\ - 2 ^ 63 <= 5000 < 2 ^ 63
  /\ decimal_of_string_example (decimal_str_example (Decimal.Dec 5 (-1)))
     = Some (Decimal.Dec 5 (-1))
  /\ (exists d',
        add_transaction_record decimal_str_example db_with_key 100
          "txid_example_123" (inl (Decimal.Dec 5 (-1))) 5000 "recipient_addr_1"
          "broadcasted" (Some "Sent to friend") = Returns d'
        /\ d' = Db (keys db_with_key) (transactions db_with_transaction))
  /\ add_transaction_record decimal_str_example db_with_key 100
       "txid_example_123" (inl (Decimal.Dec 5 (-1))) (2 ^ 63) "recipient_addr_1"
       "broadcasted" (Some "Sent to friend") = RaisesOverflowError.
Proof.
  assert (Hfee : - 2 ^ 63 <= 5000 < 2 ^ 63) by (split; reflexivity || discriminate).
  split; [reflexivity|]. split; [exact Hfee|]. split; [reflexivity|]. split.
  - destruct (proj1 (proj1 (add_transaction_record_then_get decimal_str_example
                decimal_of_string_example db_with_key _ 100 "txid_example_123"
                5000 "recipient_addr_1" "broadcasted" (Some "Sent to friend")
                eq_refl) Hfee) (Decimal.Dec 5 (-1)) eq_refl eq_refl)
      as (d' & Hadd & _).
    exists d'. split; [exact Hadd|].
    cbn in Hadd. now injection Hadd as <-.
  - exact (proj2 (add_transaction_record_then_get decimal_str_example
                    decimal_of_string_example db_with_key _ 100
                    "txid_example_123" (2 ^ 63) "recipient_addr_1" "broadcasted"
                    (Some "Sent to friend") eq_refl)
             (or_intror (Z.le_refl _)) (inl (Decimal.Dec 5 (-1)))).
Defined.

(** X21: the status of the recorded transaction is replaced. *)
Lemma update_transaction_status_then_get_witness :
  transactions db_with_transaction
    = Some (Table [TransactionRow 1 "txid_example_123" 100 "0.5" 5000
                     "recipient_addr_1" "broadcasted" (Some "Sent to friend")]
              1)
  /\ exists d' found,
       update_transaction_status db_with_transaction "txid_example_123"
         "confirmed (6+)" = Returns (d', found)
       /\ found = true.
Proof.
  split; [reflexivity|].
  destruct (update_transaction_status_then_get decimal_of_string_example
              db_with_transaction _ "txid_example_123" "confirmed (6+)" eq_refl)
    as (d' & found & Hupd & Hfound & _).
  exists d', found. split; [exact Hupd|].
  exact (proj1 (Hfound _ _ eq_refl)).
Defined.

End DatabaseTheorems.

(* ================================================================== *)
(** ** Selection and the order of the input *)

Module SelectionPermutation.
Import tx_builder Selection SelectionFacts SelectionOrder SelectionExtras Scenario.

Lemma nodup_map_injective {A B} (f : A -> B) l :
  NoDup (map f l) ->
  forall x y, In x l -> In y l -> f x = f y -> x = y.
Proof.
  induction l as [|a l IH]; cbn [map]; intros Hnd x y Hx Hy Hf; [easy|].
  apply NoDup_cons_iff in Hnd. destruct Hnd as [Hna Hnd].
  destruct Hx as [<- | Hx], Hy as [<- | Hy].
  - reflexivity.
  - exfalso. apply Hna. rewrite Hf. now apply in_map.
  - exfalso. apply Hna. rewrite <- Hf. now apply in_map.
  - now apply IH.
Qed.

(** Two descending arrangements of the same UTXOs coincide when no two
    of them have the same amount. *)
Lemma sorted_permutation_unique l1 :
  forall l2,
  StronglySorted (fun u v => sats u >= sats v) l1 ->
  StronglySorted (fun u v => sats u >= sats v) l2 ->
  Permutation l1 l2 ->
  (forall x y, In x l1 -> In y l1 -> sats x = sats y -> x = y) ->
  l1 = l2.
Proof.
  induction l1 as [|x r1 IH]; intros l2 Hs1 Hs2 Hperm Hinj.
  - apply Permutation_nil in Hperm. now subst.
  - destruct l2 as [|y r2];
      [apply Permutation_sym, Permutation_nil in Hperm; discriminate|].
    apply StronglySorted_inv in Hs1. destruct Hs1 as [Hs1 Hx].
    apply StronglySorted_inv in Hs2. destruct Hs2 as [Hs2 Hy].
    rewrite Forall_forall in Hx, Hy.
    assert (Hyin : In y (x :: r1)).
    { eapply Permutation_in; [apply Permutation_sym, Hperm | now left]. }
    assert (Hxin : In x (y :: r2)).
    { eapply Permutation_in; [exact Hperm | now left]. }
    assert (Hxy : x = y).
    { apply Hinj; [now left | exact Hyin |].
      assert (Hge1 : sats x >= sats y)
        by (destruct Hyin as [<- | Hin1]; [lia | now apply Hx]).
      assert (Hge2 : sats y >= sats x)
        by (destruct Hxin as [<- | Hin2]; [lia | now apply Hy]).
      lia. }
    subst y. f_equal. apply IH; try assumption.
    + eapply Permutation_cons_inv; exact Hperm.
    + intros a b Ha Hb. apply Hinj; now right.
Qed.

(** X22. The result of [select_utxos_for_amount] does not depend on the
    order in which the UTXOs are listed, as long as they all carry the
    four keys and no two of them have the same satoshi value. *)
Theorem select_utxos_for_amount_order_independent
    target rate it ot utxos utxos' :
  Permutation utxos utxos' ->
  Forall well_formed utxos ->
  NoDup (map utxo_value utxos) ->
  select_utxos_for_amount target rate it ot utxos
    = select_utxos_for_amount target rate it ot utxos'.
Proof.
  intros Hperm Hwf Hnd.
  assert (Hwf' : Forall well_formed utxos').
  { apply Forall_forall. intros u Hu. rewrite Forall_forall in Hwf.
    apply Hwf. eapply Permutation_in; [apply Permutation_sym, Hperm | exact Hu]. }
  unfold select_utxos_for_amount.
  destruct utxos as [|u0 us] eqn:Hu.
  { apply Permutation_nil in Hperm. now subst. }
  destruct utxos' as [|u0' us'] eqn:Hu'.
  { apply Permutation_sym, Permutation_nil in Hperm. discriminate. }
  rewrite <- Hu, <- Hu' in *.
  rewrite (validate_and_convert_ok utxos Hwf 0).
  rewrite (validate_and_convert_ok utxos' Hwf' 0). cbn [bind].
  assert (Hann : forall l, Forall annotated (map annotate l)).
  { intro l. apply Forall_forall. intros x Hx. apply in_map_iff in Hx.
    destruct Hx as (y & <- & _). apply annotated_annotate. }
  destruct (sort_by_satoshi_amount_desc_ok _ (Hann utxos)) as (s1 & Hs1 & _).
  destruct (sort_by_satoshi_amount_desc_ok _ (Hann utxos')) as (s2 & Hs2 & _).
  destruct (sort_by_satoshi_amount_desc_spec _ _ (Hann utxos) Hs1)
    as (Hp1 & Hsorted1 & _).
  destruct (sort_by_satoshi_amount_desc_spec _ _ (Hann utxos') Hs2)
    as (Hp2 & Hsorted2 & _).
  rewrite Hs1, Hs2.
  assert (Heq : s1 = s2).
  { apply sorted_permutation_unique; try assumption.
    - eapply perm_trans; [exact Hp1|].
      eapply perm_trans; [apply Permutation_map, Hperm|].
      apply Permutation_sym, Hp2.
    - intros x y Hx Hy Hxy.
      apply (Permutation_in _ Hp1) in Hx. apply (Permutation_in _ Hp1) in Hy.
      apply in_map_iff in Hx. destruct Hx as (a & <- & Ha).
      apply in_map_iff in Hy. destruct Hy as (b & <- & Hb).
      rewrite !sats_annotate in Hxy.
      now rewrite (nodup_map_injective utxo_value utxos Hnd a b Ha Hb Hxy). }
  now rewrite Heq.
Qed.

(** X22 at the test block's UTXOs, listed both ways. *)
Lemma select_utxos_for_amount_order_independent_witness :
  Permutation [utxo_0_005; utxo_0_003] [utxo_0_003; utxo_0_005]
  /\ Forall well_formed [utxo_0_005; utxo_0_003]
  /\ NoDup (map utxo_value [utxo_0_005; utxo_0_003])
  /\ select_utxos_for_amount 200000 2 "p2wpkh" "p2pkh" [utxo_0_005; utxo_0_003]
     = select_utxos_for_amount 200000 2 "p2wpkh" "p2pkh" [utxo_0_003; utxo_0_005].
Proof.
  assert (H1 : Permutation [utxo_0_005; utxo_0_003] [utxo_0_003; utxo_0_005])
    by apply perm_swap.
  assert (H2 : Forall well_formed [utxo_0_005; utxo_0_003])
    by (repeat constructor).
  assert (H3 : NoDup (map utxo_value [utxo_0_005; utxo_0_003])).
  { repeat constructor; cbn; intuition discriminate. }
  split; [exact H1|]. split; [exact H2|]. split; [exact H3|].
  exact (select_utxos_for_amount_order_independent 200000 2 "p2wpkh" "p2pkh"
           _ _ H1 H2 H3).
Defined.

End SelectionPermutation.
